(** * The RG16 reader of ObsPy ([obspy/io/rg16/core.py]), embedded in Rocq

    The Python functions are translated one by one, keeping their names.
    Conventions of the embedding:
    - a byte source is a [list byte]; positions and integer fields are [Z];
    - a call that may raise returns a [result]; the exceptions are those
      the Python code raises ([ValueError] from a short read, [KeyError]
      from a failed dictionary lookup, [AssertionError] from [assert],
      [ZeroDivisionError] and [IndexError]);
    - a Python float (binary64) is represented by the rational number it
      denotes, in [Q], and every arithmetic operation rounds its exact
      result to the nearest binary64 value, ties to even ([round64]); the
      floats of this program come from integers below [2^64] by a few
      divisions, products and sums, so that neither an infinity nor a NaN
      arises, and comparing two floats is comparing their values;
    - IEEE single precision values read from the file are kept as their
      32-bit patterns, negation flips the sign bit;
    - division is Python 3's true division: between two integers it is the
      correctly rounded quotient, between an integer and a float the
      integer is converted first. *)

From Stdlib Require Import ZArith QArith Qabs Qpower List String Ascii Bool.
From Stdlib Require Import Lia Lqa.
From Stdlib Require Import Floats.SpecFloat.
From Stdlib Require Import Strings.Byte.
From Stdlib Require Import DecimalString DecimalPos DecimalZ Permutation.
From Stdlib Require Import Sorted.
Import ListNotations.

Local Close Scope Q_scope.
Local Open Scope string_scope.
Local Open Scope list_scope.
Local Open Scope Z_scope.

(** ** Exceptions and the error monad *)

Inductive exn : Type :=
| ValueError
| ZeroDivisionError
| KeyError (dict : string) (key : string)
| AssertionError
| IndexError.

Inductive result (A : Type) : Type :=
| Ok (a : A)
| Raise (e : exn).

Arguments Ok {A} a.
Arguments Raise {A} e.

Definition bind {A B : Type} (m : result A) (k : A -> result B) : result B :=
  match m with
  | Ok a => k a
  | Raise e => Raise e
  end.

Notation "x <- m ;; k" := (bind m (fun x => k))
  (at level 61, m at next level, right associativity).
Notation "' p <- m ;; k" := (bind m (fun x => match x with p => k end))
  (at level 61, p pattern, m at next level, right associativity).

(** Python's [str] on a non-negative integer. *)
Definition str (z : Z) : string := NilZero.string_of_int (Z.to_int z).

(** A dictionary with string keys, in insertion order. *)
Definition dict (V : Type) : Type := list (string * V).

Fixpoint dict_find {V : Type} (d : dict V) (k : string) : option V :=
  match d with
  | [] => None
  | (k', v) :: d' => if String.eqb k k' then Some v else dict_find d' k
  end.

(** [d[k]]: raises [KeyError]; [name] records which table was consulted. *)
Definition dict_get {V : Type} (name : string) (d : dict V) (k : string)
  : result V :=
  match dict_find d k with
  | Some v => Ok v
  | None => Raise (KeyError name k)
  end.

(** [d[k] = v] *)
Fixpoint dict_set {V : Type} (d : dict V) (k : string) (v : V) : dict V :=
  match d with
  | [] => [(k, v)]
  | (k', v') :: d' =>
      if String.eqb k k' then (k', v) :: d' else (k', v') :: dict_set d' k v
  end.

(** [d.update(d2)] *)
Definition dict_update {V : Type} (d d2 : dict V) : dict V :=
  fold_left (fun acc kv => dict_set acc (fst kv) (snd kv)) d2 d.

(** ** The byte source and the field reader *)

Definition source : Type := list byte.

Definition byte_val (b : byte) : Z := Z.of_N (Byte.to_N b).

(** Width of a field in bytes: [W n] is [n] bytes, [Wh n] is [n + 0.5]
    bytes (the Python code passes the floats [0.5] and [1.5]). *)
Inductive width : Type :=
| W (n : nat)
| Wh (n : nat).

Inductive int_encoding : Type := bcd | binary.

(** An IEEE-754 single precision value, as its 32-bit pattern. *)
Definition float32 : Type := Z.

Definition f32_neg (x : float32) : float32 := Z.lxor x 0x80000000.

(** [fi.seek(position); fi.read(n)], failing on a short read. *)
Definition read_bytes (fi : source) (position : Z) (n : nat)
  : result (list byte) :=
  let bs := firstn n (skipn (Z.to_nat position) fi) in
  if Nat.eqb (List.length bs) n then Ok bs else Raise ValueError.

Definition nibbles (b : byte) : list Z :=
  [Z.shiftr (byte_val b) 4; Z.land (byte_val b) 15].

Definition nbr_bytes (length : width) : nat :=
  match length with W n => n | Wh n => S n end.

(** The half-bytes of a field. For a fractional width, [left_part] tells
    whether the field starts on the upper half of its first byte (and ends
    on the upper half of its last byte) or starts on the lower half. *)
Definition select_nibbles (length : width) (left_part : bool) (ns : list Z)
  : list Z :=
  match length with
  | W _ => ns
  | Wh n => if left_part then firstn (S (2 * n)) ns else skipn 1 ns
  end.

Definition digits_value (base : Z) (ds : list Z) : Z :=
  fold_left (fun acc d => acc * base + d) ds 0.

(** Modelled from the spec: the field reader [_read] of
    [obspy.io.rg16.util], which is imported by [core.py] but is not among
    the source files. Following section 4.1 of the specification: a BCD
    field is the decimal number whose digits are the half-bytes, most
    significant first (half-bytes above 9 are accepted with their numeric
    value); a binary field is an unsigned big-endian integer; a source with
    fewer than [position + ceil(length)] bytes makes the read fail, with the
    [ValueError] that [_internal_is_rg16] catches. The half-byte binary
    reads that [core.py] performs return the selected half-byte. *)
Definition _read (fi : source) (position : Z) (length : width)
  (dtype : int_encoding) (left_part : bool) : result Z :=
  bs <- read_bytes fi position (nbr_bytes length) ;;
  let ns := select_nibbles length left_part (flat_map nibbles bs) in
  Ok (digits_value (match dtype with bcd => 10 | binary => 16 end) ns).

Definition be_value (bs : list byte) : Z :=
  fold_left (fun acc b => acc * 256 + byte_val b) bs 0.

Fixpoint words_of (n : nat) (bs : list byte) : list float32 :=
  match n with
  | O => []
  | S n' => be_value (firstn 4 bs) :: words_of n' (skipn 4 bs)
  end.

(** Modelled from the spec: [_read(fi, position, 4, 'IEEE')], one
    big-endian single precision value. *)
Definition _read_IEEE (fi : source) (position : Z) : result float32 :=
  bs <- read_bytes fi position 4 ;;
  Ok (be_value bs).

(** Modelled from the spec: [_read(fi, position, nbr_bytes, 'IEEE')] for
    the sample array of a trace block (section 4.5, step 2): [nbr_bytes]
    bytes read as big-endian single precision values. *)
Definition _read_IEEE_array (fi : source) (position : Z) (nbr_bytes : Z)
  : result (list float32) :=
  bs <- read_bytes fi position (Z.to_nat nbr_bytes) ;;
  Ok (words_of (Z.to_nat (nbr_bytes / 4)) bs).

(** ** Python floats *)

(** [floor (log2 (n / d))] for positive [n] and [d]. *)
Definition floor_log2 (n d : Z) : Z :=
  let k := Z.log2 n - Z.log2 d in
  if (if 0 <=? k then d * 2 ^ k <=? n else d <=? n * 2 ^ (- k))
  then k else k - 1.

(** The integer nearest to [n / d], the even one of two that are equally
    near, for [0 <= n] and [0 < d]. *)
Definition round_half_even (n d : Z) : Z :=
  let q := n / d in
  match 2 * (n mod d) ?= d with
  | Lt => q
  | Gt => q + 1
  | Eq => if Z.even q then q else q + 1
  end.

(** The binary64 value nearest to [n / d], for positive [n] and [d]: a
    mantissa of at most 53 bits times [2 ^ e], where [e] is at least
    [-1074], the exponent of the subnormal numbers. *)
Definition round64_pos (n d : Z) : Q :=
  let e := Z.max (floor_log2 n d - 52) (-1074) in
  if 0 <=? e then inject_Z (round_half_even n (d * 2 ^ e) * 2 ^ e)
  else Qred (Qmake (round_half_even (n * 2 ^ (- e)) d)
               (Z.to_pos (2 ^ (- e)))).

(** Rounding to binary64, to nearest, ties to even. Results beyond the
    largest binary64 value (about [1.8e308]) do not arise in this program
    and are not singled out. *)
Definition round64 (q : Q) : Q :=
  match Qnum q with
  | Z0 => 0%Q
  | Zpos n => round64_pos (Zpos n) (Zpos (Qden q))
  | Zneg n => Qopp (round64_pos (Zpos n) (Zpos (Qden q)))
  end.

(** [float(n)], and the operations [+], [-], [*] and [/] on two floats. *)
Definition float_of_int (n : Z) : Q := round64 (inject_Z n).

Definition float_add (x y : Q) : Q := round64 (x + y)%Q.

Definition float_sub (x y : Q) : Q := round64 (x - y)%Q.

Definition float_mul (x y : Q) : Q := round64 (x * y)%Q.

Definition float_div (x y : Q) : Q := round64 (x / y)%Q.

(** [n / d] for two integers: Python 3 returns the float nearest to the
    quotient. *)
Definition div_int (n d : Z) : Q := round64 (inject_Z n / inject_Z d)%Q.

(** [n / d] for an integer [n] and a float literal such as [1e6], whose
    value is the whole number [d]: the integer is converted first. *)
Definition div_float (n d : Z) : Q := float_div (float_of_int n) (inject_Z d).

(** [n * x] for an integer [n] and a decimal float literal [x] such as
    [2e-3]: the literal denotes the float nearest to it. *)
Definition mul_float (n : Z) (x : Q) : Q :=
  float_mul (float_of_int n) (round64 x).

(** The value of a finite number of the reference implementation of
    IEEE 754 in the standard library, to compare [round64] with. *)
Definition SF2Q (f : spec_float) : Q :=
  match f with
  | S754_finite s m e =>
      let v := if 0 <=? e then inject_Z (Zpos m * 2 ^ e)
               else Qred (Qmake (Zpos m) (Z.to_pos (2 ^ (- e)))) in
      if s then Qopp v else v
  | _ => 0%Q
  end.

Definition binary64_of_int (n : Z) : spec_float :=
  binary_normalize 53 1024 n 0 false.

(** The four operations and the two conversions on the floats [a / b] and
    [c / d], with [round64] and with the reference implementation. *)
Definition agrees_with_reference (x : Z * Z * Z * Z) : bool :=
  let '(a, b, c, d) := x in
  let reference a b :=
    SFdiv 53 1024 (binary64_of_int a) (binary64_of_int b) in
  (Qeq_bool (div_int a b) (SF2Q (reference a b))
   && Qeq_bool (float_add (div_int a b) (div_int c d))
        (SF2Q (SFadd 53 1024 (reference a b) (reference c d)))
   && Qeq_bool (float_sub (div_int a b) (div_int c d))
        (SF2Q (SFsub 53 1024 (reference a b) (reference c d)))
   && Qeq_bool (float_mul (div_int a b) (div_int c d))
        (SF2Q (SFmul 53 1024 (reference a b) (reference c d)))
   && Qeq_bool (float_div (div_int a b) (div_int c d))
        (SF2Q (SFdiv 53 1024 (reference a b) (reference c d)))
   && Qeq_bool (div_float (a * 2048 + 1) 1000000)
        (SF2Q (SFdiv 53 1024 (binary64_of_int (a * 2048 + 1))
                 (binary64_of_int 1000000))))%bool.

Definition reference_sample : list (Z * Z * Z * Z) :=
  [(907797, 1017292480428, 473781, 647917487441);
   (2, 693533122183, 205269272660, 1);
   (37, 1, 438010185525, 685688);
   (5855318673556607, 5, 1, 1);
   (2, 854827695637, 342144, 619666);
   (5, 6, 128, 1);
   (686610, 105, 1026478679475, 1);
   (195, 5, 8, 1);
   (113040, 99, 1, 1923050134288003);
   (1, 393702, 3781144885435084, 1);
   (3034459977810777, 1, 4, 794864);
   (1, 6, 1, 1);
   (186310, 1696823721719649, 533585, 6);
   (4, 1049408187502264, 441195, 1);
   (222, 1096522953929, 1, 4);
   (634116855659, 1, 2, 270824);
   (1, 99, 1, 1);
   (269022094459, 1, 160, 133401);
   (916905615079, 949770762465, 191709, 2799537654950290);
   (7, 795640537929, 2, 8470416943523734);
   (4503599627370497, 3, 1, 3);
   (9007199254740991, 9007199254740991, 1, 1);
   (1, 9007199254740991, 9007199254740991, 1);
   (5, 10, 1, 10)].

Arguments round64 : simpl never.
Arguments float_of_int : simpl never.
Arguments float_add : simpl never.
Arguments float_sub : simpl never.
Arguments float_mul : simpl never.
Arguments float_div : simpl never.
Arguments div_int : simpl never.
Arguments div_float : simpl never.
Arguments mul_float : simpl never.

(** A single precision value multiplied by a Python float. *)
Record scaled_float32 : Type := { f32_bits : float32; f32_factor : Q }.

(** Modelled from the spec: a [UTCDateTime] is constructed from a float,
    the seconds since the epoch, and [.timestamp] gives that float back
    (section 6); it is represented by its time stamp. *)
Definition UTCDateTime : Type := Q.

(** [range(a, b)] and a [for] loop over it that threads a state. *)
Definition range (a b : Z) : list Z :=
  map Z.of_nat (seq (Z.to_nat a) (Z.to_nat (b - a))).

Fixpoint for_each {S : Type} (l : list Z) (body : Z -> S -> result S) (s : S)
  : result S :=
  match l with
  | [] => Ok s
  | i :: l' => s' <- body i s ;; for_each l' body s'
  end.

(** ** The initial headers *)

Record general_header_1 : Type := {
  gh1_file_number : Z;
  gh1_sample_format_code : Z;
  gh1_general_constant : Z;
  gh1_time_slice_year : Z;
  gh1_nbr_add_general_header : Z;
  gh1_julian_day : Z;
  gh1_time_slice : Z;
  gh1_manufacturer_code : Z;
  gh1_manufacturer_serial_number : Z;
  gh1_base_scan_interval : Z;
  gh1_polarity_code : Z;
  gh1_record_type : Z;
  gh1_scan_type_per_record : Z;
  gh1_nbr_channel_set : Z;
  gh1_nbr_skew_block : Z
}.

Definition _read_general_header_1 (fi : source) : result general_header_1 :=
  file_number <- _read fi 0 (W 2) bcd true ;;
  sample_format_code <- _read fi 2 (W 2) bcd true ;;
  general_constant <- _read fi 4 (W 6) bcd true ;;
  time_slice_year <- _read fi 10 (W 1) bcd true ;;
  nbr_add_general_header <- _read fi 11 (Wh 0) bcd true ;;
  julian_day <- _read fi 11 (Wh 1) bcd false ;;
  time_slice <- _read fi 13 (W 3) bcd true ;;
  manufacturer_code <- _read fi 16 (W 1) bcd true ;;
  manufacturer_serial_number <- _read fi 17 (W 2) bcd true ;;
  base_scan_interval <- _read fi 22 (W 1) binary true ;;
  polarity_code <- _read fi 23 (Wh 0) binary true ;;
  record_type <- _read fi 25 (Wh 0) binary true ;;
  scan_type_per_record <- _read fi 27 (W 1) bcd true ;;
  nbr_channel_set <- _read fi 28 (W 1) bcd true ;;
  nbr_skew_block <- _read fi 29 (W 1) bcd true ;;
  Ok {| gh1_file_number := file_number;
        gh1_sample_format_code := sample_format_code;
        gh1_general_constant := general_constant;
        gh1_time_slice_year := time_slice_year;
        gh1_nbr_add_general_header := nbr_add_general_header;
        gh1_julian_day := julian_day;
        gh1_time_slice := time_slice;
        gh1_manufacturer_code := manufacturer_code;
        gh1_manufacturer_serial_number := manufacturer_serial_number;
        gh1_base_scan_interval := base_scan_interval;
        gh1_polarity_code := polarity_code;
        gh1_record_type := record_type;
        gh1_scan_type_per_record := scan_type_per_record;
        gh1_nbr_channel_set := nbr_channel_set;
        gh1_nbr_skew_block := nbr_skew_block |}.

Record general_header_2 : Type := {
  gh2_extended_file_number : Z;
  gh2_extended_channel_sets_per_scan_type : Z;
  gh2_extended_header_blocks : Z;
  gh2_external_header_blocks : Z;
  gh2_version_number : Z;
  gh2_extended_record_length : Z;
  gh2_general_header_block_number : Z
}.

Definition _read_general_header_2 (fi : source) : result general_header_2 :=
  extended_file_number <- _read fi 32 (W 3) binary true ;;
  extended_channel_sets <- _read fi 35 (W 2) binary true ;;
  extended_header_blocks <- _read fi 37 (W 2) binary true ;;
  external_header_blocks <- _read fi 39 (W 3) binary true ;;
  version_number <- _read fi 42 (W 2) binary true ;;
  extended_record_length <- _read fi 46 (W 3) binary true ;;
  general_header_block_number <- _read fi 50 (W 1) binary true ;;
  Ok {| gh2_extended_file_number := extended_file_number;
        gh2_extended_channel_sets_per_scan_type := extended_channel_sets;
        gh2_extended_header_blocks := extended_header_blocks;
        gh2_external_header_blocks := external_header_blocks;
        gh2_version_number := version_number;
        gh2_extended_record_length := extended_record_length;
        gh2_general_header_block_number := general_header_block_number |}.

Record channel_set : Type := {
  cs_scan_type_number : Z;
  cs_channel_set_number : Z;
  cs_channel_set_start_time : Q;
  cs_channel_set_end_time : Q;
  cs_optionnal_MP_factor : Z;
  cs_mp_factor_descaler_multiplier : Z;
  cs_nbr_channels_in_channel_set : Z;
  cs_channel_type_code : Z;
  cs_nbr_sub_scans : Z;
  cs_gain_control_type : Z;
  cs_alias_filter_frequency : Z;
  cs_alias_filter_slope : Z;
  cs_low_cut_filter_freq : Z;
  cs_low_cut_filter_slope : Z;
  cs_notch_filter_freq : Q;
  cs_notch_2_filter_freq : Q;
  cs_notch_3_filter_freq : Q;
  cs_extended_channel_set_number : Z;
  cs_extended_header_flag : Z;
  cs_nbr_32_byte_trace_header_extension : Z;
  cs_vertical_stack_size : Z;
  cs_RU_channel_number : Z;
  cs_array_forming : Z
}.

Definition _read_channel_set (fi : source) (start_byte : Z)
  : result channel_set :=
  scan_type_number <- _read fi start_byte (W 1) bcd true ;;
  channel_set_number <- _read fi (start_byte + 1) (W 1) bcd true ;;
  start_time <- _read fi (start_byte + 2) (W 2) binary true ;;
  end_time <- _read fi (start_byte + 4) (W 2) binary true ;;
  optionnal_MP_factor <- _read fi (start_byte + 6) (W 1) binary true ;;
  mp_factor_descaler <- _read fi (start_byte + 7) (W 1) binary true ;;
  nbr_channels <- _read fi (start_byte + 8) (W 2) bcd true ;;
  channel_type_code <- _read fi (start_byte + 10) (Wh 0) binary true ;;
  nbr_sub_scans <- _read fi (start_byte + 11) (Wh 0) bcd true ;;
  gain_control_type <- _read fi (start_byte + 11) (Wh 0) bcd false ;;
  alias_filter_frequency <- _read fi (start_byte + 12) (W 2) bcd true ;;
  alias_filter_slope <- _read fi (start_byte + 14) (W 2) bcd true ;;
  low_cut_filter_freq <- _read fi (start_byte + 16) (W 2) bcd true ;;
  low_cut_filter_slope <- _read fi (start_byte + 18) (W 2) bcd true ;;
  notch_filter_freq <- _read fi (start_byte + 20) (W 2) bcd true ;;
  notch_2_filter_freq <- _read fi (start_byte + 22) (W 2) bcd true ;;
  notch_3_filter_freq <- _read fi (start_byte + 24) (W 2) bcd true ;;
  extended_channel_set_number <-
    _read fi (start_byte + 26) (W 2) binary true ;;
  extended_header_flag <- _read fi (start_byte + 28) (Wh 0) binary true ;;
  nbr_32_byte <- _read fi (start_byte + 28) (Wh 0) binary false ;;
  vertical_stack_size <- _read fi (start_byte + 29) (W 1) binary true ;;
  RU_channel_number <- _read fi (start_byte + 30) (W 1) binary true ;;
  array_forming <- _read fi (start_byte + 31) (W 1) binary true ;;
  Ok {| cs_scan_type_number := scan_type_number;
        cs_channel_set_number := channel_set_number;
        cs_channel_set_start_time := mul_float start_time (2 # 1000);
        cs_channel_set_end_time := mul_float end_time (2 # 1000);
        cs_optionnal_MP_factor := optionnal_MP_factor;
        cs_mp_factor_descaler_multiplier := mp_factor_descaler;
        cs_nbr_channels_in_channel_set := nbr_channels;
        cs_channel_type_code := channel_type_code;
        cs_nbr_sub_scans := nbr_sub_scans;
        cs_gain_control_type := gain_control_type;
        cs_alias_filter_frequency := alias_filter_frequency;
        cs_alias_filter_slope := alias_filter_slope;
        cs_low_cut_filter_freq := low_cut_filter_freq;
        cs_low_cut_filter_slope := low_cut_filter_slope;
        cs_notch_filter_freq := div_int notch_filter_freq 10;
        cs_notch_2_filter_freq := div_int notch_2_filter_freq 10;
        cs_notch_3_filter_freq := div_int notch_3_filter_freq 10;
        cs_extended_channel_set_number := extended_channel_set_number;
        cs_extended_header_flag := extended_header_flag;
        cs_nbr_32_byte_trace_header_extension := nbr_32_byte;
        cs_vertical_stack_size := vertical_stack_size;
        cs_RU_channel_number := RU_channel_number;
        cs_array_forming := array_forming |}.

(** The loop state is [(channel_sets, start_byte)]. *)
Definition _read_channel_sets (fi : source) : result (dict channel_set) :=
  nbr_channel_set <- _read fi 28 (W 1) bcd true ;;
  '(channel_sets, _) <-
    for_each (range 0 nbr_channel_set)
      (fun i '(channel_sets, start_byte) =>
         cs <- _read_channel_set fi start_byte ;;
         Ok (dict_set channel_sets (str (i + 1)) cs, start_byte + 32))
      ([], 64) ;;
  Ok channel_sets.

Record extended_header_1 : Type := {
  eh1_id_ru : Z;
  eh1_deployment_time : UTCDateTime;
  eh1_pick_up_time : UTCDateTime;
  eh1_start_time_ru : UTCDateTime
}.

Definition _read_extended_header_1 (fi : source) (start_byte : Z)
  : result extended_header_1 :=
  id_ru <- _read fi start_byte (W 8) binary true ;;
  deployment_time <- _read fi (start_byte + 8) (W 8) binary true ;;
  pick_up_time <- _read fi (start_byte + 16) (W 8) binary true ;;
  start_time_ru <- _read fi (start_byte + 24) (W 8) binary true ;;
  Ok {| eh1_id_ru := id_ru;
        eh1_deployment_time := div_int deployment_time 1000000;
        eh1_pick_up_time := div_int pick_up_time 1000000;
        eh1_start_time_ru := div_int start_time_ru 1000000 |}.

Record extended_header_2 : Type := {
  eh2_acquisition_drift_window : scaled_float32;
  eh2_clock_drift : Q;
  eh2_clock_stop_method : string;
  eh2_frequency_drift : string;
  eh2_oscillator_type : string;
  eh2_data_collection_method : string;
  eh2_nbr_time_slices : Z;
  eh2_nbr_files : Z;
  eh2_file_number : Z;
  eh2_data_decimation : string;
  eh2_original_base_scan_interval : Z;
  eh2_number_decimation_filter_coefficient : Z
}.

Definition leg_clock_stop : dict string :=
  [("0", "normal"); ("1", "storage full"); ("2", "power loss");
   ("3", "reboot")].

Definition leg_freq_drift : dict string :=
  [("0", "not within specification"); ("1", "within specification")].

Definition leg_oscillator_type : dict string :=
  [("0", "control board"); ("1", "atomic"); ("2", "ovenized");
   ("3", "double ovenized"); ("4", "disciplined")].

Definition leg_data_collection : dict string :=
  [("0", "normal"); ("1", "continuous");
   ("2", "shot sliced with guard band")].

Definition leg_data_decimation : dict string :=
  [("0", "not decimated"); ("1", "decimated data")].

Definition _read_extended_header_2 (fi : source) (start_byte : Z)
  : result extended_header_2 :=
  drift_window <- _read_IEEE fi start_byte ;;
  clock_drift <- _read fi (start_byte + 4) (W 8) binary true ;;
  key <- _read fi (start_byte + 12) (W 1) binary true ;;
  clock_stop_method <- dict_get "leg_clock_stop" leg_clock_stop (str key) ;;
  key <- _read fi (start_byte + 13) (W 1) binary true ;;
  frequency_drift <- dict_get "leg_freq_drift" leg_freq_drift (str key) ;;
  key <- _read fi (start_byte + 14) (W 1) binary true ;;
  oscillator_type <-
    dict_get "leg_oscillator_type" leg_oscillator_type (str key) ;;
  key <- _read fi (start_byte + 15) (W 1) binary true ;;
  data_collection_method <-
    dict_get "leg_data_collection" leg_data_collection (str key) ;;
  nbr_time_slices <- _read fi (start_byte + 16) (W 4) binary true ;;
  nbr_files <- _read fi (start_byte + 20) (W 4) binary true ;;
  file_number <- _read fi (start_byte + 24) (W 4) binary true ;;
  key <- _read fi (start_byte + 28) (W 1) binary true ;;
  data_decimation <-
    dict_get "leg_data_decimation" leg_data_decimation (str key) ;;
  original_base_scan_interval <-
    _read fi (start_byte + 29) (W 1) binary true ;;
  nbr_dec_coeff <- _read fi (start_byte + 30) (W 2) binary true ;;
  Ok {| eh2_acquisition_drift_window :=
          {| f32_bits := drift_window;
             f32_factor := round64 (1 # 1000000) |};
        eh2_clock_drift := mul_float clock_drift (1 # 1000000000);
        eh2_clock_stop_method := clock_stop_method;
        eh2_frequency_drift := frequency_drift;
        eh2_oscillator_type := oscillator_type;
        eh2_data_collection_method := data_collection_method;
        eh2_nbr_time_slices := nbr_time_slices;
        eh2_nbr_files := nbr_files;
        eh2_file_number := file_number;
        eh2_data_decimation := data_decimation;
        eh2_original_base_scan_interval := original_base_scan_interval;
        eh2_number_decimation_filter_coefficient := nbr_dec_coeff |}.

Record extended_header_3 : Type := {
  eh3_receiver_line_number : Z;
  eh3_receiver_point : Z;
  eh3_receiver_point_index : Z;
  eh3_first_shot_line : Z;
  eh3_first_shot_point : Z;
  eh3_first_shot_point_index : Z;
  eh3_last_shot_line : Z;
  eh3_last_shot_point : Z;
  eh3_last_shot_point_index : Z
}.

Definition _read_extended_header_3 (fi : source) (start_byte : Z)
  : result extended_header_3 :=
  receiver_line_number <- _read fi start_byte (W 4) binary true ;;
  receiver_point <- _read fi (start_byte + 4) (W 4) binary true ;;
  receiver_point_index <- _read fi (start_byte + 8) (W 1) binary true ;;
  first_shot_line <- _read fi (start_byte + 9) (W 4) binary true ;;
  first_shot_point <- _read fi (start_byte + 13) (W 4) binary true ;;
  first_shot_point_index <- _read fi (start_byte + 17) (W 1) binary true ;;
  last_shot_line <- _read fi (start_byte + 18) (W 4) binary true ;;
  last_shot_point <- _read fi (start_byte + 22) (W 4) binary true ;;
  last_shot_point_index <- _read fi (start_byte + 26) (W 1) binary true ;;
  Ok {| eh3_receiver_line_number := receiver_line_number;
        eh3_receiver_point := receiver_point;
        eh3_receiver_point_index := receiver_point_index;
        eh3_first_shot_line := first_shot_line;
        eh3_first_shot_point := first_shot_point;
        eh3_first_shot_point_index := first_shot_point_index;
        eh3_last_shot_line := last_shot_line;
        eh3_last_shot_point := last_shot_point;
        eh3_last_shot_point_index := last_shot_point_index |}.

(** Extended header blocks after the third: decimation filter
    coefficients. The loop state is [(extended_header, start_byte)]. *)
Definition _read_extended_header (fi : source) (start_byte : Z)
  (block_number : Z) (nbr_coeff : Z) : result (dict float32) :=
  '(extended_header, _) <-
    for_each (range 0 nbr_coeff)
      (fun i '(extended_header, start_byte) =>
         coeff <- _read_IEEE fi start_byte ;;
         Ok (dict_set extended_header ("coeff_" ++ str (i + 1))%string coeff,
             start_byte + 4))
      ([], start_byte) ;;
  Ok extended_header.

(** The dictionary [extended_headers]: the entries ['1'], ['2'] and ['3']
    have their own layouts, the later ones are coefficient blocks. *)
Record extended_headers : Type := {
  eh_1 : extended_header_1;
  eh_2 : extended_header_2;
  eh_3 : extended_header_3;
  eh_coeff : dict (dict float32)
}.

Definition _read_extended_headers (fi : source) : result extended_headers :=
  nbr_channel_set <- _read fi 28 (W 1) bcd true ;;
  let start_byte := 32 + 32 + 32 * nbr_channel_set in
  h1 <- _read_extended_header_1 fi start_byte ;;
  let start_byte := start_byte + 32 in
  h2 <- _read_extended_header_2 fi start_byte ;;
  let start_byte := start_byte + 32 in
  h3 <- _read_extended_header_3 fi start_byte ;;
  nbr_extended_headers <- _read fi 37 (W 2) binary true ;;
  blocks <-
    (if 3 <? nbr_extended_headers then
       let coeffs := eh2_number_decimation_filter_coefficient h2 in
       let nbr_coeff_remain := coeffs mod 8 in
       '(blocks, _) <-
         for_each (range 3 nbr_extended_headers)
           (fun i '(blocks, start_byte) =>
              let start_byte := start_byte + 32 in
              let extended_header_name := str (i + 1) in
              header <-
                (if i =? nbr_extended_headers - 1 then
                   _read_extended_header fi start_byte (i + 1)
                     nbr_coeff_remain
                 else _read_extended_header fi start_byte (i + 1) 8) ;;
              Ok (dict_set blocks extended_header_name header, start_byte))
           ([], start_byte) ;;
       Ok blocks
     else Ok []) ;;
  Ok {| eh_1 := h1; eh_2 := h2; eh_3 := h3; eh_coeff := blocks |}.

Record initial_headers : Type := {
  ih_general_header_1 : general_header_1;
  ih_general_header_2 : general_header_2;
  ih_channel_sets_descriptor : dict channel_set;
  ih_extended_headers : extended_headers
}.

Definition _internal_read_initial_headers (fi : source)
  : result initial_headers :=
  gh1 <- _read_general_header_1 fi ;;
  gh2 <- _read_general_header_2 fi ;;
  cs <- _read_channel_sets fi ;;
  eh <- _read_extended_headers fi ;;
  Ok {| ih_general_header_1 := gh1;
        ih_general_header_2 := gh2;
        ih_channel_sets_descriptor := cs;
        ih_extended_headers := eh |}.

(** The source is already a bytes buffer. *)
Definition _read_initial_headers (filename : source)
  : result initial_headers :=
  _internal_read_initial_headers filename.

(** ** Geometry of the file *)

Definition _cmp_nbr_headers (fi : source) : result (Z * Z * Z) :=
  nbr_channel_set_headers <- _read fi 28 (W 1) bcd true ;;
  nbr_extended_headers <- _read fi 37 (W 2) binary true ;;
  nbr_external_headers <- _read fi 39 (W 3) binary true ;;
  Ok (nbr_channel_set_headers, nbr_extended_headers, nbr_external_headers).

Definition _cmp_nbr_records (fi : source) : result Z :=
  initial_header <- _read_initial_headers fi ;;
  let channel_sets_descriptor := ih_channel_sets_descriptor initial_header in
  let channels_number :=
    nodup Z.eq_dec
      (map (fun kv => cs_RU_channel_number (snd kv))
         channel_sets_descriptor) in
  let nbr_component := Z.of_nat (List.length channels_number) in
  let extended_header_2 := eh_2 (ih_extended_headers initial_header) in
  let nbr_time_slices := eh2_nbr_time_slices extended_header_2 in
  let nbr_records := nbr_time_slices * nbr_component in
  Ok nbr_records.

Definition _cmp_jump (fi : source) (trace_block_start : Z) : result Z :=
  nbr_trace_extension_block <-
    _read fi (trace_block_start + 9) (W 1) binary true ;;
  let nbr_bytes_header_trace := 20 + 32 * nbr_trace_extension_block in
  nbr_sample_trace <- _read fi (trace_block_start + 27) (W 3) binary true ;;
  let nbr_bytes_trace_data := nbr_sample_trace * 4 in
  let nbr_bytes_trace_block :=
    nbr_bytes_trace_data + nbr_bytes_header_trace in
  Ok nbr_bytes_trace_block.

(** ** Trace headers *)

(** The values stored in the dictionary of trace headers. *)
Inductive value : Type :=
| VInt (z : Z)
| VReal (q : Q)
| VFloat32 (x : float32)
| VStr (s : string)
| VTime (t : UTCDateTime).

Definition _read_trace_header (fi : source) (trace_block_start : Z)
  : result (dict value) :=
  trace_number <- _read fi (trace_block_start + 4) (W 2) bcd true ;;
  trace_edit_code <- _read fi (trace_block_start + 11) (W 1) binary true ;;
  Ok [("trace_number", VInt trace_number);
      ("trace_edit_code", VInt trace_edit_code)].

Definition _read_trace_header_1 (fi : source) (trace_block_start : Z)
  : result (dict value) :=
  let pos := trace_block_start + 20 in
  extended_receiver_line_nbr <- _read fi (pos + 10) (W 5) binary true ;;
  ext_receiver_point_nbr <- _read fi (pos + 15) (W 5) binary true ;;
  sensor_type <- _read fi (pos + 20) (W 1) binary true ;;
  trace_count_file <- _read fi (pos + 21) (W 4) binary true ;;
  Ok [("extended_receiver_line_nbr", VInt extended_receiver_line_nbr);
      ("extended_receiver_point_nbr", VInt ext_receiver_point_nbr);
      ("sensor_type", VInt sensor_type);
      ("trace_count_file", VInt trace_count_file)].

Definition leg_source_info : dict string :=
  [("0", "undefined"); ("1", "preplan"); ("2", "as shot");
   ("3", "post processed")].

Definition leg_energy_source : dict string :=
  [("0", "undefined"); ("1", "vibroseis"); ("2", "dynamite");
   ("3", "air gun")].

Definition _read_trace_header_2 (fi : source) (trace_block_start : Z)
  : result (dict value) :=
  let pos := trace_block_start + 20 + 32 in
  shot_line_nbr <- _read fi pos (W 4) binary true ;;
  shot_point <- _read fi (pos + 4) (W 4) binary true ;;
  shot_point_index <- _read fi (pos + 8) (W 1) binary true ;;
  shot_point_pre_plan_x <- _read fi (pos + 9) (W 4) binary true ;;
  shot_point_pre_plan_y <- _read fi (pos + 13) (W 4) binary true ;;
  shot_point_final_x <- _read fi (pos + 17) (W 4) binary true ;;
  shot_point_final_y <- _read fi (pos + 21) (W 4) binary true ;;
  shot_point_final_depth <- _read fi (pos + 25) (W 4) binary true ;;
  key <- _read fi (pos + 29) (W 1) binary true ;;
  source_of_final_shot_info <-
    dict_get "leg_source_info" leg_source_info (str key) ;;
  key <- _read fi (pos + 30) (W 1) binary true ;;
  energy_source_type <-
    dict_get "leg_energy_source" leg_energy_source (str key) ;;
  Ok [("shot_line_nbr", VInt shot_line_nbr);
      ("shot_point", VInt shot_point);
      ("shot_point_index", VInt shot_point_index);
      ("shot_point_pre_plan_x", VReal (div_int shot_point_pre_plan_x 10));
      ("shot_point_pre_plan_y", VReal (div_int shot_point_pre_plan_y 10));
      ("shot_point_final_x", VReal (div_int shot_point_final_x 10));
      ("shot_point_final_y", VReal (div_int shot_point_final_y 10));
      ("shot_point_final_depth", VReal (div_int shot_point_final_depth 10));
      ("source_of_final_shot_info", VStr source_of_final_shot_info);
      ("energy_source_type", VStr energy_source_type)].

Definition _read_trace_header_3 (fi : source) (trace_block_start : Z)
  : result (dict value) :=
  let pos := trace_block_start + 20 + 32 * 2 in
  epoch_time <- _read fi pos (W 8) binary true ;;
  shot_skew_time <- _read fi (pos + 8) (W 8) binary true ;;
  time_shift_clock_correc <- _read fi (pos + 16) (W 8) binary true ;;
  remaining_clock_correction <- _read fi (pos + 24) (W 8) binary true ;;
  Ok [("epoch_time", VTime (div_float epoch_time 1000000));
      ("shot_skew_time", VReal (div_float shot_skew_time 1000000));
      ("time_shift_clock_correction",
       VReal (div_float time_shift_clock_correc 1000000000));
      ("remaining_clock_correction",
       VReal (div_float remaining_clock_correction 1000000000))].

Definition leg_trace_clipped : dict string :=
  [("0", "not clipped"); ("1", "digital clip detected");
   ("2", "analog clip detected")].

Definition leg_record_type : dict string :=
  [("2", "test data record"); ("8", "normal seismic data record")].

Definition leg_shot_flag : dict string :=
  [("0", "normal"); ("1", "bad-operator specified");
   ("2", "bad-failed to QC test")].

Definition _read_trace_header_4 (fi : source) (trace_block_start : Z)
  : result (dict value) :=
  let pos := trace_block_start + 20 + 32 * 3 in
  pre_shot_guard_band <- _read fi pos (W 4) binary true ;;
  post_shot_guard_band <- _read fi (pos + 4) (W 4) binary true ;;
  preamp_gain <- _read fi (pos + 8) (W 1) binary true ;;
  key <- _read fi (pos + 9) (W 1) binary true ;;
  trace_clipped_flag <-
    dict_get "leg_trace_clipped" leg_trace_clipped (str key) ;;
  key <- _read fi (pos + 10) (W 1) binary true ;;
  record_type_code <- dict_get "leg_record_type" leg_record_type (str key) ;;
  key <- _read fi (pos + 11) (W 1) binary true ;;
  shot_status_flag <- dict_get "leg_shot_flag" leg_shot_flag (str key) ;;
  external_shot_id <- _read fi (pos + 12) (W 4) binary true ;;
  first_break_pick <- _read_IEEE fi (pos + 24) ;;
  post_processed_rms_noise <- _read_IEEE fi (pos + 28) ;;
  Ok [("pre_shot_guard_band", VReal (div_float pre_shot_guard_band 1000));
      ("post_shot_guard_band", VReal (div_float post_shot_guard_band 1000));
      ("preamp_gain", VInt preamp_gain);
      ("trace_clipped_flag", VStr trace_clipped_flag);
      ("record_type_code", VStr record_type_code);
      ("shot_status_flag", VStr shot_status_flag);
      ("external_shot_id", VInt external_shot_id);
      ("post_processed_first_break_pick_time", VFloat32 first_break_pick);
      ("post_processed_rms_noise", VFloat32 post_processed_rms_noise)].

Definition leg_source_receiver_info : dict string :=
  [("1", "preplan");
   ("2", "as laid (no navigation sensor)");
   ("3", "as laid (HiPAP only)");
   ("4", "as laid (HiPAP and INS)");
   ("5", "as laid (HiPAP and DVL)");
   ("6", "as laid (HiPAP, DVL and INS)");
   ("7", "post processed (HiPAP only)");
   ("8", "post processed (HiPAP and INS)");
   ("9", "post processed (HiPAP and DVL)");
   ("10", "post processed (HiPAP, DVL ans INS)");
   ("11", "first break analysis")].

Definition _read_trace_header_5 (fi : source) (trace_block_start : Z)
  : result (dict value) :=
  let pos := trace_block_start + 20 + 32 * 4 in
  receiver_point_pre_plan_x <- _read fi (pos + 9) (W 4) binary true ;;
  receiver_point_pre_plan_y <- _read fi (pos + 13) (W 4) binary true ;;
  receiver_point_final_x <- _read fi (pos + 17) (W 4) binary true ;;
  receiver_point_final_y <- _read fi (pos + 21) (W 4) binary true ;;
  receiver_point_final_depth <- _read fi (pos + 25) (W 4) binary true ;;
  key <- _read fi (pos + 29) (W 1) binary true ;;
  source_receiver_info <-
    dict_get "leg_source_receiver_info" leg_source_receiver_info (str key) ;;
  Ok [("receiver_point_pre_plan_x",
       VReal (div_int receiver_point_pre_plan_x 10));
      ("receiver_point_pre_plan_y",
       VReal (div_int receiver_point_pre_plan_y 10));
      ("receiver_point_final_x", VReal (div_int receiver_point_final_x 10));
      ("receiver_point_final_y", VReal (div_int receiver_point_final_y 10));
      ("receiver_point_final_depth",
       VReal (div_int receiver_point_final_depth 10));
      ("source_of_final_receiver_info", VStr source_receiver_info)].

Definition _read_trace_header_6 (fi : source) (trace_block_start : Z)
  : result (dict value) :=
  let pos := trace_block_start + 20 + 32 * 5 in
  tilt_matrix_h1x <- _read_IEEE fi pos ;;
  tilt_matrix_h2x <- _read_IEEE fi (pos + 4) ;;
  tilt_matrix_vx <- _read_IEEE fi (pos + 8) ;;
  tilt_matrix_h1y <- _read_IEEE fi (pos + 12) ;;
  tilt_matrix_h2y <- _read_IEEE fi (pos + 16) ;;
  tilt_matrix_vy <- _read_IEEE fi (pos + 20) ;;
  tilt_matrix_h1z <- _read_IEEE fi (pos + 24) ;;
  tilt_matrix_h2z <- _read_IEEE fi (pos + 28) ;;
  Ok [("tilt_matrix_h1x", VFloat32 tilt_matrix_h1x);
      ("tilt_matrix_h2x", VFloat32 tilt_matrix_h2x);
      ("tilt_matrix_vx", VFloat32 tilt_matrix_vx);
      ("tilt_matrix_h1y", VFloat32 tilt_matrix_h1y);
      ("tilt_matrix_h2y", VFloat32 tilt_matrix_h2y);
      ("tilt_matrix_vy", VFloat32 tilt_matrix_vy);
      ("tilt_matrix_h1z", VFloat32 tilt_matrix_h1z);
      ("tilt_matrix_h2z", VFloat32 tilt_matrix_h2z)].

Definition _read_trace_header_7 (fi : source) (trace_block_start : Z)
  : result (dict value) :=
  let pos := trace_block_start + 20 + 32 * 6 in
  tilt_matrix_vz <- _read_IEEE fi pos ;;
  azimuth_degree <- _read_IEEE fi (pos + 4) ;;
  pitch_degree <- _read_IEEE fi (pos + 8) ;;
  roll_degree <- _read_IEEE fi (pos + 12) ;;
  remote_unit_temp <- _read_IEEE fi (pos + 16) ;;
  remote_unit_humidity <- _read_IEEE fi (pos + 20) ;;
  orientation_matrix <- _read fi (pos + 24) (W 4) binary true ;;
  gimbal_corrections <- _read fi (pos + 28) (W 1) binary true ;;
  Ok [("tilt_matrix_vz", VFloat32 tilt_matrix_vz);
      ("azimuth_degree", VFloat32 azimuth_degree);
      ("pitch_degree", VFloat32 pitch_degree);
      ("roll_degree", VFloat32 roll_degree);
      ("remote_unit_temp", VFloat32 remote_unit_temp);
      ("remote_unit_humidity", VFloat32 remote_unit_humidity);
      ("orientation_matrix_version_nbr", VInt orientation_matrix);
      ("gimbal_corrections", VInt gimbal_corrections)].

(** The continuation lines of the Python string literals keep their
    leading blanks. *)
Definition leg_preamp_path : dict string :=
  [("0", "external input selected");
   ("1", "simulated data selected");
   ("2", "pre-amp input shorted to ground");
   ("3", "test oscillator with sensors");
   ("4", "test oscillator without sensors");
   ("5", "common mode test oscillator with sensors");
   ("6", "common mode test oscillator without sensors");
   ("7",
    "test oscillator on positive sensors with neg                             sensor grounded");
   ("8",
    "test oscillator on negative sensors with pos                             sensor grounded");
   ("9",
    "test oscillator on positive PA input with neg                             PA input ground");
   ("10",
    "test oscillator on negative PA input, with pos                              PA input ground");
   ("11",
    "test oscillator on positive PA input, with neg                              PA input ground, no sensors");
   ("12",
    "test oscillator on negative PA input, with pos                              PA input ground, no sensors")].

Definition leg_test_oscillator : dict string :=
  [("0", "test oscillator path open");
   ("1", "test signal selected");
   ("2", "DC reference selected");
   ("3", "test oscillator path grounded");
   ("4", "DC reference toggle selected")].

Definition _read_trace_header_8 (fi : source) (trace_block_start : Z)
  : result (dict value) :=
  let pos := trace_block_start + 20 + 32 * 7 in
  fairfield_test <- _read fi pos (W 4) binary true ;;
  first_test <- _read fi (pos + 4) (W 4) binary true ;;
  second_test <- _read fi (pos + 8) (W 4) binary true ;;
  start_delay <- _read fi (pos + 12) (W 4) binary true ;;
  dc_filter_flag <- _read fi (pos + 16) (W 4) binary true ;;
  dc_filter_frequency <- _read_IEEE fi (pos + 20) ;;
  key <- _read fi (pos + 24) (W 4) binary true ;;
  preamp_path <- dict_get "leg_preamp_path" leg_preamp_path (str key) ;;
  key <- _read fi (pos + 28) (W 4) binary true ;;
  test_oscillator <-
    dict_get "leg_test_oscillator" leg_test_oscillator (str key) ;;
  Ok [("fairfield_test_analysis_code", VInt fairfield_test);
      ("first_test_oscillator_attenuation", VInt first_test);
      ("second_test_oscillator_attenuation", VInt second_test);
      ("start_delay", VReal (div_float start_delay 1000000));
      ("dc_filter_flag", VInt dc_filter_flag);
      ("dc_filter_frequency", VFloat32 dc_filter_frequency);
      ("preamp_path", VStr preamp_path);
      ("test_oscillator_signal_type", VStr test_oscillator)].

Definition leg_signal_type : dict string :=
  [("0", "pattern is address ramp");
   ("1", "pattern is RU address ramp");
   ("2", "pattern is built from provided values");
   ("3", "pattern is random numbers");
   ("4", "pattern is a walking 1s");
   ("5", "pattern is a walking 0s");
   ("6", "test signal is a specified DC value");
   ("7",
    "test signal is a pulse train with                             specified duty cycle");
   ("8", "test signal is a sine wave");
   ("9", "test signal is a dual tone sine");
   ("10", "test signal is an impulse");
   ("11", "test signal is a step function")].

Definition _read_trace_header_9 (fi : source) (trace_block_start : Z)
  : result (dict value) :=
  let pos := trace_block_start + 20 + 32 * 8 in
  key <- _read fi pos (W 4) binary true ;;
  test_signal_type <- dict_get "leg_signal_type" leg_signal_type (str key) ;;
  test_signal_freq_1 <- _read fi (pos + 4) (W 4) binary true ;;
  test_signal_freq_2 <- _read fi (pos + 8) (W 4) binary true ;;
  test_signal_amp_1 <- _read fi (pos + 12) (W 4) binary true ;;
  test_signal_amp_2 <- _read fi (pos + 16) (W 4) binary true ;;
  duty_cycle <- _read_IEEE fi (pos + 20) ;;
  active_duration <- _read fi (pos + 24) (W 4) binary true ;;
  activation_time <- _read fi (pos + 28) (W 4) binary true ;;
  Ok [("test_signal_generator_signal_type", VStr test_signal_type);
      ("test_signal_generator_frequency_1",
       VReal (div_float test_signal_freq_1 1000));
      ("test_signal_generator_frequency_2",
       VReal (div_float test_signal_freq_2 1000));
      ("test_signal_generator_amplitude_1", VInt test_signal_amp_1);
      ("test_signal_generator_amplitude_2", VInt test_signal_amp_2);
      ("test_signal_generator_duty_cycle_percentage", VFloat32 duty_cycle);
      ("test_signal_generator_active_duration",
       VReal (div_float active_duration 1000000));
      ("test_signal_generator_activation_time",
       VReal (div_float activation_time 1000000))].

Definition _read_trace_header_10 (fi : source) (trace_block_start : Z)
  : result (dict value) :=
  let pos := trace_block_start + 20 + 32 * 9 in
  idle_level <- _read fi pos (W 4) binary true ;;
  active_level <- _read fi (pos + 4) (W 4) binary true ;;
  pattern_1 <- _read fi (pos + 8) (W 4) binary true ;;
  pattern_2 <- _read fi (pos + 12) (W 4) binary true ;;
  Ok [("test_signal_generator_idle_level", VInt idle_level);
      ("test_signal_generator_active_level", VInt active_level);
      ("test_signal_generator_pattern_1", VInt pattern_1);
      ("test_signal_generator_pattern_2", VInt pattern_2)].

Definition dict_func : dict (source -> Z -> result (dict value)) :=
  [("1", _read_trace_header_1); ("2", _read_trace_header_2);
   ("3", _read_trace_header_3); ("4", _read_trace_header_4);
   ("5", _read_trace_header_5); ("6", _read_trace_header_6);
   ("7", _read_trace_header_7); ("8", _read_trace_header_8);
   ("9", _read_trace_header_9); ("10", _read_trace_header_10)].

Definition _read_trace_headers (fi : source) (trace_block_start : Z)
  (nbr_trace_header : Z) : result (dict value) :=
  for_each (range 1 (nbr_trace_header + 1))
    (fun i trace_headers =>
       f <- dict_get "dict_func" dict_func (str i) ;;
       h <- f fi trace_block_start ;;
       Ok (dict_update trace_headers h))
    [].

(** ** Traces *)

(** [np.array([])] has dtype [float64]; the samples read from the file
    have dtype ['>f4']. *)
Inductive dtype : Type := float64 | f4_be.

Definition dtype_eq_dec (a b : dtype) : {a = b} + {a <> b}.
Proof. decide equality. Defined.

Record ndarray : Type := { nd_dtype : dtype; nd_values : list float32 }.

Record rg16_details : Type := {
  rg16_initial_headers : initial_headers;
  rg16_trace_headers : dict value
}.

Record Stats : Type := {
  starttime : UTCDateTime;
  endtime : UTCDateTime;
  sampling_rate : Z;
  npts : Z;
  network : string;
  station : string;
  location : string;
  channel : string;
  rg16 : option rg16_details
}.

Record Trace : Type := { data : ndarray; stats : Stats }.

Record Stream : Type := { traces : list Trace }.

(** Modelled from the spec: the identifier [tr.id] of a trace of ObsPy's
    container layer (not among the source files), the canonical string
    "network.station.location.channel" of section 4.6. *)
Definition id (tr : Trace) : string :=
  (network (stats tr) ++ "." ++ station (stats tr) ++ "." ++
   location (stats tr) ++ "." ++ channel (stats tr))%string.

(** Modelled from the spec: the assignment [stats.npts = n] of ObsPy's
    container layer (not among the source files), after which the end time
    is recomputed as [starttime + (npts - 1) / sampling_rate] (section 4.6,
    step 5), in floats. *)
Definition set_npts (st : Stats) (n : Z) : Stats :=
  {| starttime := starttime st;
     endtime := float_add (starttime st) (div_int (n - 1) (sampling_rate st));
     sampling_rate := sampling_rate st;
     npts := n;
     network := network st;
     station := station st;
     location := location st;
     channel := channel st;
     rg16 := rg16 st |}.

(** [int(x)] for a Python float: truncation towards zero. *)
Definition int_of (x : Q) : Z := Z.quot (Qnum x) (Zpos (Qden x)).

Definition band_map : list (Z * string) :=
  [(2000, "G"); (1000, "G"); (500, "D"); (250, "D")].

Fixpoint band_map_get (m : list (Z * string)) (k : Z) : result string :=
  match m with
  | [] => Raise (KeyError "band_map" (str k))
  | (k', v) :: m' => if k =? k' then Ok v else band_map_get m' k
  end.

Definition instrument_code : string := "P".

Definition standard_component_map : dict string :=
  [("2", "Z"); ("3", "N"); ("4", "E")].

Definition _make_stats (fi : source) (trace_block_start : Z)
  (standard_orientation : bool) (details : bool) : result Stats :=
  base_scan_interval <- _read fi 22 (W 1) binary true ;;
  sampling_rate <-
    (if base_scan_interval =? 0 then Raise ZeroDivisionError
     else Ok (int_of (float_div (float_of_int 1000)
                        (div_int base_scan_interval 16)))) ;;
  component <- _read fi (trace_block_start + 40) (W 1) binary true ;;
  let component := str component in
  component <-
    (if standard_orientation then
       dict_get "standard_component_map" standard_component_map component
     else Ok component) ;;
  band <- band_map_get band_map sampling_rate ;;
  let chan := (band ++ instrument_code ++ component)%string in
  npts <- _read fi (trace_block_start + 27) (W 3) binary true ;;
  start_time <-
    _read fi (trace_block_start + 20 + 2 * 32) (W 8) binary true ;;
  let start_time := div_float start_time 1000000 in
  let end_time :=
    float_add start_time
      (float_mul (float_of_int (npts - 1)) (div_int 1 sampling_rate)) in
  network <- _read fi (trace_block_start + 20) (W 3) binary true ;;
  station <- _read fi (trace_block_start + 23) (W 3) binary true ;;
  location <- _read fi (trace_block_start + 26) (W 1) binary true ;;
  rg16 <-
    (if details then
       stats_initial_headers <- _read_initial_headers fi ;;
       stats_tr_headers <- _read_trace_header fi trace_block_start ;;
       nbr_tr_header_block <-
         _read fi (trace_block_start + 9) (W 1) binary true ;;
       stats_tr_headers <-
         (if 0 <? nbr_tr_header_block then
            h <- _read_trace_headers fi trace_block_start
                   nbr_tr_header_block ;;
            Ok (dict_update stats_tr_headers h)
          else Ok stats_tr_headers) ;;
       Ok (Some {| rg16_initial_headers := stats_initial_headers;
                   rg16_trace_headers := stats_tr_headers |})
     else Ok None) ;;
  Ok {| starttime := start_time;
        endtime := end_time;
        sampling_rate := sampling_rate;
        npts := npts;
        network := str network;
        station := str station;
        location := str location;
        channel := chan;
        rg16 := rg16 |}.

(** [s[-1]] *)
Fixpoint last_char (s : string) : option ascii :=
  match s with
  | EmptyString => None
  | String c EmptyString => Some c
  | String _ s' => last_char s'
  end.

(** [-data] followed by [astype('>f4')]. *)
Definition negate (a : ndarray) : ndarray :=
  {| nd_dtype := f4_be; nd_values := map f32_neg (nd_values a) |}.

Definition _make_trace (fi : source) (trace_block_start : Z)
  (headonly : bool) (standard_orientation : bool) (details : bool)
  : result Trace :=
  stats <- _make_stats fi trace_block_start standard_orientation details ;;
  data <-
    (if headonly then Ok {| nd_dtype := float64; nd_values := [] |}
     else
       nbr_trace_extension_block <-
         _read fi (trace_block_start + 9) (W 1) binary true ;;
       let trace_start :=
         trace_block_start + 20 + nbr_trace_extension_block * 32 in
       nbr_sample_trace <-
         _read fi (trace_block_start + 27) (W 3) binary true ;;
       let nbr_bytes_trace := 4 * nbr_sample_trace in
       data <- _read_IEEE_array fi trace_start nbr_bytes_trace ;;
       let data := {| nd_dtype := f4_be; nd_values := data |} in
       match last_char (channel stats) with
       | None => Raise IndexError
       | Some c =>
           if Ascii.eqb c "Z" then Ok (negate data) else Ok data
       end) ;;
  Ok {| data := data; stats := stats |}.

(** ** The stream merger *)

(** A row of the record array [ar1]: [(id, starttime, endtime)]. *)
Record row : Type := { row_id : string; row_starttime : Q; row_endtime : Q }.

Definition compare_then (c : comparison) (c' : comparison) : comparison :=
  match c with Eq => c' | _ => c end.

(** The order of the rows: [order=['id', 'starttime']], the remaining
    field [endtime] breaking ties, as numpy sorts record arrays. *)
Definition row_compare (a b : row) : comparison :=
  compare_then (String.compare (row_id a) (row_id b))
    (compare_then (Qcompare (row_starttime a) (row_starttime b))
       (Qcompare (row_endtime a) (row_endtime b))).

Definition row_leb (a b : row) : bool :=
  match row_compare a b with Gt => false | _ => true end.

Section Sorting.
Context {A : Type} (leb : A -> A -> bool).

Fixpoint insert_sorted (x : A) (l : list A) : list A :=
  match l with
  | [] => [x]
  | y :: l' => if leb x y then x :: l else y :: insert_sorted x l'
  end.

Definition insertion_sort (l : list A) : list A :=
  fold_right insert_sorted [] l.

End Sorting.

(** [np.argsort]: the indices of the rows in sorted order; rows that
    compare equal keep their relative order. *)
Definition argsort (ar : list row) : list nat :=
  let key i :=
    nth i ar {| row_id := ""; row_starttime := 0; row_endtime := 0 |} in
  insertion_sort (fun i j => row_leb (key i) (key j))
    (seq 0 (List.length ar)).

(** [a[index]] for an array of indices. *)
Definition take {A : Type} (a : list A) (index : list nat) : list A :=
  flat_map (fun i => match nth_error a i with Some x => [x] | None => [] end)
    index.

Definition _trace_list_to_rec_array (traces : list Trace)
  : list row * list (ndarray * Stats) :=
  let data1 :=
    map (fun tr => {| row_id := id tr;
                      row_starttime := starttime (stats tr);
                      row_endtime := endtime (stats tr) |}) traces in
  let data2 := map (fun tr => (data tr, stats tr)) traces in
  let sort_index := argsort data1 in
  (take data1 sort_index, take data2 sort_index).

Fixpoint cumsum_from (acc : Z) (l : list Z) : list Z :=
  match l with
  | [] => []
  | x :: l' => (acc + x) :: cumsum_from (acc + x) l'
  end.

Definition cumsum (l : list Z) : list Z := cumsum_from 0 l.

(** The two boolean arrays of [_get_trace_groups]. [ar[1:]] is [tl ar] and
    [ar[:-1]] is [removelast ar]. *)
Definition ids_different (ar : list row) : list bool :=
  match ar with
  | [] => []
  | _ :: _ =>
      true :: map (fun p => negb (String.eqb (row_id (fst p)) (row_id (snd p))))
                (combine (tl ar) (removelast ar))
  end.

Definition disjoint (ar : list row) (diff : Q) : list bool :=
  match ar with
  | [] => []
  | _ :: _ =>
      let start_end_diffs :=
        map (fun p => float_sub (row_starttime (fst p)) (row_endtime (snd p)))
          (combine (tl ar) (removelast ar)) in
      map (fun d => Qle_bool (Qabs d) diff) start_end_diffs ++ [false]
  end.

Definition _get_trace_groups (ar : list row) (diff : Q) : list Z :=
  cumsum
    (map (fun p => if (fst p && snd p)%bool then 1 else 0)
       (combine (ids_different ar) (disjoint ar diff))).

(** [np.unique]: the distinct values, sorted. *)
Definition unique (l : list Z) : list Z :=
  insertion_sort Z.leb (nodup Z.eq_dec l).

(** [trace_ar[group == gnum]] *)
Definition select_group {A : Type} (group : list Z) (trace_ar : list A)
  (gnum : Z) : list A :=
  map snd (filter (fun p => fst p =? gnum) (combine group trace_ar)).

(** [np.concatenate] of arrays of one dtype; it refuses an empty list. *)
Definition concatenate (arrays : list ndarray) : result ndarray :=
  match arrays with
  | [] => Raise ValueError
  | a :: _ =>
      Ok {| nd_dtype := nd_dtype a;
            nd_values := List.concat (map nd_values arrays) |}
  end.

(** The body of the loop over the group numbers: the traces of the group
    [gnum] are concatenated into one trace, appended to [out]. *)
Definition merge_group (group : list Z) (trace_ar : list (ndarray * Stats))
  (gnum : Z) (out : list Trace) : result (list Trace) :=
  let trace_ar_to_merge := select_group group trace_ar gnum in
  new_data <- concatenate (map fst trace_ar_to_merge) ;;
  st0 <- match trace_ar_to_merge with
         | [] => Raise IndexError
         | p :: _ => Ok (snd p)
         end ;;
  let new_stats :=
    set_npts st0 (Z.of_nat (List.length (nd_values new_data))) in
  Ok (out ++ [{| data := new_data; stats := new_stats |}]).


(** The default [small_number=.000001]. *)
Definition small_number_default : Q := round64 (1 # 1000000).

Definition _quick_merge (traces : list Trace) (small_number : Q)
  : result (list Trace) :=
  if negb (Nat.eqb
             (List.length
                (nodup Z.eq_dec
                   (map (fun tr => sampling_rate (stats tr)) traces))) 1)
  then Raise AssertionError
  else if negb (Nat.eqb
                  (List.length
                     (nodup dtype_eq_dec
                        (map (fun tr => nd_dtype (data tr)) traces))) 1)
  then Raise AssertionError
  else
    tr0 <- match traces with
           | [] => Raise IndexError
           | tr :: _ => Ok tr
           end ;;
    let sampling_rate := sampling_rate (stats tr0) in
    diff <-
      (if sampling_rate =? 0 then Raise ZeroDivisionError
       else Ok (float_add (float_div 1 (float_of_int sampling_rate))
                  small_number)) ;;
    let '(ar, trace_ar) := _trace_list_to_rec_array traces in
    let group := _get_trace_groups ar diff in
    let group_numbers := unique group in
    for_each group_numbers
      (merge_group group trace_ar)
      [].

(** ** The reader and the format probe *)

Definition Qlt_bool (x y : Q) : bool := negb (Qle_bool y x).

(** The body of the loop over the records; the loop state is
    [(trace_block_start, traces)]. *)
Definition read_trace_block (fi : source) (headonly : bool)
  (starttime endtime : UTCDateTime) (contacts_north details : bool)
  (i : Z) (state : Z * list Trace) : result (Z * list Trace) :=
  let '(trace_block_start, traces) := state in
  nbr_bytes_trace_block <- _cmp_jump fi trace_block_start ;;
  starttime_block <-
    _read fi (trace_block_start + 20 + 2 * 32) (W 8) binary true ;;
  let starttime_block := div_float starttime_block 1000000 in
  traces <-
    (if (Qle_bool starttime starttime_block
         && Qlt_bool starttime_block endtime)%bool
     then
       trace <- _make_trace fi trace_block_start headonly contacts_north
                  details ;;
       Ok (traces ++ [trace])
     else Ok traces) ;;
  Ok (trace_block_start + nbr_bytes_trace_block, traces).

Definition _internal_read_rg16 (fi : source) (headonly : bool)
  (starttime endtime : UTCDateTime) (merge contacts_north details : bool)
  : result Stream :=
  '(nbr_channel_set_headers, nbr_extended_headers, nbr_external_headers) <-
    _cmp_nbr_headers fi ;;
  nbr_records <- _cmp_nbr_records fi ;;
  let trace_block_start :=
    32 * (2 + nbr_channel_set_headers + nbr_extended_headers
          + nbr_external_headers) in
  '(_, traces) <-
    for_each (range 0 nbr_records)
      (read_trace_block fi headonly starttime endtime contacts_north details)
      (trace_block_start, []) ;;
  traces <-
    (if merge then _quick_merge traces small_number_default
     else Ok traces) ;;
  Ok {| traces := traces |}.

(** [_read_rg16] on a bytes buffer. [now] is the local wall clock at the
    time of the call, which bounds the window when no end time is given. *)
Definition _read_rg16 (now : UTCDateTime) (filename : source)
  (headonly : bool) (starttime endtime : option UTCDateTime)
  (merge contacts_north details : bool) : result Stream :=
  let starttime :=
    match starttime with None => 0%Q | Some t => t end in
  let endtime :=
    match endtime with None => now | Some t => t end in
  _internal_read_rg16 filename headonly starttime endtime merge
    contacts_north details.

(** [try ... except ValueError: return False]; any other exception would
    propagate. *)
Definition _internal_is_rg16 (fi : source) : result bool :=
  match
    (sample_format <- _read fi 2 (W 2) bcd true ;;
     manufacturer_code <- _read fi 16 (W 1) bcd true ;;
     version <- _read fi 42 (W 2) binary true ;;
     Ok (sample_format, manufacturer_code, version))
  with
  | Raise ValueError => Ok false
  | Raise e => Raise e
  | Ok (sample_format, manufacturer_code, version) =>
      let con1 := ((version =? 262) && (sample_format =? 8058))%bool in
      Ok (con1 && (manufacturer_code =? 20))%bool
  end.

Definition _is_rg16 (filename : source) : result bool :=
  _internal_is_rg16 filename.

(** ** Concrete byte sources *)

Definition byte_of (z : Z) : byte :=
  match Byte.of_N (Z.to_N z) with Some b => b | None => x00 end.

(** Overwrite the bytes of [fi] from [position] on with [vals]. *)
Definition poke (position : nat) (vals : list Z) (fi : source) : source :=
  firstn position fi ++ map byte_of vals
  ++ skipn (position + List.length vals) fi.

(** The [n] bytes of the big-endian representation of [z]. *)
Fixpoint be_bytes (n : nat) (z : Z) : list Z :=
  match n with
  | O => []
  | S n' => be_bytes n' (z / 256) ++ [z mod 256]
  end.

(** The initial headers of a file with one channel set (channel [ru]), three
    extended headers, no external header and [slices] time slices, recorded
    at 250 Hz, with the given version number. *)
Definition example_headers (version ru slices : Z) : source :=
  poke 2 [0x80; 0x58]
    (poke 16 [0x20]
       (poke 22 [64]
          (poke 28 [0x01]
             (poke 37 [0; 3]
                (poke 42 (be_bytes 2 version)
                   (poke 94 [ru]
                      (poke 144 (be_bytes 4 slices)
                         (repeat x00 192)))))))).

(** A trace block with [ext] trace header extensions (at least three, so
    that the start time lies inside the block), the given component, start
    time in microseconds and samples. *)
Definition example_block (ext component start_us : Z) (samples : list Z)
  : source :=
  poke 9 [ext]
    (poke 27 (be_bytes 3 (Z.of_nat (List.length samples)))
       (poke 40 [component]
          (poke 84 (be_bytes 8 start_us)
             (repeat x00 (20 + 32 * Z.to_nat ext)))))
  ++ map byte_of (flat_map (be_bytes 4) samples).

(** Three blocks starting at 1000 s, 1010 s and 1020 s. *)
Definition three_blocks_file : source :=
  example_headers 262 2 3
  ++ example_block 3 2 1000000000 [0x3F800000; 0xBF800000]
  ++ example_block 3 2 1010000000 [0x40000000; 0x00000000]
  ++ example_block 3 2 1020000000 [0x40400000; 0x7FC00000].

(** One block, in a file whose version number is 261. *)
Definition version_261_file : source :=
  example_headers 261 2 1
  ++ example_block 3 2 1000000000 [0x3F800000; 0xBF800000].

(** One block announcing 11 trace header extensions; the enumeration
    codes of extensions 4 and 5 (block offsets 126 and 177) are set to
    values the tables know, so that all ten extensions can be read. *)
Definition eleven_extensions_file : source :=
  example_headers 262 2 1
  ++ poke 126 [8]
       (poke 177 [1]
          (example_block 11 2 1000000000 [0x3F800000; 0xBF800000])).

(** The file with three blocks, with 7 as base scan interval: the derived
    sampling rate is 2285 Hz. *)
Definition rate_2285_file : source := poke 22 [7] three_blocks_file.

(** One block that starts at 1600000000.000003 s: the quotient by [1e6]
    is not a binary64 value. *)
Definition rounded_start_file : source :=
  example_headers 262 2 1
  ++ example_block 3 2 1600000000000003 [0x3F800000; 0xBF800000].

(** One block of the given component. *)
Definition component_file (component : Z) : source :=
  example_headers 262 2 1
  ++ example_block 3 component 1000000000 [0x3F800000; 0xBF800000].

(** Initial headers with two channel sets, both on channel 2, three
    extended headers and three time slices. *)
Definition two_channel_sets_headers : source :=
  poke 22 [64]
    (poke 28 [0x02]
       (poke 37 [0; 3]
          (poke 42 (be_bytes 2 262)
             (poke 94 [2]
                (poke 126 [2]
                   (poke 176 (be_bytes 4 3)
                      (repeat x00 224))))))).

(** ** Notions used in the statements *)

(** The start time of the block at [pos]: the 8-byte integer at block
    offset [20 + 64], in microseconds, as seconds. *)
Definition block_start_time (fi : source) (pos : Z) : result Q :=
  t <- _read fi (pos + (20 + 64)) (W 8) binary true ;;
  Ok (div_float t 1000000).

(** [starts] are the start positions of consecutive trace blocks, the
    first one at [pos]; each block is [20 + 32 * e + 4 * s] bytes long,
    with [e] the byte at block offset 9 and [s] the 3-byte integer at block
    offset 27; [final] is the position after the last block. *)
Fixpoint block_chain (fi : source) (pos : Z) (starts : list Z) (final : Z)
  : Prop :=
  match starts with
  | [] => final = pos
  | p :: rest =>
      p = pos /\
      exists e s,
        _read fi (p + 9) (W 1) binary true = Ok e /\
        _read fi (p + 27) (W 3) binary true = Ok s /\
        block_chain fi (p + (20 + 32 * e + 4 * s)) rest final
  end.

(** [ts] are the traces decoded from those blocks of [starts] whose start
    time [t] satisfies [starttime <= t < endtime], in the order of the
    blocks. *)
Inductive window_filtered (fi : source) (headonly : bool)
  (starttime endtime : UTCDateTime) (contacts_north details : bool)
  : list Z -> list Trace -> Prop :=
| wf_nil :
    window_filtered fi headonly starttime endtime contacts_north details
      [] []
| wf_keep p t tr starts ts :
    block_start_time fi p = Ok t ->
    (starttime <= t)%Q -> (t < endtime)%Q ->
    _make_trace fi p headonly contacts_north details = Ok tr ->
    window_filtered fi headonly starttime endtime contacts_north details
      starts ts ->
    window_filtered fi headonly starttime endtime contacts_north details
      (p :: starts) (tr :: ts)
| wf_skip p t starts ts :
    block_start_time fi p = Ok t ->
    ~ ((starttime <= t)%Q /\ (t < endtime)%Q) ->
    window_filtered fi headonly starttime endtime contacts_north details
      starts ts ->
    window_filtered fi headonly starttime endtime contacts_north details
      (p :: starts) ts.

(** The component letter of the channel code. *)
Definition component_code (standard_orientation : bool) (component : Z)
  : result string :=
  if standard_orientation then
    dict_get "standard_component_map" standard_component_map (str component)
  else Ok (str component).

(** The error kinds of section 7 of the specification, and the kind of
    each exception that the code raises. No exception of the code is of the
    kind [NotRg16]: the reader does not look at the version number, the
    manufacturer code or the sample format code. *)
Inductive error_kind : Type :=
| TruncatedSource
| NotRg16
| UnknownEnumCode
| UnknownTraceExtensionBlock
| HeterogeneousStreamForMerge
| OtherError.

(** The lookup in [dict_func] is the one that fails on an undefined block
    number; the other lookups are in enumeration tables. *)
Definition kind_of (e : exn) : error_kind :=
  match e with
  | ValueError => TruncatedSource
  | KeyError d _ =>
      if String.eqb d "dict_func" then UnknownTraceExtensionBlock
      else UnknownEnumCode
  | AssertionError => HeterogeneousStreamForMerge
  | ZeroDivisionError => OtherError
  | IndexError => OtherError
  end.

(** The call [r] raised an error of the kind [k]. *)
Definition raises {A : Type} (r : result A) (k : error_kind) : Prop :=
  exists e, r = Raise e /\ kind_of e = k.

(** A trace of three samples at 250 Hz that starts at 1000 s, on the
    given channel of station 7 of network 1. *)
Definition trace_of_channel (chan : string) (samples : list float32)
  : Trace :=
  {| data := {| nd_dtype := f4_be; nd_values := samples |};
     stats := {| starttime := 1000%Q;
                 endtime := (1000 + inject_Z 2 * (1 / inject_Z 250))%Q;
                 sampling_rate := 250;
                 npts := 3;
                 network := "1";
                 station := "7";
                 location := "0";
                 channel := chan;
                 rg16 := None |} |}.

(** The trace made of a non-empty group. *)
Definition merged_trace (d : ndarray) (st : Stats)
  (sel : list (ndarray * Stats)) : Trace :=
  let values := List.concat (map nd_values (d :: map fst sel)) in
  {| data := {| nd_dtype := nd_dtype d; nd_values := values |};
     stats := set_npts st (Z.of_nat (List.length values)) |}.

(** A trace without its samples, as [headonly] returns it. *)
Definition strip_data (tr : Trace) : Trace :=
  {| data := {| nd_dtype := float64; nd_values := [] |}; stats := stats tr |}.

(** The metadata without the entry [rg16] of the detailed headers. *)
Definition drop_details_stats (st : Stats) : Stats :=
  {| starttime := starttime st;
     endtime := endtime st;
     sampling_rate := sampling_rate st;
     npts := npts st;
     network := network st;
     station := station st;
     location := location st;
     channel := channel st;
     rg16 := None |}.

Definition drop_details (tr : Trace) : Trace :=
  {| data := data tr; stats := drop_details_stats (stats tr) |}.

(** The test of the time window, on the start time of a trace. *)
Definition starts_within (window_start window_end : UTCDateTime)
  (tr : Trace) : bool :=
  (Qle_bool window_start (starttime (stats tr))
   && Qlt_bool (starttime (stats tr)) window_end)%bool.

(** The row of the record array made for a trace. *)
Definition row_of (tr : Trace) : row :=
  {| row_id := id tr;
     row_starttime := starttime (stats tr);
     row_endtime := endtime (stats tr) |}.

(** Consecutive numbers of [l] differ by 0 or 1, the first one from
    [prev]. *)
Fixpoint steps_0_or_1 (prev : Z) (l : list Z) : Prop :=
  match l with
  | [] => True
  | x :: l' => (x = prev \/ x = prev + 1) /\ steps_0_or_1 x l'
  end.

(** The bytes that the probe looks at: the sample format code (bytes 2 and
    3), the manufacturer code (byte 16) and the version number (bytes 42
    and 43). *)
Definition probe_bytes : list nat := [2; 3; 16; 42; 43]%nat.

(** [fi] and [fi'] have the same length, and the same bytes except possibly
    at the given positions. *)
Definition differ_only_at (positions : list nat) (fi fi' : source) : bool :=
  (Nat.eqb (List.length fi) (List.length fi')
   && forallb (fun i => existsb (Nat.eqb i) positions
                        || Byte.eqb (nth i fi x00) (nth i fi' x00))
        (seq 0 (List.length fi)))%bool.

(** None of the [n] bytes from [p] on is at one of the given positions. *)
Definition clear_of (positions : list nat) (p : Z) (n : nat) : bool :=
  forallb (fun i => (i <? Z.to_nat p) || (Z.to_nat p + n <=? i))%nat
    positions.

(** Two calls both return, or both raise the same exception. *)
Definition same_outcome {A B : Type} (r : result A) (r' : result B) : Prop :=
  match r, r' with
  | Ok _, Ok _ => True
  | Raise e, Raise e' => e = e'
  | _, _ => False
  end.

(** Powers of two, the unit roundoff [2^-53] of binary64 and half of its
    smallest positive number, [2^-1075]. *)
Definition pow2 (e : Z) : Q := Qpower 2 e.

Definition unit_roundoff : Q := 1 # (2 ^ 53).

Definition smallest_half : Q := 1 # (2 ^ 1075).

(** * Properties *)

(** ** The error monad and the loops *)

Lemma bind_Ok {A B : Type} (m : result A) (k : A -> result B) (b : B) :
  bind m k = Ok b -> exists a, m = Ok a /\ k a = Ok b.
Proof.
  destruct m as [a|e]; simpl; intros H.
  - exists a. split; [reflexivity | exact H].
  - discriminate H.
Qed.

Tactic Notation "inv_bind" hyp(H) "as" ident(a) ident(Ha) :=
  apply bind_Ok in H; destruct H as (a & Ha & H).

Lemma Ok_inj {A : Type} (a b : A) : Ok a = Ok b -> a = b.
Proof. intros H. congruence. Qed.

Ltac inv_ok H := apply Ok_inj in H; try subst.

Ltac inv_pair H := apply pair_equal_spec in H; destruct H as [? ?]; subst.



Lemma range_length (a b : Z) : List.length (range a b) = Z.to_nat (b - a).
Proof. unfold range. rewrite length_map, length_seq. reflexivity. Qed.

Lemma range_In (a b x : Z) : 0 <= a -> a <= x < b -> In x (range a b).
Proof.
  intros Ha Hx. unfold range. apply in_map_iff.
  exists (Z.to_nat x). split; [lia|]. apply in_seq. lia.
Qed.

Lemma Qlt_bool_iff (x y : Q) : Qlt_bool x y = true <-> (x < y)%Q.
Proof.
  unfold Qlt_bool. rewrite negb_true_iff. split.
  - intros H. apply Qnot_le_lt. intros Hle.
    apply Qle_bool_iff in Hle. congruence.
  - intros H. destruct (Qle_bool y x) eqn:E; [|reflexivity].
    apply Qle_bool_iff in E. exfalso. exact (Qlt_not_le _ _ H E).
Qed.

(** ** Decimal strings and the values of the fields *)

Lemma str_inj (a b : Z) : str a = str b -> a = b.
Proof.
  unfold str. intros H.
  assert (Hnn : forall z, Z.to_int z <> Decimal.Pos Decimal.Nil /\
                          Z.to_int z <> Decimal.Neg Decimal.Nil).
  { intros [|p|p]; simpl; split; try discriminate;
      intros E; injection E as E;
      exact (DecimalPos.Unsigned.to_uint_nonnil p E). }
  apply DecimalZ.to_int_inj.
  assert (E : Some (Z.to_int a) = Some (Z.to_int b)).
  { rewrite <- (NilZero.isi (Z.to_int a)) by apply Hnn.
    rewrite <- (NilZero.isi (Z.to_int b)) by apply Hnn.
    rewrite H. reflexivity. }
  injection E as E. exact E.
Qed.

Lemma byte_val_bound (b : byte) : 0 <= byte_val b < 256.
Proof.
  unfold byte_val. pose proof (Byte.to_N_bounded b). lia.
Qed.

Lemma nibbles_bound (b : byte) : Forall (fun d => 0 <= d < 16) (nibbles b).
Proof.
  pose proof (byte_val_bound b) as Hb. unfold nibbles.
  repeat constructor.
  - apply Z.shiftr_nonneg. lia.
  - rewrite Z.shiftr_div_pow2 by lia.
    apply Z.div_lt_upper_bound; [reflexivity | lia].
  - apply Z.land_nonneg. right. lia.
  - change 15 with (Z.ones 4). rewrite Z.land_ones by lia.
    apply Z.mod_pos_bound. reflexivity.
Qed.

Lemma digits_value_bound (base : Z) (ds : list Z) :
  0 < base -> Forall (fun d => 0 <= d < base) ds ->
  0 <= digits_value base ds < base ^ Z.of_nat (List.length ds).
Proof.
  intros Hbase. unfold digits_value.
  assert (H : forall acc n,
            0 <= acc < base ^ Z.of_nat n ->
            Forall (fun d => 0 <= d < base) ds ->
            0 <= fold_left (fun acc d => acc * base + d) ds acc
              < base ^ Z.of_nat (n + List.length ds)).
  { induction ds as [|d ds IH]; intros acc n Hacc Hds; cbn [fold_left].
    - rewrite Nat.add_0_r. exact Hacc.
    - inversion Hds as [|d' ds' Hd Hds']; subst.
      cbn [List.length]. rewrite Nat.add_succ_r, <- Nat.add_succ_l.
      apply IH; [|exact Hds'].
      rewrite Nat2Z.inj_succ, Z.pow_succ_r by lia. nia. }
  intros Hds. apply (H 0 0%nat); [simpl; lia | exact Hds].
Qed.

(** A binary field of [n] whole bytes is a number below [256 ^ n]. *)
Lemma _read_binary_bound (fi : source) (position : Z) (n : nat)
  (left_part : bool) (v : Z) :
  _read fi position (W n) binary left_part = Ok v ->
  0 <= v < 256 ^ Z.of_nat n.
Proof.
  unfold _read, read_bytes. cbn [nbr_bytes select_nibbles].
  destruct (Nat.eqb_spec
              (List.length (firstn n (skipn (Z.to_nat position) fi))) n)
    as [Hlen|_]; cbn [bind]; [|discriminate].
  intros H. apply Ok_inj in H. subst v.
  set (bs := firstn n (skipn (Z.to_nat position) fi)) in *.
  assert (Hn : List.length (flat_map nibbles bs) = (2 * n)%nat).
  { rewrite <- Hlen. clear Hlen. induction bs as [|b bs IH];
      [reflexivity|]. cbn [flat_map List.length app nibbles]. lia. }
  assert (Hds : Forall (fun d => 0 <= d < 16) (flat_map nibbles bs)).
  { apply Forall_flat_map. apply Forall_forall. intros b _.
    apply nibbles_bound. }
  pose proof (digits_value_bound 16 _ eq_refl Hds) as Hb.
  rewrite Hn in Hb.
  replace (16 ^ Z.of_nat (2 * n)) with (256 ^ Z.of_nat n) in Hb;
    [exact Hb|].
  rewrite Nat2Z.inj_mul, Z.pow_mul_r by lia. reflexivity.
Qed.

(** A read of at least one byte that ends beyond the end of the source
    fails. *)
Lemma _read_short (fi : source) (position : Z) (length : width)
  (dtype : int_encoding) (left_part : bool) :
  0 <= position -> (0 < nbr_bytes length)%nat ->
  Z.of_nat (List.length fi) < position + Z.of_nat (nbr_bytes length) ->
  _read fi position length dtype left_part = Raise ValueError.
Proof.
  intros Hpos Hn Hshort. unfold _read, read_bytes.
  destruct (Nat.eqb_spec
              (List.length
                 (firstn (nbr_bytes length) (skipn (Z.to_nat position) fi)))
              (nbr_bytes length)) as [Hlen|_]; cbn [bind]; [|reflexivity].
  exfalso. rewrite length_firstn, length_skipn in Hlen. lia.
Qed.

(** A read that succeeds lies within the source. *)
Lemma _read_within (fi : source) (position : Z) (length : width)
  (dtype : int_encoding) (left_part : bool) (v : Z) :
  0 <= position -> (0 < nbr_bytes length)%nat ->
  _read fi position length dtype left_part = Ok v ->
  position + Z.of_nat (nbr_bytes length) <= Z.of_nat (List.length fi).
Proof.
  intros Hpos Hn H.
  destruct (Z_lt_le_dec (Z.of_nat (List.length fi))
              (position + Z.of_nat (nbr_bytes length))) as [Hlt|Hle];
    [|exact Hle].
  rewrite (_read_short fi position length dtype left_part Hpos Hn Hlt) in H.
  discriminate H.
Qed.

Lemma _read_nonneg (fi : source) (position : Z) (length : width)
  (dtype : int_encoding) (left_part : bool) (v : Z) :
  _read fi position length dtype left_part = Ok v -> 0 <= v.
Proof.
  unfold _read. intros H. inv_bind H as bs Hbs. apply Ok_inj in H. subst v.
  set (base := match dtype with bcd => 10 | binary => 16 end).
  assert (Hbase : 0 < base) by (unfold base; destruct dtype; lia).
  assert (Hall : Forall (fun d => 0 <= d)
                   (select_nibbles length left_part (flat_map nibbles bs))).
  { assert (Hns : Forall (fun d => 0 <= d) (flat_map nibbles bs)).
    { apply Forall_flat_map. apply Forall_forall. intros b _.
      eapply Forall_impl; [|apply nibbles_bound].
      intros d Hd. cbv beta in Hd. lia. }
    destruct length as [n|n]; cbn [select_nibbles]; [exact Hns|].
    destruct left_part.
    - rewrite <- (firstn_skipn (S (2 * n)) (flat_map nibbles bs)) in Hns.
      apply Forall_app in Hns. apply Hns.
    - rewrite <- (firstn_skipn 1 (flat_map nibbles bs)) in Hns.
      apply Forall_app in Hns. apply Hns. }
  unfold digits_value.
  assert (Hfold : forall ds acc,
            Forall (fun d => 0 <= d) ds -> 0 <= acc ->
            0 <= fold_left (fun acc d => acc * base + d) ds acc).
  { induction ds as [|d ds IH]; intros acc Hds Hacc; cbn [fold_left];
      [exact Hacc|].
    inversion Hds as [|d' ds' Hd Hds']; subst. apply IH; [exact Hds' | nia]. }
  apply Hfold; [exact Hall | lia].
Qed.

(** ** Rounding to binary64 *)

Lemma round_half_even_spec (n d : Z) :
  0 < d -> Z.abs (2 * (round_half_even n d * d - n)) <= d.
Proof.
  intros Hd. unfold round_half_even.
  pose proof (Z.div_mod n d ltac:(lia)) as Hdm.
  pose proof (Z.mod_pos_bound n d Hd) as Hr.
  destruct (Z.compare_spec (2 * (n mod d)) d) as [E|E|E];
    [destruct (Z.even (n / d))| |]; nia.
Qed.

Lemma round_half_even_nonneg (n d : Z) :
  0 <= n -> 0 < d -> 0 <= round_half_even n d.
Proof.
  intros Hn Hd. unfold round_half_even.
  pose proof (Z.div_pos n d Hn Hd).
  destruct (2 * (n mod d) ?= d); [destruct (Z.even (n / d))| |]; lia.
Qed.

Lemma pow2_pos (e : Z) : (0 < pow2 e)%Q.
Proof. unfold pow2. apply Qpower_0_lt. reflexivity. Qed.

Lemma pow2_add (a b : Z) : (pow2 (a + b) == pow2 a * pow2 b)%Q.
Proof. unfold pow2. apply Qpower_plus. discriminate. Qed.

Lemma pow2_nonneg_exp (e : Z) : 0 <= e -> (pow2 e == inject_Z (2 ^ e))%Q.
Proof. intros He. unfold pow2. rewrite Zpower_Qpower by exact He. reflexivity. Qed.

Lemma pow2_opp (e : Z) : (pow2 (- e) == / pow2 e)%Q.
Proof. unfold pow2. apply Qpower_opp. Qed.

Lemma pow2_neg_exp (e : Z) : e <= 0 -> (pow2 e == / inject_Z (2 ^ (- e)))%Q.
Proof.
  intros He. rewrite <- (Z.opp_involutive e) at 1.
  rewrite pow2_opp, pow2_nonneg_exp by lia. reflexivity.
Qed.

(** The value of [round64_pos] is a mantissa times a power of two. *)
Lemma round64_pos_value (n d : Z) :
  0 < n -> 0 < d ->
  let e := Z.max (floor_log2 n d - 52) (-1074) in
  exists m : Z,
    0 <= m /\
    (round64_pos n d == inject_Z m * pow2 e)%Q /\
    (Qabs (inject_Z m - (inject_Z n / inject_Z d) / pow2 e) <= 1 # 2)%Q.
Proof.
  intros Hn Hd e. unfold round64_pos. fold e.
  destruct (Z.leb_spec 0 e) as [He|He].
  - exists (round_half_even n (d * 2 ^ e)).
    assert (Hp : 0 < 2 ^ e) by (apply Z.pow_pos_nonneg; lia).
    split; [apply round_half_even_nonneg; nia|]. split.
    + rewrite inject_Z_mult, pow2_nonneg_exp by exact He. reflexivity.
    + pose proof (round_half_even_spec n (d * 2 ^ e) ltac:(nia)) as Hs.
      rewrite pow2_nonneg_exp by exact He.
      set (m := round_half_even n (d * 2 ^ e)) in *.
      set (p := 2 ^ e) in *.
      apply Qabs_Qle_condition.
      unfold Qle, Qdiv, Qminus, Qplus, Qopp, Qmult, Qinv, inject_Z; simpl.
      destruct d as [|dp|dp]; try lia. destruct p as [|pp|pp]; try lia.
      destruct n as [|np|np]; try lia. simpl. split; nia.
  - exists (round_half_even (n * 2 ^ (- e)) d).
    assert (Hp : 0 < 2 ^ (- e)) by (apply Z.pow_pos_nonneg; lia).
    split; [apply round_half_even_nonneg; nia|]. split.
    + rewrite Qred_correct.
      rewrite (pow2_neg_exp e) by lia.
      unfold Qeq, Qmult, Qinv, inject_Z; simpl.
      destruct (2 ^ (- e)) as [|pp|pp]; try lia. simpl. lia.
    + pose proof (round_half_even_spec (n * 2 ^ (- e)) d Hd) as Hs.
      rewrite (pow2_neg_exp e) by lia.
      set (m := round_half_even (n * 2 ^ (- e)) d) in *.
      set (p := 2 ^ (- e)) in *.
      apply Qabs_Qle_condition.
      unfold Qle, Qdiv, Qminus, Qplus, Qopp, Qmult, Qinv, inject_Z; simpl.
      destruct d as [|dp|dp]; try lia. destruct p as [|pp|pp]; try lia.
      destruct n as [|np|np]; try lia. simpl. split; nia.
Qed.

Lemma inject_Z_pos (z : Z) : 0 < z -> (0 < inject_Z z)%Q.
Proof.
  intros Hz. change 0%Q with (inject_Z 0). rewrite <- Zlt_Qlt. exact Hz.
Qed.

Lemma Qdiv_le_cross (x y n d : Q) :
  (0 < y)%Q -> (0 < d)%Q -> (x * d <= n * y)%Q -> (x / y <= n / d)%Q.
Proof.
  intros Hy Hd H. apply Qle_shift_div_l; [exact Hd|].
  assert (E : (x / y * d == x * d / y)%Q) by (field; lra).
  rewrite E. apply Qle_shift_div_r; [exact Hy | exact H].
Qed.

Lemma floor_log2_le (n d : Z) :
  0 < n -> 0 < d -> (pow2 (floor_log2 n d) <= inject_Z n / inject_Z d)%Q.
Proof.
  intros Hn Hd. unfold floor_log2.
  set (k := Z.log2 n - Z.log2 d).
  pose proof (inject_Z_pos d Hd) as Hdq.
  destruct (Z.leb_spec 0 k) as [Hk|Hk].
  - destruct (Z.leb_spec (d * 2 ^ k) n) as [Ht|Ht].
    + rewrite pow2_nonneg_exp by exact Hk.
      apply Qle_shift_div_l; [exact Hdq|].
      rewrite <- inject_Z_mult, <- Zle_Qle. lia.
    + pose proof (Z.log2_spec n Hn) as [Ha _].
      pose proof (Z.log2_spec d Hd) as [_ Hb].
      pose proof (Z.log2_nonneg n) as Ha0.
      pose proof (Z.log2_nonneg d) as Hb0.
      replace (k - 1) with (Z.log2 n + - Z.succ (Z.log2 d))
        by (unfold k; lia).
      rewrite pow2_add, pow2_opp, !pow2_nonneg_exp by lia.
      assert (Hp : 0 < 2 ^ Z.succ (Z.log2 d))
        by (apply Z.pow_pos_nonneg; lia).
      apply Qdiv_le_cross; [apply inject_Z_pos, Hp | exact Hdq|].
      rewrite <- !inject_Z_mult, <- Zle_Qle.
      assert (0 < 2 ^ Z.log2 n) by (apply Z.pow_pos_nonneg; lia). nia.
  - assert (Hp : 0 < 2 ^ (- k)) by (apply Z.pow_pos_nonneg; lia).
    destruct (Z.leb_spec d (n * 2 ^ (- k))) as [Ht|Ht].
    + rewrite pow2_neg_exp by lia.
      assert (E : (/ inject_Z (2 ^ (- k)) == 1 / inject_Z (2 ^ (- k)))%Q)
        by (unfold Qdiv; rewrite Qmult_1_l; reflexivity).
      rewrite E.
      apply Qdiv_le_cross; [apply inject_Z_pos, Hp | exact Hdq|].
      rewrite Qmult_1_l, <- inject_Z_mult, <- Zle_Qle. exact Ht.
    + pose proof (Z.log2_spec n Hn) as [Ha _].
      pose proof (Z.log2_spec d Hd) as [_ Hb].
      pose proof (Z.log2_nonneg n) as Ha0.
      pose proof (Z.log2_nonneg d) as Hb0.
      replace (k - 1) with (Z.log2 n + - Z.succ (Z.log2 d))
        by (unfold k; lia).
      rewrite pow2_add, pow2_opp, !pow2_nonneg_exp by lia.
      assert (Hp' : 0 < 2 ^ Z.succ (Z.log2 d))
        by (apply Z.pow_pos_nonneg; lia).
      apply Qdiv_le_cross; [apply inject_Z_pos, Hp' | exact Hdq|].
      rewrite <- !inject_Z_mult, <- Zle_Qle.
      assert (0 < 2 ^ Z.log2 n) by (apply Z.pow_pos_nonneg; lia). nia.
Qed.

Lemma round64_pos_error (n d : Z) :
  0 < n -> 0 < d ->
  (0 <= round64_pos n d)%Q /\
  (Qabs (round64_pos n d - inject_Z n / inject_Z d)
   <= unit_roundoff * (inject_Z n / inject_Z d) + smallest_half)%Q.
Proof.
  intros Hn Hd.
  destruct (round64_pos_value n d Hn Hd) as (m & Hm & Hv & Hr).
  pose proof (floor_log2_le n d Hn Hd) as Hf.
  set (q := (inject_Z n / inject_Z d)%Q) in *.
  set (f := floor_log2 n d) in *.
  set (e := Z.max (f - 52) (-1074)) in *. cbv zeta in Hv, Hr.
  pose proof (pow2_pos e) as He.
  assert (Hmq : (0 <= inject_Z m)%Q)
    by (change 0%Q with (inject_Z 0); rewrite <- Zle_Qle; exact Hm).
  split.
  - rewrite Hv. apply Qmult_le_0_compat; [exact Hmq | lra].
  - rewrite Hv.
    assert (Herr : (Qabs (inject_Z m * pow2 e - q) <= pow2 e * (1 # 2))%Q).
    { assert (E : (inject_Z m * pow2 e - q
                   == pow2 e * (inject_Z m - q / pow2 e))%Q)
        by (field; lra).
      rewrite E, Qabs_Qmult, (Qabs_pos (pow2 e)) by lra.
      apply Qmult_le_l; [exact He | exact Hr]. }
    eapply Qle_trans; [exact Herr|].
    assert (Hq : (0 < q)%Q).
    { unfold q. apply Qlt_shift_div_l; [apply inject_Z_pos, Hd|].
      rewrite Qmult_0_l. apply inject_Z_pos, Hn. }
    destruct (Z.max_spec (f - 52) (-1074)) as [[_ E]|[_ E]]; fold e in E.
    + rewrite E.
      assert (E2 : (pow2 (-1074) * (1 # 2) == smallest_half)%Q)
        by (vm_compute; reflexivity).
      rewrite E2. unfold unit_roundoff.
      assert ((0 <= (1 # 2 ^ 53) * q)%Q)
        by (apply Qmult_le_0_compat; [discriminate | lra]).
      lra.
    + rewrite E. replace (f - 52) with (f + -52) by lia.
      rewrite pow2_add.
      assert (E2 : (pow2 (-52) * (1 # 2) == unit_roundoff)%Q)
        by (vm_compute; reflexivity).
      rewrite <- Qmult_assoc, E2.
      assert (H1 : (pow2 f * unit_roundoff <= q * unit_roundoff)%Q).
      { apply Qmult_le_compat_r; [exact Hf | discriminate]. }
      assert (H2 : (0 <= smallest_half)%Q) by discriminate.
      rewrite (Qmult_comm unit_roundoff). lra.
Qed.


Lemma round64_nonneg (q : Q) : (0 <= q)%Q -> (0 <= round64 q)%Q.
Proof.
  destruct q as [n d]. unfold round64. cbn [Qnum Qden]. intros Hq.
  destruct n as [|n|n].
  - discriminate.
  - apply round64_pos_error; lia.
  - unfold Qle in Hq. simpl in Hq. lia.
Qed.

Lemma div_float_nonneg (n d : Z) :
  0 <= n -> 0 < d -> (0 <= div_float n d)%Q.
Proof.
  intros Hn Hd. unfold div_float, float_div, float_of_int.
  apply round64_nonneg. apply Qle_shift_div_l.
  - apply inject_Z_pos, Hd.
  - rewrite Qmult_0_l. apply round64_nonneg.
    change 0%Q with (inject_Z 0). rewrite <- Zle_Qle. exact Hn.
Qed.







Lemma round64_zero : round64 0 = 0%Q.
Proof. reflexivity. Qed.

(** [round64] against the reference implementation of the standard
    library, on the operations and the values that the examples below go
    through. *)
Lemma round64_reference :
  div_float 1600000000000003 1000000
  = SF2Q (SFdiv 53 1024 (binary64_of_int 1600000000000003)
            (binary64_of_int 1000000)) /\
  div_float 1600000000000003 1000000 = (6710886400000013 # 4194304)%Q /\
  div_int 1 250
  = SF2Q (SFdiv 53 1024 (binary64_of_int 1) (binary64_of_int 250)) /\
  float_of_int (2 ^ 64 - 1) = SF2Q (binary64_of_int (2 ^ 64 - 1)) /\
  float_add (div_float 1600000000000003 1000000)
    (float_mul (float_of_int 1) (div_int 1 250))
  = SF2Q (SFadd 53 1024
            (SFdiv 53 1024 (binary64_of_int 1600000000000003)
               (binary64_of_int 1000000))
            (SFmul 53 1024 (binary64_of_int 1)
               (SFdiv 53 1024 (binary64_of_int 1) (binary64_of_int 250)))) /\
  float_sub (div_float 1010000000 1000000)
    (float_add (div_float 1000000000 1000000) (div_int 1 250))
  = SF2Q (SFsub 53 1024
            (SFdiv 53 1024 (binary64_of_int 1010000000)
               (binary64_of_int 1000000))
            (SFadd 53 1024
               (SFdiv 53 1024 (binary64_of_int 1000000000)
                  (binary64_of_int 1000000))
               (SFdiv 53 1024 (binary64_of_int 1) (binary64_of_int 250)))).
Proof. vm_compute. repeat split; reflexivity. Qed.

Lemma round64_reference_sample :
  forallb agrees_with_reference reference_sample = true.
Proof. vm_compute. reflexivity. Qed.

(** The sampling rate [int(1000 / (base_scan_interval / 16))], computed
    with floats, is the integer quotient [16000 // base_scan_interval]. *)
Lemma int_of_rate (b : Z) :
  0 < b < 256 ->
  int_of (float_div (float_of_int 1000) (div_int b 16)) = 16000 / b.
Proof.
  intros Hb.
  assert (Hall : forallb
                   (fun b =>
                      int_of (float_div (float_of_int 1000) (div_int b 16))
                      =? 16000 / b)
                   (range 1 256) = true) by (vm_compute; reflexivity).
  rewrite forallb_forall in Hall. apply Z.eqb_eq. apply Hall.
  apply range_In; lia.
Qed.

(** ** The walk over the trace blocks *)

Lemma _cmp_jump_Ok (fi : source) (pos n : Z) :
  _cmp_jump fi pos = Ok n ->
  exists e s,
    _read fi (pos + 9) (W 1) binary true = Ok e /\
    _read fi (pos + 27) (W 3) binary true = Ok s /\
    n = 20 + 32 * e + 4 * s.
Proof.
  unfold _cmp_jump. intros H. inv_bind H as e He. inv_bind H as s Hs.
  inv_ok H. exists e, s. split; [assumption|]. split; [assumption|]. lia.
Qed.

Lemma read_trace_block_Ok (fi : source) (headonly : bool)
  (starttime endtime : UTCDateTime) (contacts_north details : bool)
  (i pos pos' : Z) (acc acc' : list Trace) :
  read_trace_block fi headonly starttime endtime contacts_north details i
    (pos, acc) = Ok (pos', acc') ->
  exists e s t,
    _read fi (pos + 9) (W 1) binary true = Ok e /\
    _read fi (pos + 27) (W 3) binary true = Ok s /\
    pos' = pos + (20 + 32 * e + 4 * s) /\
    block_start_time fi pos = Ok t /\
    (((starttime <= t)%Q /\ (t < endtime)%Q /\
      exists tr,
        _make_trace fi pos headonly contacts_north details = Ok tr /\
        acc' = acc ++ [tr])
     \/ (~ ((starttime <= t)%Q /\ (t < endtime)%Q) /\ acc' = acc)).
Proof.
  unfold read_trace_block. intros H.
  inv_bind H as n Hn. apply _cmp_jump_Ok in Hn.
  destruct Hn as (e & s & He & Hs & ->).
  inv_bind H as t0 Ht0.
  exists e, s, (div_float t0 1000000).
  assert (Ht : block_start_time fi pos = Ok (div_float t0 1000000)).
  { unfold block_start_time.
    replace (pos + (20 + 64)) with (pos + 20 + 2 * 32) by lia.
    rewrite Ht0. reflexivity. }
  destruct (Qle_bool starttime (div_float t0 1000000)
            && Qlt_bool (div_float t0 1000000) endtime)%bool eqn:Hw.
  - apply andb_true_iff in Hw. destruct Hw as [H1 H2].
    apply Qle_bool_iff in H1. apply Qlt_bool_iff in H2.
    inv_bind H as ts' Hts. inv_bind Hts as tr Htr. inv_ok Hts. inv_ok H.
    inv_pair H. repeat split; try assumption.
    left. repeat split; try assumption. exists tr. split; [assumption|].
    reflexivity.
  - inv_bind H as ts' Hts. inv_ok Hts. inv_ok H.
    inv_pair H. repeat split; try assumption.
    right. split; [|reflexivity]. intros [H1 H2].
    apply Qle_bool_iff in H1. apply Qlt_bool_iff in H2.
    rewrite H1, H2 in Hw. discriminate Hw.
Qed.

Lemma walk_spec (fi : source) (headonly : bool)
  (starttime endtime : UTCDateTime) (contacts_north details : bool)
  (l : list Z) :
  forall pos acc final ts,
    for_each l
      (read_trace_block fi headonly starttime endtime contacts_north details)
      (pos, acc) = Ok (final, ts) ->
    exists starts kept,
      List.length starts = List.length l /\
      block_chain fi pos starts final /\
      window_filtered fi headonly starttime endtime contacts_north details
        starts kept /\
      ts = acc ++ kept.
Proof.
  induction l as [|i l IH]; simpl; intros pos acc final ts H.
  - inv_ok H. inv_pair H. exists [], [].
    split; [reflexivity|]. split; [reflexivity|].
    split; [constructor|]. symmetry. apply app_nil_r.
  - inv_bind H as st' Hst. destruct st' as [pos' acc'].
    apply (read_trace_block_Ok _ _ _ _ _ _ i) in Hst.
    destruct Hst as (e & s & t & He & Hs & -> & Ht & Hcase).
    apply IH in H. destruct H as (starts & kept & Hlen & Hchain & Hwf & ->).
    destruct Hcase as [(H1 & H2 & tr & Htr & ->) | (Hout & ->)].
    + exists (pos :: starts), (tr :: kept).
      split; [simpl; congruence|].
      split; [simpl; split; [reflexivity|]; exists e, s; auto|].
      split; [econstructor; eassumption|].
      rewrite <- app_assoc. reflexivity.
    + exists (pos :: starts), kept.
      split; [simpl; congruence|].
      split; [simpl; split; [reflexivity|]; exists e, s; auto|].
      split; [econstructor; eassumption|].
      reflexivity.
Qed.

Lemma _internal_read_rg16_Ok (fi : source) (headonly : bool)
  (starttime endtime : UTCDateTime) (merge contacts_north details : bool)
  (stream : Stream) :
  _internal_read_rg16 fi headonly starttime endtime merge contacts_north
    details = Ok stream ->
  exists a b c n final ts,
    _cmp_nbr_headers fi = Ok (a, b, c) /\
    _cmp_nbr_records fi = Ok n /\
    for_each (range 0 n)
      (read_trace_block fi headonly starttime endtime contacts_north details)
      (32 * (2 + a + b + c), []) = Ok (final, ts) /\
    (if merge then _quick_merge ts small_number_default
     else Ok ts) = Ok (traces stream).
Proof.
  unfold _internal_read_rg16. intros H.
  inv_bind H as abc Habc. destruct abc as [[a b] c].
  inv_bind H as n Hn. inv_bind H as st Hst. destruct st as [final ts].
  inv_bind H as out Hout. inv_ok H. simpl.
  exists a, b, c, n, final, ts. auto.
Qed.

Lemma _cmp_nbr_headers_Ok (fi : source) (a b c : Z) :
  _cmp_nbr_headers fi = Ok (a, b, c) ->
  _read fi 28 (W 1) bcd true = Ok a /\
  _read fi 37 (W 2) binary true = Ok b /\
  _read fi 39 (W 3) binary true = Ok c.
Proof.
  unfold _cmp_nbr_headers. intros H.
  inv_bind H as a' Ha. inv_bind H as b' Hb. inv_bind H as c' Hc.
  inv_ok H. injection H as -> -> ->. auto.
Qed.


(** ** What [_make_stats] and [_make_trace] return *)

Lemma band_map_get_Ok (k : Z) (band : string) :
  band_map_get band_map k = Ok band ->
  (k = 2000 /\ band = "G") \/ (k = 1000 /\ band = "G") \/
  (k = 500 /\ band = "D") \/ (k = 250 /\ band = "D").
Proof.
  unfold band_map, band_map_get.
  destruct (Z.eqb_spec k 2000) as [->|_];
    [intros H; inv_ok H; auto|].
  destruct (Z.eqb_spec k 1000) as [->|_];
    [intros H; inv_ok H; auto|].
  destruct (Z.eqb_spec k 500) as [->|_];
    [intros H; inv_ok H; auto|].
  destruct (Z.eqb_spec k 250) as [->|_];
    [intros H; inv_ok H; auto 6|].
  discriminate.
Qed.

Lemma _make_stats_Ok (fi : source) (pos : Z)
  (standard_orientation details : bool) (st : Stats) :
  _make_stats fi pos standard_orientation details = Ok st ->
  exists base_scan_interval component code band n t,
    _read fi 22 (W 1) binary true = Ok base_scan_interval /\
    base_scan_interval <> 0 /\
    sampling_rate st =
      int_of (float_div (float_of_int 1000) (div_int base_scan_interval 16)) /\
    _read fi (pos + 40) (W 1) binary true = Ok component /\
    component_code standard_orientation component = Ok code /\
    band_map_get band_map (sampling_rate st) = Ok band /\
    channel st = (band ++ instrument_code ++ code)%string /\
    _read fi (pos + 27) (W 3) binary true = Ok n /\
    npts st = n /\
    _read fi (pos + (20 + 64)) (W 8) binary true = Ok t /\
    starttime st = div_float t 1000000 /\
    endtime st =
      float_add (div_float t 1000000)
        (float_mul (float_of_int (n - 1)) (div_int 1 (sampling_rate st))).
Proof.
  unfold _make_stats. intros H.
  inv_bind H as b Hb. inv_bind H as sr Hsr.
  destruct (Z.eqb_spec b 0) as [|Hb0]; [discriminate Hsr|]. inv_ok Hsr.
  inv_bind H as comp Hcomp. inv_bind H as code Hcode.
  inv_bind H as band Hband. inv_bind H as n Hn. inv_bind H as t Ht.
  inv_bind H as net Hnet. inv_bind H as sta Hsta. inv_bind H as loc Hloc.
  inv_bind H as det Hdet. inv_ok H.
  assert (Ht' : _read fi (pos + (20 + 64)) (W 8) binary true = Ok t).
  { replace (pos + (20 + 64)) with (pos + 20 + 2 * 32) by lia. exact Ht. }
  exists b, comp, code, band, n, t. cbn [sampling_rate channel npts
    starttime endtime].
  repeat (split; [first [assumption | reflexivity]|]).
  reflexivity.
Qed.

Lemma _make_trace_stats (fi : source) (pos : Z)
  (headonly standard_orientation details : bool) (tr : Trace) :
  _make_trace fi pos headonly standard_orientation details = Ok tr ->
  _make_stats fi pos standard_orientation details = Ok (stats tr).
Proof.
  unfold _make_trace. intros H.
  inv_bind H as st Hst. inv_bind H as d Hd. inv_ok H. exact Hst.
Qed.

(** Every successful decode walked the [nbr_records] trace blocks from the
    end of the initial headers, and merged the kept traces when asked. *)
Lemma decode_walk (fi : source) (headonly : bool)
  (starttime endtime : UTCDateTime) (merge contacts_north details : bool)
  (stream : Stream) :
  _internal_read_rg16 fi headonly starttime endtime merge contacts_north
    details = Ok stream ->
  exists a b c n starts final ts,
    _cmp_nbr_headers fi = Ok (a, b, c) /\
    _cmp_nbr_records fi = Ok n /\
    List.length starts = Z.to_nat n /\
    block_chain fi (32 * (2 + a + b + c)) starts final /\
    window_filtered fi headonly starttime endtime contacts_north details
      starts ts /\
    (if merge then _quick_merge ts small_number_default
     else Ok ts) = Ok (traces stream).
Proof.
  intros H. apply _internal_read_rg16_Ok in H.
  destruct H as (a & b & c & n & final & ts & Hh & Hn & Hloop & Hout).
  apply walk_spec in Hloop.
  destruct Hloop as (starts & kept & Hlen & Hchain & Hwf & Hts).
  simpl in Hts. rewrite <- Hts in Hwf.
  rewrite range_length, Z.sub_0_r in Hlen.
  exists a, b, c, n, starts, final, ts. auto 10.
Qed.

(** The start time of a block is the float that the division by [1e6]
    gives, which need not be the exact quotient: for the block that starts
    at 1600000000000003 microseconds it is [6710886400000013 / 2^22], a
    little more than the exact quotient. The window is tested on this
    float. *)
Lemma block_start_time_rounded :
  block_start_time rounded_start_file 192
  = Ok (6710886400000013 # 4194304)%Q /\
  (1600000000000003 # 1000000 < 6710886400000013 # 4194304)%Q.
Proof. split; vm_compute; reflexivity. Qed.

(** C3: in a successful decode (without merging) the walker visits
    [nbr_records] consecutive trace blocks; the trace of a block is decoded
    and appended exactly when [starttime <= block_start_time < endtime],
    where the block start time is the 8-byte integer at block offset
    [20 + 64] divided by [10^6], in binary64 as the code computes it; the
    lower bound is inclusive and the upper bound exclusive; the cursor
    advances by the whole block length whether or not the trace is
    kept. *)
Theorem C3_time_window_filter (fi : source) (headonly : bool)
  (starttime endtime : UTCDateTime) (contacts_north details : bool)
  (stream : Stream) :
  _internal_read_rg16 fi headonly starttime endtime false contacts_north
    details = Ok stream ->
  exists a b c n starts final,
    _cmp_nbr_headers fi = Ok (a, b, c) /\
    _cmp_nbr_records fi = Ok n /\
    List.length starts = Z.to_nat n /\
    block_chain fi (32 * (2 + a + b + c)) starts final /\
    window_filtered fi headonly starttime endtime contacts_north details
      starts (traces stream).
Proof.
  intros H. apply decode_walk in H.
  destruct H as (a & b & c & n & starts & final & ts
                 & Hh & Hn & Hlen & Hchain & Hwf & Hout).
  apply Ok_inj in Hout. rewrite <- Hout.
  exists a, b, c, n, starts, final. auto.
Qed.

(** Scenario S4 of the specification: blocks starting at 1000 s, 1010 s
    and 1020 s, window [1005 s, 1020 s): only the second block is kept.
    And the block whose start time is the float [6710886400000013 / 2^22]:
    it is kept by a window that begins at this float, and left out by a
    window that ends there. *)
Lemma C3_time_window_filter_witness :
  (exists stream,
     _internal_read_rg16 three_blocks_file false 1005%Q 1020%Q false false
       false = Ok stream /\
     map (fun tr => starttime (stats tr)) (traces stream)
       = [div_float 1010000000 1000000] /\
     exists a b c n starts final,
       _cmp_nbr_headers three_blocks_file = Ok (a, b, c) /\
       _cmp_nbr_records three_blocks_file = Ok n /\
       List.length starts = Z.to_nat n /\
       block_chain three_blocks_file (32 * (2 + a + b + c)) starts final /\
       window_filtered three_blocks_file false 1005%Q 1020%Q false false
         starts (traces stream)) /\
  (exists stream,
     _internal_read_rg16 rounded_start_file false
       (6710886400000013 # 4194304)%Q 2000000000%Q false false false
     = Ok stream /\
     List.length (traces stream) = 1%nat /\
     exists a b c n starts final,
       _cmp_nbr_headers rounded_start_file = Ok (a, b, c) /\
       _cmp_nbr_records rounded_start_file = Ok n /\
       List.length starts = Z.to_nat n /\
       block_chain rounded_start_file (32 * (2 + a + b + c)) starts final /\
       window_filtered rounded_start_file false
         (6710886400000013 # 4194304)%Q 2000000000%Q false false
         starts (traces stream)) /\
  (exists stream,
     _internal_read_rg16 rounded_start_file false 0%Q
       (6710886400000013 # 4194304)%Q false false false
     = Ok stream /\
     traces stream = [] /\
     exists a b c n starts final,
       _cmp_nbr_headers rounded_start_file = Ok (a, b, c) /\
       _cmp_nbr_records rounded_start_file = Ok n /\
       List.length starts = Z.to_nat n /\
       block_chain rounded_start_file (32 * (2 + a + b + c)) starts final /\
       window_filtered rounded_start_file false 0%Q
         (6710886400000013 # 4194304)%Q false false
         starts (traces stream)).
Proof.
  split; [|split].
  - eexists. split; [vm_compute; reflexivity|].
    split; [vm_compute; reflexivity|].
    apply C3_time_window_filter. vm_compute. reflexivity.
  - eexists. split; [vm_compute; reflexivity|].
    split; [reflexivity|].
    apply C3_time_window_filter. vm_compute. reflexivity.
  - eexists. split; [vm_compute; reflexivity|].
    split; [reflexivity|].
    apply C3_time_window_filter. vm_compute. reflexivity.
Defined.

(** C6: the first trace block starts at
    [32 * (2 + nbr_channel_set + nbr_extended_headers + nbr_external_headers)],
    the three counts being read at bytes 28 (BCD, 1 byte), 37 (binary,
    2 bytes) and 39 (binary, 3 bytes); the length [_cmp_jump] computes for a
    block is [20 + 32 * nbr_trace_extension_blocks + 4 * nbr_sample_trace],
    and the walker advances by exactly this amount from one block to the
    next, over all the [nbr_records] blocks. *)
Theorem C6_trace_block_geometry (fi : source) (headonly : bool)
  (starttime endtime : UTCDateTime) (merge contacts_north details : bool)
  (stream : Stream) :
  _internal_read_rg16 fi headonly starttime endtime merge contacts_north
    details = Ok stream ->
  (forall pos len,
     _cmp_jump fi pos = Ok len ->
     exists e s,
       _read fi (pos + 9) (W 1) binary true = Ok e /\
       _read fi (pos + 27) (W 3) binary true = Ok s /\
       len = 20 + 32 * e + 4 * s) /\
  exists a b c n starts final ts,
    _read fi 28 (W 1) bcd true = Ok a /\
    _read fi 37 (W 2) binary true = Ok b /\
    _read fi 39 (W 3) binary true = Ok c /\
    _cmp_nbr_records fi = Ok n /\
    for_each (range 0 n)
      (read_trace_block fi headonly starttime endtime contacts_north details)
      (32 * (2 + a + b + c), []) = Ok (final, ts) /\
    List.length starts = Z.to_nat n /\
    block_chain fi (32 * (2 + a + b + c)) starts final.
Proof.
  intros H. split; [intros pos len; apply _cmp_jump_Ok|].
  apply _internal_read_rg16_Ok in H.
  destruct H as (a & b & c & n & final & ts & Hh & Hn & Hloop & Hout).
  apply _cmp_nbr_headers_Ok in Hh. destruct Hh as (Ha & Hb & Hc).
  pose proof Hloop as Hw. apply walk_spec in Hw.
  destruct Hw as (starts & kept & Hlen & Hchain & _ & _).
  rewrite range_length, Z.sub_0_r in Hlen.
  exists a, b, c, n, starts, final, ts. auto 10.
Qed.

(** On the file with three blocks of 124 bytes the walker starts at byte
    192 and ends at byte 564, the length of the file. *)
Lemma C6_trace_block_geometry_witness :
  (forall pos len,
     _cmp_jump three_blocks_file pos = Ok len ->
     exists e s,
       _read three_blocks_file (pos + 9) (W 1) binary true = Ok e /\
       _read three_blocks_file (pos + 27) (W 3) binary true = Ok s /\
       len = 20 + 32 * e + 4 * s) /\
  exists a b c n starts final ts,
    _read three_blocks_file 28 (W 1) bcd true = Ok a /\
    _read three_blocks_file 37 (W 2) binary true = Ok b /\
    _read three_blocks_file 39 (W 3) binary true = Ok c /\
    _cmp_nbr_records three_blocks_file = Ok n /\
    for_each (range 0 n)
      (read_trace_block three_blocks_file false 0%Q 2000%Q false false)
      (32 * (2 + a + b + c), []) = Ok (final, ts) /\
    List.length starts = Z.to_nat n /\
    block_chain three_blocks_file (32 * (2 + a + b + c)) starts final.
Proof.
  eapply (C6_trace_block_geometry three_blocks_file false 0%Q 2000%Q true false
            false).
  vm_compute. reflexivity.
Defined.

(** ** The traces returned by the merger *)



(** The traces handed to the loop of [_quick_merge], and the loop itself. *)
Lemma _quick_merge_Ok (traces : list Trace) (small_number : Q)
  (out : list Trace) :
  _quick_merge traces small_number = Ok out ->
  exists tr0 rest diff,
    traces = tr0 :: rest /\
    sampling_rate (stats tr0) <> 0 /\
    diff = float_add (float_div 1 (float_of_int (sampling_rate (stats tr0))))
             small_number /\
    let ar := fst (_trace_list_to_rec_array traces) in
    let trace_ar := snd (_trace_list_to_rec_array traces) in
    let group := _get_trace_groups ar diff in
    for_each (unique group)
      (merge_group group trace_ar)
      [] = Ok out.
Proof.
  unfold _quick_merge. intros H.
  destruct (negb (Nat.eqb _ 1)); [discriminate H|].
  destruct (negb (Nat.eqb _ 1)); [discriminate H|].
  destruct traces as [|tr0 rest]; [discriminate H|].
  inv_bind H as tr0' Htr0. inv_ok Htr0.
  inv_bind H as diff Hdiff.
  destruct (Z.eqb_spec (sampling_rate (stats tr0')) 0) as [|Hsr];
    [discriminate Hdiff|].
  inv_ok Hdiff.
  exists tr0', rest,
    (float_add (float_div 1 (float_of_int (sampling_rate (stats tr0'))))
       small_number).
  split; [reflexivity|]. split; [assumption|]. split; [reflexivity|].
  destruct (_trace_list_to_rec_array (tr0' :: rest)) as [ar trace_ar].
  exact H.
Qed.







(** ** The sampling rate *)

Lemma nodup_constant {A : Type} (dec : forall x y : A, {x = y} + {x <> y})
  (a : A) (l : list A) :
  l <> [] -> (forall x, In x l -> x = a) -> nodup dec l = [a].
Proof.
  induction l as [|x l IH]; intros Hne Hall; [contradiction|].
  assert (Hx : x = a) by (apply Hall; left; reflexivity). subst x.
  simpl. destruct (in_dec dec a l) as [Hin|Hnin].
  - apply IH.
    + intros ->. destruct Hin.
    + intros y Hy. apply Hall. right. exact Hy.
  - destruct l as [|y l]; [reflexivity|].
    exfalso. apply Hnin. left. apply Hall. right. left. reflexivity.
Qed.

Lemma band_map_get_Raise (k : Z) :
  ~ In k [250; 500; 1000; 2000] ->
  band_map_get band_map k = Raise (KeyError "band_map" (str k)).
Proof.
  intros Hk. unfold band_map, band_map_get.
  destruct (Z.eqb_spec k 2000) as [->|_]; [exfalso; apply Hk; simpl; auto|].
  destruct (Z.eqb_spec k 1000) as [->|_]; [exfalso; apply Hk; simpl; auto|].
  destruct (Z.eqb_spec k 500) as [->|_]; [exfalso; apply Hk; simpl; auto|].
  destruct (Z.eqb_spec k 250) as [->|_]; [exfalso; apply Hk; simpl; auto|].
  reflexivity.
Qed.



(** ** The orientation of the components *)

Lemma _make_stats_orientation (fi : source) (pos : Z) (details : bool)
  (st : Stats) :
  _make_stats fi pos true details = Ok st ->
  exists component code band st0,
    _read fi (pos + 40) (W 1) binary true = Ok component /\
    dict_get "standard_component_map" standard_component_map (str component)
      = Ok code /\
    (band = "G" \/ band = "D") /\
    channel st = (band ++ instrument_code ++ code)%string /\
    _make_stats fi pos false details = Ok st0 /\
    channel st0 = (band ++ instrument_code ++ str component)%string.
Proof.
  intros H. unfold _make_stats in H.
  inv_bind H as b Hb. inv_bind H as sr Hsr.
  inv_bind H as comp Hcomp. inv_bind H as code Hcode.
  inv_bind H as band Hband. inv_bind H as n Hn. inv_bind H as t Ht.
  inv_bind H as net Hnet. inv_bind H as sta Hsta. inv_bind H as loc Hloc.
  inv_bind H as det Hdet. inv_ok H.
  exists comp, code, band. eexists.
  split; [exact Hcomp|]. split; [exact Hcode|]. split.
  { apply band_map_get_Ok in Hband.
    destruct Hband as [[_ ->]|[[_ ->]|[[_ ->]|[_ ->]]]]; auto. }
  split; [reflexivity|].
  unfold _make_stats. rewrite Hb. cbn [bind]. rewrite Hsr. cbn [bind].
  rewrite Hcomp. cbn [bind]. rewrite Hband. cbn [bind].
  rewrite Hn. cbn [bind]. rewrite Ht. cbn [bind].
  rewrite Hnet. cbn [bind]. rewrite Hsta. cbn [bind].
  rewrite Hloc. cbn [bind]. rewrite Hdet. cbn [bind].
  split; reflexivity.
Qed.

(** A decode with [contacts_north] that succeeds: the same block is decoded
    without it, and the letters and the samples compare as follows. *)
Lemma _make_trace_orientation (fi : source) (pos : Z) (headonly details : bool)
  (component : Z) (tr : Trace) :
  _read fi (pos + 40) (W 1) binary true = Ok component ->
  _make_trace fi pos headonly true details = Ok tr ->
  exists tr0,
    _make_trace fi pos headonly false details = Ok tr0 /\
    (component = 2 ->
     String.get 2 (channel (stats tr)) = Some "Z"%char /\
     String.length (channel (stats tr)) = 3%nat /\
     nd_values (data tr) = map f32_neg (nd_values (data tr0))) /\
    (component = 3 ->
     String.get 2 (channel (stats tr)) = Some "N"%char /\
     String.length (channel (stats tr)) = 3%nat /\
     data tr = data tr0) /\
    (component = 4 ->
     String.get 2 (channel (stats tr)) = Some "E"%char /\
     String.length (channel (stats tr)) = 3%nat /\
     data tr = data tr0).
Proof.
  intros Hc H. unfold _make_trace in H.
  inv_bind H as st Hst. inv_bind H as d Hd. inv_ok H. cbn [data stats].
  apply _make_stats_orientation in Hst.
  destruct Hst as (comp & code & band & st0 & Hcomp & Hcode & Hband & Hch
                   & Hst0 & Hch0).
  rewrite Hc in Hcomp. apply Ok_inj in Hcomp. subst comp.
  unfold _make_trace. rewrite Hst0. cbn [bind].
  destruct headonly.
  - apply Ok_inj in Hd. subst d. eexists. split; [reflexivity|].
    cbn [data stats nd_values map]. rewrite Hch.
    split; [|split]; intros ->; vm_compute in Hcode; apply Ok_inj in Hcode;
      subst code; destruct Hband as [-> | ->]; repeat split; reflexivity.
  - inv_bind Hd as e He. inv_bind Hd as s Hs. inv_bind Hd as samples Hsm.
    rewrite He. cbn [bind]. rewrite Hs. cbn [bind]. rewrite Hsm. cbn [bind].
    rewrite Hch in Hd |- *. rewrite Hch0.
    assert (Hstr : (str component = "2" /\ code = "Z") \/
                   (str component = "3" /\ code = "N") \/
                   (str component = "4" /\ code = "E")).
    { unfold dict_get, standard_component_map in Hcode.
      cbn [dict_find] in Hcode.
      destruct (String.eqb_spec (str component) "2") as [E|_];
        [apply Ok_inj in Hcode; auto|].
      destruct (String.eqb_spec (str component) "3") as [E|_];
        [apply Ok_inj in Hcode; auto|].
      destruct (String.eqb_spec (str component) "4") as [E|_];
        [apply Ok_inj in Hcode; auto|].
      discriminate Hcode. }
    destruct Hstr as [[E ->]|[[E ->]|[E ->]]]; rewrite E;
      destruct Hband as [-> | ->]; simpl in Hd; apply Ok_inj in Hd; subst d;
      (eexists; split; [reflexivity|]);
      (split; [|split]); intros ->;
      try (vm_compute in E; discriminate E); repeat split; reflexivity.
Qed.




(** ** The format probe and the reader *)

Lemma kind_of_not_NotRg16 (e : exn) : kind_of e <> NotRg16.
Proof.
  destruct e; simpl; try discriminate.
  destruct (String.eqb dict0 "dict_func"); discriminate.
Qed.

Lemma _read_Raise (fi : source) (position : Z) (length : width)
  (dtype : int_encoding) (left_part : bool) (e : exn) :
  _read fi position length dtype left_part = Raise e -> e = ValueError.
Proof.
  unfold _read, read_bytes.
  destruct (Nat.eqb _ _); cbn [bind]; intros H; [discriminate H|].
  congruence.
Qed.

Lemma differ_only_at_spec (positions : list nat) (fi fi' : source) :
  differ_only_at positions fi fi' = true ->
  List.length fi = List.length fi' /\
  forall i, ~ In i positions -> nth_error fi i = nth_error fi' i.
Proof.
  unfold differ_only_at. intros H. apply andb_true_iff in H.
  destruct H as [Hlen Hall]. apply Nat.eqb_eq in Hlen.
  split; [exact Hlen|]. intros i Hi.
  destruct (Nat.lt_ge_cases i (List.length fi)) as [Hlt|Hge].
  - rewrite forallb_forall in Hall.
    specialize (Hall i ltac:(apply in_seq; lia)).
    apply orb_true_iff in Hall. destruct Hall as [Hex|Heq].
    + apply existsb_exists in Hex. destruct Hex as (j & Hj & E).
      apply Nat.eqb_eq in E. subst j. contradiction.
    + apply byte_dec_bl in Heq.
      rewrite (nth_error_nth' fi x00 Hlt).
      rewrite (nth_error_nth' fi' x00) by lia. f_equal. exact Heq.
  - rewrite (proj2 (nth_error_None fi i)) by exact Hge.
    rewrite (proj2 (nth_error_None fi' i)) by lia. reflexivity.
Qed.

Lemma firstn_skipn_ext {A : Type} (l l' : list A) (p n : nat) :
  List.length l = List.length l' ->
  (forall i, (p <= i < p + n)%nat -> nth_error l i = nth_error l' i) ->
  firstn n (skipn p l) = firstn n (skipn p l').
Proof.
  revert l l' n. induction p as [|p IHp]; intros l l' n Hlen H.
  - cbn [skipn]. revert l l' Hlen H.
    induction n as [|n IHn]; intros l l' Hlen H; [reflexivity|].
    destruct l as [|x l], l' as [|x' l']; try discriminate Hlen;
      [reflexivity|].
    cbn [firstn]. f_equal.
    + specialize (H 0%nat ltac:(lia)). cbn in H. congruence.
    + apply IHn; [injection Hlen; auto|].
      intros i Hi. apply (H (S i)). lia.
  - destruct l as [|x l], l' as [|x' l']; try discriminate Hlen;
      [reflexivity|].
    cbn [skipn]. apply IHp; [injection Hlen; auto|].
    intros i Hi. apply (H (S i)). lia.
Qed.

Lemma read_bytes_outside (positions : list nat) (fi fi' : source)
  (p : Z) (n : nat) :
  differ_only_at positions fi fi' = true ->
  clear_of positions p n = true ->
  read_bytes fi p n = read_bytes fi' p n.
Proof.
  intros Hd Hc. apply differ_only_at_spec in Hd. destruct Hd as [Hlen Hnth].
  unfold read_bytes.
  rewrite (firstn_skipn_ext fi fi' (Z.to_nat p) n Hlen); [reflexivity|].
  intros i Hi. apply Hnth. intros Hin.
  unfold clear_of in Hc. rewrite forallb_forall in Hc.
  specialize (Hc i Hin). apply orb_true_iff in Hc.
  destruct Hc as [Hc|Hc]; [apply Nat.ltb_lt in Hc | apply Nat.leb_le in Hc];
    lia.
Qed.

Lemma clear_beyond_probe (p : Z) (n : nat) :
  44 <= p -> clear_of probe_bytes p n = true.
Proof.
  intros Hp. unfold clear_of, probe_bytes. apply forallb_forall.
  intros i Hi. apply orb_true_iff. left. apply Nat.ltb_lt.
  cbn [In] in Hi. lia.
Qed.

Lemma _read_outside (positions : list nat) (fi fi' : source) (p : Z)
  (w : width) (d : int_encoding) (l : bool) :
  differ_only_at positions fi fi' = true ->
  clear_of positions p (nbr_bytes w) = true ->
  _read fi p w d l = _read fi' p w d l.
Proof.
  intros Hd Hc. unfold _read.
  rewrite (read_bytes_outside positions fi fi' p _ Hd Hc). reflexivity.
Qed.

Lemma _read_IEEE_outside (positions : list nat) (fi fi' : source) (p : Z) :
  differ_only_at positions fi fi' = true ->
  clear_of positions p 4 = true ->
  _read_IEEE fi p = _read_IEEE fi' p.
Proof.
  intros Hd Hc. unfold _read_IEEE.
  rewrite (read_bytes_outside positions fi fi' p _ Hd Hc). reflexivity.
Qed.

Lemma _read_IEEE_array_outside (positions : list nat) (fi fi' : source)
  (p n : Z) :
  differ_only_at positions fi fi' = true ->
  clear_of positions p (Z.to_nat n) = true ->
  _read_IEEE_array fi p n = _read_IEEE_array fi' p n.
Proof.
  intros Hd Hc. unfold _read_IEEE_array.
  rewrite (read_bytes_outside positions fi fi' p _ Hd Hc). reflexivity.
Qed.

Lemma _read_same_outcome (fi fi' : source) (p : Z) (w : width)
  (d : int_encoding) (l : bool) :
  List.length fi = List.length fi' ->
  same_outcome (_read fi p w d l) (_read fi' p w d l).
Proof.
  intros Hlen. unfold _read, read_bytes.
  rewrite !length_firstn, !length_skipn, Hlen.
  destruct (Nat.eqb _ _); cbn [bind same_outcome]; auto.
Qed.

(** One step of a comparison of two runs: the same read at the head of both,
    of bytes that the two sources share. *)
Ltac read_step Hd :=
  lazymatch goal with
  | |- bind (_read ?fi ?p ?w ?d ?l) _ = bind (_read ?fi' ?p ?w ?d ?l) _ =>
      rewrite (_read_outside probe_bytes fi fi' p w d l Hd)
        by first [reflexivity | apply clear_beyond_probe; lia];
      let v := fresh "v" in
      let E := fresh "E" in
      destruct (_read fi' p w d l) as [v|] eqn:E; cbn [bind];
      [pose proof (_read_nonneg _ _ _ _ _ _ E) | reflexivity]
  | |- bind (_read_IEEE ?fi ?p) _ = bind (_read_IEEE ?fi' ?p) _ =>
      rewrite (_read_IEEE_outside probe_bytes fi fi' p Hd)
        by first [reflexivity | apply clear_beyond_probe; lia];
      destruct (_read_IEEE fi' p); cbn [bind]; [|reflexivity]
  | |- bind (dict_get ?n ?t ?k) _ = bind (dict_get ?n ?t ?k) _ =>
      destruct (dict_get n t k); cbn [bind]; [|reflexivity]
  | |- bind (band_map_get ?t ?k) _ = bind (band_map_get ?t ?k) _ =>
      destruct (band_map_get t k); cbn [bind]; [|reflexivity]
  | |- bind (if ?c then _ else _) _ = bind (if ?c then _ else _) _ =>
      destruct c; cbn [bind]
  end.

Ltac outcome_step Hlen :=
  lazymatch goal with
  | |- same_outcome (bind (_read ?fi ?p ?w ?d ?l) _)
         (bind (_read ?fi' ?p ?w ?d ?l) _) =>
      let Hso := fresh "Hso" in
      pose proof (_read_same_outcome fi fi' p w d l Hlen) as Hso;
      destruct (_read fi p w d l), (_read fi' p w d l);
      cbn [bind same_outcome] in *; try contradiction; [|exact Hso]
  end.

Lemma bind_assoc {A B C : Type} (m : result A) (f : A -> result B)
  (g : B -> result C) :
  bind (bind m f) g = bind m (fun x => bind (f x) g).
Proof. destruct m; reflexivity. Qed.

Lemma for_each_ext_inv {S : Type} (P : S -> Prop) (l : list Z)
  (body1 body2 : Z -> S -> result S) :
  (forall i s, P s -> body1 i s = body2 i s) ->
  (forall i s s', P s -> body2 i s = Ok s' -> P s') ->
  forall s, P s -> for_each l body1 s = for_each l body2 s.
Proof.
  intros Hext Hinv. induction l as [|i l IH]; intros s Hs; [reflexivity|].
  cbn [for_each]. rewrite (Hext i s Hs).
  destruct (body2 i s) as [s'|e] eqn:E; cbn [bind]; [|reflexivity].
  apply IH. eapply Hinv; eassumption.
Qed.

Section ProbeBytes.
Variables fi fi' : source.
Hypothesis Hd : differ_only_at probe_bytes fi fi' = true.

Lemma _cmp_nbr_headers_outside : _cmp_nbr_headers fi = _cmp_nbr_headers fi'.
Proof. unfold _cmp_nbr_headers. repeat read_step Hd. reflexivity. Qed.

Lemma _cmp_jump_outside (pos : Z) :
  44 <= pos -> _cmp_jump fi pos = _cmp_jump fi' pos.
Proof. intros Hp. unfold _cmp_jump. repeat read_step Hd. reflexivity. Qed.

Lemma _read_channel_set_outside (start_byte : Z) :
  44 <= start_byte ->
  _read_channel_set fi start_byte = _read_channel_set fi' start_byte.
Proof.
  intros Hp. unfold _read_channel_set. repeat read_step Hd. reflexivity.
Qed.

Lemma _read_extended_header_1_outside (start_byte : Z) :
  44 <= start_byte ->
  _read_extended_header_1 fi start_byte
  = _read_extended_header_1 fi' start_byte.
Proof.
  intros Hp. unfold _read_extended_header_1. repeat read_step Hd.
  reflexivity.
Qed.

Lemma _read_extended_header_2_outside (start_byte : Z) :
  44 <= start_byte ->
  _read_extended_header_2 fi start_byte
  = _read_extended_header_2 fi' start_byte.
Proof.
  intros Hp. unfold _read_extended_header_2. repeat read_step Hd.
  reflexivity.
Qed.

Lemma _read_extended_header_3_outside (start_byte : Z) :
  44 <= start_byte ->
  _read_extended_header_3 fi start_byte
  = _read_extended_header_3 fi' start_byte.
Proof.
  intros Hp. unfold _read_extended_header_3. repeat read_step Hd.
  reflexivity.
Qed.


Lemma _read_general_header_1_outcome :
  same_outcome (_read_general_header_1 fi) (_read_general_header_1 fi').
Proof.
  pose proof (proj1 (differ_only_at_spec _ _ _ Hd)) as Hlen.
  unfold _read_general_header_1. repeat outcome_step Hlen. exact I.
Qed.

Lemma _read_general_header_2_outcome :
  same_outcome (_read_general_header_2 fi) (_read_general_header_2 fi').
Proof.
  pose proof (proj1 (differ_only_at_spec _ _ _ Hd)) as Hlen.
  unfold _read_general_header_2. repeat outcome_step Hlen. exact I.
Qed.

Lemma _read_channel_sets_outside :
  _read_channel_sets fi = _read_channel_sets fi'.
Proof.
  unfold _read_channel_sets. read_step Hd.
  rewrite (for_each_ext_inv (fun s : dict channel_set * Z => 44 <= snd s)
             (range 0 v)
             (fun i '(channel_sets, start_byte) =>
                cs <- _read_channel_set fi start_byte ;;
                Ok (dict_set channel_sets (str (i + 1)) cs, start_byte + 32))
             (fun i '(channel_sets, start_byte) =>
                cs <- _read_channel_set fi' start_byte ;;
                Ok (dict_set channel_sets (str (i + 1)) cs,
                    start_byte + 32))).
  - reflexivity.
  - intros i [cs sb] Hs. cbn [snd] in Hs.
    rewrite _read_channel_set_outside by exact Hs. reflexivity.
  - intros i [cs sb] [cs' sb'] Hs Hstep. cbn [snd] in *.
    inv_bind Hstep as c Hc. apply Ok_inj in Hstep.
    apply pair_equal_spec in Hstep. destruct Hstep as [_ <-]. lia.
  - cbn [snd]. lia.
Qed.

Lemma _read_extended_header_outside (start_byte block_number nbr_coeff : Z) :
  44 <= start_byte ->
  _read_extended_header fi start_byte block_number nbr_coeff
  = _read_extended_header fi' start_byte block_number nbr_coeff.
Proof.
  intros Hp. unfold _read_extended_header.
  rewrite (for_each_ext_inv (fun s : dict float32 * Z => 44 <= snd s)
             (range 0 nbr_coeff)
             (fun i '(extended_header, start_byte) =>
                coeff <- _read_IEEE fi start_byte ;;
                Ok (dict_set extended_header ("coeff_" ++ str (i + 1))%string
                      coeff, start_byte + 4))
             (fun i '(extended_header, start_byte) =>
                coeff <- _read_IEEE fi' start_byte ;;
                Ok (dict_set extended_header ("coeff_" ++ str (i + 1))%string
                      coeff, start_byte + 4))).
  - reflexivity.
  - intros i [h sb] Hs. cbn [snd] in Hs.
    rewrite (_read_IEEE_outside probe_bytes fi fi' sb Hd)
      by (apply clear_beyond_probe; exact Hs).
    reflexivity.
  - intros i [h sb] [h' sb'] Hs Hstep. cbn [snd] in *.
    inv_bind Hstep as c Hc. apply Ok_inj in Hstep.
    apply pair_equal_spec in Hstep. destruct Hstep as [_ <-]. lia.
  - cbn [snd]. exact Hp.
Qed.

Lemma _read_extended_headers_outside :
  _read_extended_headers fi = _read_extended_headers fi'.
Proof.
  unfold _read_extended_headers. read_step Hd. cbv zeta.
  rewrite _read_extended_header_1_outside by lia.
  destruct (_read_extended_header_1 fi' _); cbn [bind]; [|reflexivity].
  rewrite _read_extended_header_2_outside by lia.
  destruct (_read_extended_header_2 fi' _) as [h2|]; cbn [bind];
    [|reflexivity].
  rewrite _read_extended_header_3_outside by lia.
  destruct (_read_extended_header_3 fi' _); cbn [bind]; [|reflexivity].
  read_step Hd.
  destruct (3 <? v0); [|reflexivity].
  rewrite (for_each_ext_inv
             (fun s : dict (dict float32) * Z => 44 <= snd s)
             (range 3 v0)
             (fun i '(blocks, start_byte) =>
                let start_byte := start_byte + 32 in
                let extended_header_name := str (i + 1) in
                header <-
                  (if i =? v0 - 1 then
                     _read_extended_header fi start_byte (i + 1)
                       (eh2_number_decimation_filter_coefficient h2 mod 8)
                   else _read_extended_header fi start_byte (i + 1) 8) ;;
                Ok (dict_set blocks extended_header_name header, start_byte))
             (fun i '(blocks, start_byte) =>
                let start_byte := start_byte + 32 in
                let extended_header_name := str (i + 1) in
                header <-
                  (if i =? v0 - 1 then
                     _read_extended_header fi' start_byte (i + 1)
                       (eh2_number_decimation_filter_coefficient h2 mod 8)
                   else _read_extended_header fi' start_byte (i + 1) 8) ;;
                Ok (dict_set blocks extended_header_name header,
                    start_byte))).
  - reflexivity.
  - intros i [blocks sb] Hs. cbn [snd] in Hs. cbv zeta.
    rewrite !(_read_extended_header_outside (sb + 32)) by lia. reflexivity.
  - intros i [blocks sb] [blocks' sb'] Hs Hstep. cbn [snd] in *.
    cbv zeta in Hstep.
    inv_bind Hstep as h Hh. apply Ok_inj in Hstep.
    apply pair_equal_spec in Hstep. destruct Hstep as [_ <-]. lia.
  - cbn [snd]. lia.
Qed.

Lemma _cmp_nbr_records_outside : _cmp_nbr_records fi = _cmp_nbr_records fi'.
Proof.
  unfold _cmp_nbr_records, _read_initial_headers,
    _internal_read_initial_headers.
  pose proof _read_general_header_1_outcome as H1.
  pose proof _read_general_header_2_outcome as H2.
  rewrite _read_channel_sets_outside, _read_extended_headers_outside.
  destruct (_read_general_header_1 fi), (_read_general_header_1 fi');
    cbn [same_outcome] in H1; try contradiction; cbn [bind];
    [|subst; reflexivity].
  destruct (_read_general_header_2 fi), (_read_general_header_2 fi');
    cbn [same_outcome] in H2; try contradiction; cbn [bind];
    [|subst; reflexivity].
  destruct (_read_channel_sets fi'); cbn [bind]; [|reflexivity].
  destruct (_read_extended_headers fi'); cbn [bind]; reflexivity.
Qed.

Lemma _make_stats_outside (pos : Z) (standard_orientation : bool) :
  44 <= pos ->
  _make_stats fi pos standard_orientation false
  = _make_stats fi' pos standard_orientation false.
Proof.
  intros Hp. unfold _make_stats. repeat read_step Hd; reflexivity.
Qed.

Lemma _make_trace_outside (pos : Z) (headonly standard_orientation : bool) :
  44 <= pos ->
  _make_trace fi pos headonly standard_orientation false
  = _make_trace fi' pos headonly standard_orientation false.
Proof.
  intros Hp. unfold _make_trace. rewrite _make_stats_outside by exact Hp.
  destruct (_make_stats fi' pos standard_orientation false); cbn [bind];
    [|reflexivity].
  destruct headonly; [reflexivity|].
  rewrite !bind_assoc. read_step Hd. rewrite !bind_assoc. read_step Hd.
  rewrite (_read_IEEE_array_outside probe_bytes fi fi' _ _ Hd)
    by (apply clear_beyond_probe; lia).
  reflexivity.
Qed.

Lemma read_trace_block_outside (headonly : bool)
  (window_start window_end : UTCDateTime) (contacts_north : bool) (i : Z)
  (state : Z * list Trace) :
  44 <= fst state ->
  read_trace_block fi headonly window_start window_end contacts_north false
    i state
  = read_trace_block fi' headonly window_start window_end contacts_north
      false i state.
Proof.
  destruct state as [pos acc]. cbn [fst]. intros Hp.
  unfold read_trace_block. rewrite _cmp_jump_outside by exact Hp.
  destruct (_cmp_jump fi' pos); cbn [bind]; [|reflexivity].
  read_step Hd. rewrite _make_trace_outside by exact Hp. reflexivity.
Qed.

Lemma _internal_read_rg16_outside (headonly : bool)
  (window_start window_end : UTCDateTime) (merge contacts_north : bool) :
  _internal_read_rg16 fi headonly window_start window_end merge
    contacts_north false
  = _internal_read_rg16 fi' headonly window_start window_end merge
      contacts_north false.
Proof.
  unfold _internal_read_rg16.
  rewrite _cmp_nbr_headers_outside, _cmp_nbr_records_outside.
  destruct (_cmp_nbr_headers fi') as [[[a b] c]|] eqn:Hh; cbn [bind];
    [|reflexivity].
  apply _cmp_nbr_headers_Ok in Hh. destruct Hh as (Ha & Hb & Hc).
  apply _read_nonneg in Ha, Hb, Hc.
  destruct (_cmp_nbr_records fi') as [n|]; cbn [bind]; [|reflexivity].
  rewrite (for_each_ext_inv (fun s : Z * list Trace => 44 <= fst s)
             (range 0 n)
             (read_trace_block fi headonly window_start window_end
                contacts_north false)
             (read_trace_block fi' headonly window_start window_end
                contacts_north false)).
  - reflexivity.
  - intros i s Hs. apply read_trace_block_outside. exact Hs.
  - intros i [pos acc] [pos' acc'] Hs Hstep. cbn [fst] in *.
    apply read_trace_block_Ok in Hstep.
    destruct Hstep as (e & s & t & He & Hs' & -> & _).
    apply _read_nonneg in He, Hs'. lia.
  - cbn [fst]. lia.
Qed.

End ProbeBytes.

(** A file with version number 261 that is otherwise well formed: the
    probe answers no, and the reader with its default options (the clock
    at 2000 s) returns a stream with the trace of the one block; it does
    not raise. *)
Lemma C1_counterexample :
  _read version_261_file 42 (W 2) binary true = Ok 261 /\
  _is_rg16 version_261_file = Ok false /\
  (exists tr,
     _read_rg16 2000%Q version_261_file false None None false false false
     = Ok {| traces := [tr] |} /\
     channel (stats tr) = "DP2" /\
     npts (stats tr) = 2 /\
     nd_values (data tr) = [0x3F800000; 0xBF800000]) /\
  ~ (_is_rg16 version_261_file = Ok true <->
     ~ raises (_read_rg16 2000%Q version_261_file false None None false
                 false false) NotRg16).
Proof.
  split; [vm_compute; reflexivity|]. split; [vm_compute; reflexivity|].
  split.
  - eexists. split; [vm_compute; reflexivity|].
    repeat split; reflexivity.
  - intros [_ H].
    assert (Hprobe : _is_rg16 version_261_file = Ok true).
    { apply H. intros (e & He & _). vm_compute in He. discriminate He. }
    vm_compute in Hprobe. discriminate Hprobe.
Qed.

(** C1, as the code has it: [_is_rg16] never raises and answers true
    exactly when the three fields can be read and are 8058, 20 and 262; in
    particular it answers false when the version field is 261. The reader
    makes no such check. Without [details], what it returns or raises does
    not depend on the bytes of the three fields (2, 3, 16, 42 and 43): two
    sources that differ at most there are read alike, so that a source
    which is decoded is still decoded, to the same stream, when its version
    number is changed to 261. And whatever the source and the options, the
    reader never raises an error of the kind [NotRg16]. *)
Theorem C1_probe_and_reader :
  (forall fi,
     _is_rg16 fi = Ok true <->
     _read fi 2 (W 2) bcd true = Ok 8058 /\
     _read fi 16 (W 1) bcd true = Ok 20 /\
     _read fi 42 (W 2) binary true = Ok 262) /\
  (forall fi, exists answer, _is_rg16 fi = Ok answer) /\
  (forall fi,
     _read fi 42 (W 2) binary true = Ok 261 -> _is_rg16 fi = Ok false) /\
  (forall fi fi' now headonly window_start window_end merge contacts_north,
     differ_only_at probe_bytes fi fi' = true ->
     _read_rg16 now fi headonly window_start window_end merge
       contacts_north false
     = _read_rg16 now fi' headonly window_start window_end merge
         contacts_north false) /\
  (forall now fi headonly window_start window_end merge contacts_north
          details,
     ~ raises (_read_rg16 now fi headonly window_start window_end merge
                 contacts_north details) NotRg16).
Proof.
  split; [|split; [|split; [|split]]].
  - intros fi. unfold _is_rg16, _internal_is_rg16.
    destruct (_read fi 2 (W 2) bcd true) as [sf|e1] eqn:E1; cbn [bind].
    2:{ apply _read_Raise in E1. subst e1.
        split; [discriminate | intros (H & _); discriminate H]. }
    destruct (_read fi 16 (W 1) bcd true) as [mc|e2] eqn:E2; cbn [bind].
    2:{ apply _read_Raise in E2. subst e2.
        split; [discriminate | intros (_ & H & _); discriminate H]. }
    destruct (_read fi 42 (W 2) binary true) as [v|e3] eqn:E3; cbn [bind].
    2:{ apply _read_Raise in E3. subst e3.
        split; [discriminate | intros (_ & _ & H); discriminate H]. }
    split.
    + intros H. apply Ok_inj in H.
      apply andb_true_iff in H. destruct H as [H Hmc].
      apply andb_true_iff in H. destruct H as [Hv Hsf].
      apply Z.eqb_eq in Hmc, Hv, Hsf. subst. auto.
    + intros (Hsf & Hmc & Hv).
      apply Ok_inj in Hsf, Hmc, Hv. subst. reflexivity.
  - intros fi. unfold _is_rg16, _internal_is_rg16.
    destruct (_read fi 2 (W 2) bcd true) as [sf|e1] eqn:E1; cbn [bind].
    2:{ apply _read_Raise in E1. subst e1. eauto. }
    destruct (_read fi 16 (W 1) bcd true) as [mc|e2] eqn:E2; cbn [bind].
    2:{ apply _read_Raise in E2. subst e2. eauto. }
    destruct (_read fi 42 (W 2) binary true) as [v|e3] eqn:E3; cbn [bind].
    2:{ apply _read_Raise in E3. subst e3. eauto. }
    eauto.
  - intros fi Hv. unfold _is_rg16, _internal_is_rg16.
    destruct (_read fi 2 (W 2) bcd true) as [sf|e1] eqn:E1; cbn [bind].
    2:{ apply _read_Raise in E1. subst e1. reflexivity. }
    destruct (_read fi 16 (W 1) bcd true) as [mc|e2] eqn:E2; cbn [bind].
    2:{ apply _read_Raise in E2. subst e2. reflexivity. }
    rewrite Hv. cbn [bind]. reflexivity.
  - intros fi fi' now headonly ws we merge cn Hd. unfold _read_rg16.
    apply _internal_read_rg16_outside. exact Hd.
  - intros now fi headonly ws we merge cn details (e & _ & He).
    exact (kind_of_not_NotRg16 e He).
Qed.

(** The probe on the file with version number 261 and on a file with
    version number 262; the reader on the file with version number 261 and
    on the same file with version number 262. *)
Lemma C1_probe_and_reader_witness :
  _is_rg16 version_261_file = Ok false /\
  _is_rg16 (component_file 2) = Ok true /\
  _read_rg16 2000%Q (component_file 2) false None None false false false
  = _read_rg16 2000%Q version_261_file false None None false false false /\
  exists tr,
    _read_rg16 2000%Q (component_file 2) false None None false false false
    = Ok {| traces := [tr] |}.
Proof.
  split; [|split; [|split]].
  - apply (proj1 (proj2 (proj2 C1_probe_and_reader))).
    vm_compute. reflexivity.
  - apply (proj1 C1_probe_and_reader). vm_compute. auto.
  - apply (proj1 (proj2 (proj2 (proj2 C1_probe_and_reader)))).
    vm_compute. reflexivity.
  - eexists. vm_compute. reflexivity.
Defined.

(** ** Trace blocks with more than ten extensions *)







(** With the details, the same file fails on the lookup of block
    number 11 in the table of the block readers. *)
Example eleven_extensions_with_details :
  _internal_read_rg16 eleven_extensions_file false 0%Q 2000%Q false false
    true = Raise (KeyError "dict_func" "11") /\
  kind_of (KeyError "dict_func" "11") = UnknownTraceExtensionBlock.
Proof. split; vm_compute; reflexivity. Qed.



(** ** The sampling rate of a decode *)




(** ** Empty time windows and the merger *)

(** A decode that keeps no trace fails when merging is asked for: the
    set of sampling rates of an empty list is empty, and the first
    assertion of [_quick_merge] wants exactly one element. *)
Lemma merge_of_empty_window (fi : source) (headonly : bool)
  (window_start window_end : UTCDateTime) (contacts_north details : bool) :
  _internal_read_rg16 fi headonly window_start window_end false
    contacts_north details = Ok {| traces := [] |} ->
  _internal_read_rg16 fi headonly window_start window_end true
    contacts_north details = Raise AssertionError.
Proof.
  intros H. apply _internal_read_rg16_Ok in H.
  destruct H as (a & b & c & n & final & ts & Hh & Hn & Hloop & Hout).
  apply Ok_inj in Hout. cbn [traces] in Hout. subst ts.
  unfold _internal_read_rg16. rewrite Hh. cbn [bind]. rewrite Hn.
  cbn [bind]. rewrite Hloop. reflexivity.
Qed.

(** C7 (the code departs from the specification): on the file with three blocks
    starting at 1000 s and later, the window [0 s, 10 s) excludes every
    block; without merging the reader returns the empty stream, with
    [merge] set it raises [AssertionError]. *)
Theorem C7_empty_window_with_merge :
  _internal_read_rg16 three_blocks_file false 0%Q 10%Q false false false
    = Ok {| traces := [] |} /\
  _internal_read_rg16 three_blocks_file false 0%Q 10%Q true false false
    = Raise AssertionError /\
  _quick_merge [] small_number_default = Raise AssertionError.
Proof.
  split; [vm_compute; reflexivity|].
  split; [vm_compute; reflexivity | reflexivity].
Qed.

(** ** The groups of the merger *)

(** C2 (the code departs from the specification): the group number is the
    cumulative sum of [ids_different & disjoint], where [disjoint] holds
    the test [|start[i+1] - end[i]| <= diff]. The three blocks of one
    channel that start 10 s apart, each lasting 0.004 s, all get group 0 and
    are merged into one trace of 6 samples; two traces of different
    channels that are not contiguous get the same group and are merged into
    one trace; indeed any two rows, whatever their ids and times, get the
    same group number. *)
Theorem C2_groups_of_the_merger :
  (let rows :=
     [ {| row_id := "0.0.0.DP2"; row_starttime := 1000%Q;
          row_endtime := (1000 + (4 # 1000))%Q |};
       {| row_id := "0.0.0.DP2"; row_starttime := 1010%Q;
          row_endtime := (1010 + (4 # 1000))%Q |};
       {| row_id := "0.0.0.DP2"; row_starttime := 1020%Q;
          row_endtime := (1020 + (4 # 1000))%Q |} ] in
   _get_trace_groups rows ((1 # 250) + small_number_default)%Q
   = [0; 0; 0]) /\
  (exists tr,
     _internal_read_rg16 three_blocks_file false 0%Q 2000%Q true false false
       = Ok {| traces := [tr] |} /\
     npts (stats tr) = 6 /\
     List.length (nd_values (data tr)) = 6%nat) /\
  (exists tr,
     _quick_merge [trace_of_channel "DP2" [1; 2; 3];
                   trace_of_channel "DP3" [4; 5; 6]] small_number_default
       = Ok [tr] /\
     id tr = "1.7.0.DP2" /\
     nd_values (data tr) = [1; 2; 3; 4; 5; 6]) /\
  (forall r1 r2 diff,
     exists g, _get_trace_groups [r1; r2] diff = [g; g]).
Proof.
  split; [vm_compute; reflexivity|]. split; [|split].
  - eexists. split; [vm_compute; reflexivity|]. split; reflexivity.
  - eexists. split; [vm_compute; reflexivity|]. split; reflexivity.
  - intros r1 r2 diff. unfold _get_trace_groups, ids_different, disjoint.
    cbn [tl removelast combine map fst snd app].
    destruct (Qle_bool _ diff); cbn [andb];
      rewrite andb_false_r; eexists; reflexivity.
Qed.

(** ** Sorting the rows *)

Section SortingFacts.
Context {A : Type} (leb : A -> A -> bool).

Lemma insert_sorted_perm (x : A) (l : list A) :
  Permutation (insert_sorted leb x l) (x :: l).
Proof.
  induction l as [|y l IH]; simpl.
  - apply Permutation_refl.
  - destruct (leb x y).
    + apply Permutation_refl.
    + eapply perm_trans; [apply perm_skip, IH | apply perm_swap].
Qed.

Lemma insertion_sort_perm (l : list A) :
  Permutation (insertion_sort leb l) l.
Proof.
  induction l as [|x l IH]; simpl.
  - apply perm_nil.
  - eapply perm_trans; [apply insert_sorted_perm | apply perm_skip, IH].
Qed.

End SortingFacts.

Lemma take_seq {A : Type} (a : list A) :
  take a (seq 0 (List.length a)) = a.
Proof.
  unfold take. induction a as [|x a IH]; [reflexivity|].
  cbn [List.length seq flat_map nth_error app]. f_equal.
  rewrite <- seq_shift, flat_map_concat_map, map_map.
  rewrite <- flat_map_concat_map. exact IH.
Qed.

(** Indexing by [argsort] permutes the array. *)
Lemma take_argsort_perm {A : Type} (ar : list row) (a : list A) :
  List.length ar = List.length a ->
  Permutation (take a (argsort ar)) a.
Proof.
  intros Hlen. unfold argsort. rewrite Hlen.
  apply perm_trans with (take a (seq 0 (List.length a))).
  - unfold take. apply Permutation_flat_map, insertion_sort_perm.
  - rewrite take_seq. apply Permutation_refl.
Qed.

Lemma length_removelast {A : Type} (l : list A) :
  List.length (removelast l) = pred (List.length l).
Proof.
  induction l as [|x l IH]; [reflexivity|].
  destruct l as [|y l]; [reflexivity|].
  change (removelast (x :: y :: l)) with (x :: removelast (y :: l)).
  cbn [List.length] in *. rewrite IH. reflexivity.
Qed.

Lemma cumsum_from_length (acc : Z) (l : list Z) :
  List.length (cumsum_from acc l) = List.length l.
Proof.
  revert acc. induction l as [|x l IH]; intros acc; simpl;
    [reflexivity | f_equal; apply IH].
Qed.

Lemma _get_trace_groups_length (ar : list row) (diff : Q) :
  List.length (_get_trace_groups ar diff) = List.length ar.
Proof.
  unfold _get_trace_groups, cumsum.
  rewrite cumsum_from_length, length_map, length_combine.
  destruct ar as [|r ar]; [reflexivity|].
  unfold ids_different, disjoint.
  rewrite length_app. cbn [List.length].
  rewrite !length_map, length_combine, length_removelast.
  cbn [tl List.length]. lia.
Qed.

(** ** The groups partition the rows *)

Section Partition.
Context {A : Type}.

Lemma flat_map_absent (a : Z) (p : Z * A) (f : Z -> list (Z * A))
  (gs : list Z) :
  ~ In a gs ->
  flat_map (fun k => (if a =? k then [p] else []) ++ f k) gs = flat_map f gs.
Proof.
  induction gs as [|k gs IH]; intros Hnin; [reflexivity|].
  cbn [flat_map]. destruct (Z.eqb_spec a k) as [->|_].
  - exfalso. apply Hnin. left. reflexivity.
  - rewrite IH; [reflexivity|]. intros Hin. apply Hnin. right. exact Hin.
Qed.

Lemma flat_map_present (a : Z) (p : Z * A) (f : Z -> list (Z * A))
  (gs : list Z) :
  NoDup gs -> In a gs ->
  Permutation
    (flat_map (fun k => (if a =? k then [p] else []) ++ f k) gs)
    (p :: flat_map f gs).
Proof.
  induction gs as [|k gs IH]; intros Hnd Hin; [destruct Hin|].
  inversion Hnd as [|k' gs' Hk Hnd']; subst.
  cbn [flat_map]. destruct (Z.eqb_spec a k) as [->|Hne].
  - rewrite flat_map_absent by exact Hk. apply Permutation_refl.
  - destruct Hin as [->|Hin]; [contradiction|].
    cbn [app]. eapply perm_trans.
    + apply Permutation_app_head, IH; assumption.
    + apply Permutation_sym, Permutation_middle.
Qed.

Lemma partition_perm (pairs : list (Z * A)) (gs : list Z) :
  NoDup gs -> (forall p, In p pairs -> In (fst p) gs) ->
  Permutation
    (flat_map (fun k => filter (fun p => fst p =? k) pairs) gs) pairs.
Proof.
  intros Hnd. induction pairs as [|p ps IH]; intros Hall.
  - induction gs as [|k gs IHgs]; [apply perm_nil|].
    inversion Hnd; subst. cbn [flat_map filter app].
    apply IHgs; [assumption | intros q []].
  - rewrite (flat_map_ext _
               (fun k => (if fst p =? k then [p] else [])
                         ++ filter (fun q => fst q =? k) ps)).
    + eapply perm_trans.
      * apply flat_map_present; [exact Hnd|]. apply Hall. left. reflexivity.
      * apply perm_skip, IH. intros q Hq. apply Hall. right. exact Hq.
    + intros k. cbn [filter]. destruct (fst p =? k); reflexivity.
Qed.

Lemma map_snd_combine (g : list Z) (l : list A) :
  List.length g = List.length l -> map snd (combine g l) = l.
Proof.
  revert l. induction g as [|k g IH]; intros [|x l] Hlen;
    try discriminate Hlen; [reflexivity|].
  cbn [combine map snd]. f_equal. apply IH. simpl in Hlen. lia.
Qed.

Lemma In_combine_key (g : list Z) (l : list A) (k : Z) :
  List.length g = List.length l -> In k g ->
  exists x, In (k, x) (combine g l).
Proof.
  revert l. induction g as [|k' g IH]; intros [|x l] Hlen Hin;
    try discriminate Hlen; [destruct Hin|].
  destruct Hin as [->|Hin].
  - exists x. left. reflexivity.
  - destruct (IH l) as [y Hy]; [simpl in Hlen; lia | exact Hin|].
    exists y. right. exact Hy.
Qed.

(** The groups, taken over distinct group numbers that cover the array
    [group], are a partition of the rows. *)
Lemma select_group_perm (group : list Z) (trace_ar : list A)
  (gs : list Z) :
  List.length group = List.length trace_ar ->
  NoDup gs -> (forall k, In k group -> In k gs) ->
  Permutation (flat_map (select_group group trace_ar) gs) trace_ar.
Proof.
  intros Hlen Hnd Hall. unfold select_group.
  apply perm_trans with (map snd (combine group trace_ar));
    [|rewrite (map_snd_combine group trace_ar Hlen); apply Permutation_refl].
  rewrite flat_map_concat_map, <- map_map, <- concat_map.
  apply Permutation_map. rewrite <- flat_map_concat_map.
  apply partition_perm; [exact Hnd|].
  intros [k x] Hin. apply Hall. eapply in_combine_l, Hin.
Qed.

Lemma select_group_nonempty (group : list Z) (trace_ar : list A) (k : Z) :
  List.length group = List.length trace_ar -> In k group ->
  select_group group trace_ar k <> [].
Proof.
  intros Hlen Hin Hnil.
  destruct (In_combine_key group trace_ar k Hlen Hin) as [x Hx].
  assert (Hsel : In x (select_group group trace_ar k)).
  { unfold select_group. apply in_map_iff. exists (k, x).
    split; [reflexivity|]. apply filter_In. split; [exact Hx|].
    apply Z.eqb_refl. }
  rewrite Hnil in Hsel. destruct Hsel.
Qed.

End Partition.

Lemma unique_NoDup (l : list Z) : NoDup (unique l).
Proof.
  unfold unique.
  eapply Permutation_NoDup;
    [apply Permutation_sym, insertion_sort_perm | apply NoDup_nodup].
Qed.

Lemma unique_In (l : list Z) (k : Z) : In k (unique l) <-> In k l.
Proof.
  unfold unique. split; intros H.
  - eapply nodup_In. eapply Permutation_in; [apply insertion_sort_perm|].
    exact H.
  - eapply Permutation_in; [apply Permutation_sym, insertion_sort_perm|].
    apply nodup_In. exact H.
Qed.



(** ** What the merger returns *)

Lemma _quick_merge_unfold (tr0 : Trace) (rest : list Trace)
  (small_number : Q) :
  (forall tr, In tr (tr0 :: rest) ->
     sampling_rate (stats tr) = sampling_rate (stats tr0)) ->
  sampling_rate (stats tr0) <> 0 ->
  (forall tr, In tr (tr0 :: rest) ->
     nd_dtype (data tr) = nd_dtype (data tr0)) ->
  _quick_merge (tr0 :: rest) small_number =
  let ar := fst (_trace_list_to_rec_array (tr0 :: rest)) in
  let trace_ar := snd (_trace_list_to_rec_array (tr0 :: rest)) in
  let group :=
    _get_trace_groups ar
      (float_add (float_div 1 (float_of_int (sampling_rate (stats tr0))))
         small_number) in
  for_each (unique group) (merge_group group trace_ar) [].
Proof.
  intros Hsr Hsr0 Hdt. unfold _quick_merge.
  assert (E1 : List.length
                 (nodup Z.eq_dec
                    (map (fun tr => sampling_rate (stats tr)) (tr0 :: rest)))
               = 1%nat).
  { rewrite (nodup_constant Z.eq_dec (sampling_rate (stats tr0)));
      [reflexivity | discriminate |].
    intros x Hx. apply in_map_iff in Hx. destruct Hx as (tr & <- & Hin).
    apply Hsr, Hin. }
  assert (E2 : List.length
                 (nodup dtype_eq_dec
                    (map (fun tr => nd_dtype (data tr)) (tr0 :: rest)))
               = 1%nat).
  { rewrite (nodup_constant dtype_eq_dec (nd_dtype (data tr0)));
      [reflexivity | discriminate |].
    intros x Hx. apply in_map_iff in Hx. destruct Hx as (tr & <- & Hin).
    apply Hdt, Hin. }
  rewrite E1, E2. cbn [Nat.eqb negb bind].
  destruct (Z.eqb_spec (sampling_rate (stats tr0)) 0) as [E|_];
    [contradiction|].
  cbn [bind].
  destruct (_trace_list_to_rec_array (tr0 :: rest)) as [ar trace_ar].
  reflexivity.
Qed.

Lemma merge_group_Ok (group : list Z) (trace_ar : list (ndarray * Stats))
  (k : Z) (out : list Trace) (d : ndarray) (st : Stats)
  (sel : list (ndarray * Stats)) :
  select_group group trace_ar k = (d, st) :: sel ->
  merge_group group trace_ar k out = Ok (out ++ [merged_trace d st sel]).
Proof. intros Hsel. unfold merge_group. rewrite Hsel. reflexivity. Qed.

Lemma merge_groups_Ok (group : list Z) (trace_ar : list (ndarray * Stats))
  (gs : list Z) :
  (forall k, In k gs -> select_group group trace_ar k <> []) ->
  forall acc,
    exists outs,
      for_each gs (merge_group group trace_ar) acc = Ok (acc ++ outs) /\
      map (fun tr => nd_values (data tr)) outs
      = map (fun k =>
               List.concat
                 (map nd_values (map fst (select_group group trace_ar k))))
          gs /\
      Forall (fun tr =>
                npts (stats tr)
                = Z.of_nat (List.length (nd_values (data tr)))) outs.
Proof.
  induction gs as [|k gs IH]; intros Hne acc.
  - exists []. rewrite app_nil_r. repeat split. constructor.
  - cbn [for_each].
    destruct (select_group group trace_ar k) as [|[d st] sel] eqn:Hsel.
    { exfalso. apply (Hne k); [left; reflexivity | exact Hsel]. }
    rewrite (merge_group_Ok _ _ _ _ _ _ _ Hsel). cbn [bind].
    destruct (IH (fun k' Hk' => Hne k' (or_intror Hk'))
                (acc ++ [merged_trace d st sel]))
      as (outs & Hloop & Hvals & Hnpts).
    exists (merged_trace d st sel :: outs). split; [|split].
    + rewrite Hloop, <- app_assoc. reflexivity.
    + cbn [map]. rewrite Hvals, Hsel. reflexivity.
    + constructor; [reflexivity | exact Hnpts].
Qed.

Lemma concat_flat_map {A B : Type} (f : A -> list B) (g : Z -> list A)
  (gs : list Z) :
  List.concat (map (fun k => List.concat (map f (g k))) gs)
  = List.concat (map f (flat_map g gs)).
Proof.
  induction gs as [|k gs IH]; [reflexivity|].
  cbn [map List.concat flat_map]. rewrite map_app, concat_app, IH.
  reflexivity.
Qed.

(** The merger succeeds on a non-empty list of traces that have one
    (non-zero) sampling rate and one dtype; the samples of the traces it
    returns are the input arrays, each taken once, and the [npts] of each
    returned trace is its number of samples. *)
Lemma _quick_merge_samples (traces : list Trace) (small_number : Q) :
  traces <> [] ->
  (forall tr tr', In tr traces -> In tr' traces ->
     sampling_rate (stats tr) = sampling_rate (stats tr')) ->
  (forall tr, In tr traces -> sampling_rate (stats tr) <> 0) ->
  (forall tr tr', In tr traces -> In tr' traces ->
     nd_dtype (data tr) = nd_dtype (data tr')) ->
  exists out arrays,
    _quick_merge traces small_number = Ok out /\
    Permutation arrays (map data traces) /\
    List.concat (map (fun tr => nd_values (data tr)) out)
    = List.concat (map nd_values arrays) /\
    Forall (fun tr =>
              npts (stats tr)
              = Z.of_nat (List.length (nd_values (data tr)))) out.
Proof.
  intros Hne Hsr Hsr0 Hdt. destruct traces as [|tr0 rest]; [contradiction|].
  rewrite _quick_merge_unfold.
  2:{ intros tr Hin. apply Hsr; [exact Hin | left; reflexivity]. }
  2:{ apply Hsr0. left. reflexivity. }
  2:{ intros tr Hin. apply Hdt; [exact Hin | left; reflexivity]. }
  cbv zeta.
  set (diff := float_add
                 (float_div 1 (float_of_int (sampling_rate (stats tr0))))
                 small_number).
  unfold _trace_list_to_rec_array. cbn [fst snd].
  set (data1 := map (fun tr => {| row_id := id tr;
                                  row_starttime := starttime (stats tr);
                                  row_endtime := endtime (stats tr) |})
                  (tr0 :: rest)).
  set (data2 := map (fun tr => (data tr, stats tr)) (tr0 :: rest)).
  set (ar := take data1 (argsort data1)).
  set (trace_ar := take data2 (argsort data1)).
  set (group := _get_trace_groups ar diff).
  assert (Hperm1 : Permutation ar data1).
  { apply take_argsort_perm. reflexivity. }
  assert (Hperm2 : Permutation trace_ar data2).
  { apply take_argsort_perm. unfold data1, data2.
    rewrite !length_map. reflexivity. }
  assert (Hlen : List.length group = List.length trace_ar).
  { unfold group. rewrite _get_trace_groups_length.
    rewrite (Permutation_length Hperm1), (Permutation_length Hperm2).
    unfold data1, data2. rewrite !length_map. reflexivity. }
  destruct (merge_groups_Ok group trace_ar (unique group)) with (acc := @nil Trace)
    as (outs & Hloop & Hvals & Hnpts).
  { intros k Hk. apply select_group_nonempty; [exact Hlen|].
    apply unique_In, Hk. }
  exists outs, (map fst (flat_map (select_group group trace_ar)
                           (unique group))).
  split; [exact Hloop|]. split; [|split; [|exact Hnpts]].
  - apply perm_trans with (map fst data2).
    + apply Permutation_map.
      eapply perm_trans; [|exact Hperm2].
      apply select_group_perm;
        [exact Hlen | apply unique_NoDup | intros k Hk; apply unique_In, Hk].
    + unfold data2. rewrite map_map. apply Permutation_refl.
  - rewrite Hvals. rewrite (map_map fst nd_values).
    rewrite <- (concat_flat_map (fun p => nd_values (fst p))
                  (select_group group trace_ar) (unique group)).
    f_equal. apply map_ext. intros k. rewrite map_map. reflexivity.
Qed.




(** * Further properties of the reader *)

(** ** The probe on short sources *)

(** X1: a source of fewer than 44 bytes is not an RG16 file: the probe
    answers false, it does not raise. *)
Theorem X1_probe_short_source (fi : source) :
  (List.length fi < 44)%nat -> _is_rg16 fi = Ok false.
Proof.
  intros Hlen. unfold _is_rg16, _internal_is_rg16.
  destruct (_read fi 2 (W 2) bcd true) as [sf|e1] eqn:E1; cbn [bind].
  2:{ apply _read_Raise in E1. subst e1. reflexivity. }
  destruct (_read fi 16 (W 1) bcd true) as [mc|e2] eqn:E2; cbn [bind].
  2:{ apply _read_Raise in E2. subst e2. reflexivity. }
  rewrite _read_short; [reflexivity | lia | simpl; lia | simpl; lia].
Qed.

(** Scenario S1 of the specification: ten bytes of zeros. *)
Lemma X1_probe_short_source_witness : _is_rg16 (repeat x00 10) = Ok false.
Proof. apply X1_probe_short_source. simpl. lia. Defined.

(** ** The length of a trace block *)

Lemma block_chain_increasing (fi : source) (starts : list Z) :
  forall pos final,
    block_chain fi pos starts final ->
    pos + 20 * Z.of_nat (List.length starts) <= final /\
    Forall (fun p => pos <= p) starts /\
    StronglySorted (fun p q => p + 20 <= q) starts.
Proof.
  induction starts as [|p rest IH]; intros pos final H.
  - cbn [block_chain] in H. subst final. simpl.
    split; [lia|]. split; constructor.
  - cbn [block_chain] in H. destruct H as (-> & e & s & He & Hs & H).
    apply _read_binary_bound in He, Hs.
    apply IH in H. destruct H as (Hfinal & Hall & Hsorted).
    cbn [List.length]. split; [lia|]. split.
    + constructor; [lia|]. eapply Forall_impl; [|exact Hall].
      intros q Hq. cbv beta in Hq. lia.
    + constructor; [exact Hsorted|].
      eapply Forall_impl; [|exact Hall]. intros q Hq. cbv beta in Hq. lia.
Qed.

(** X2: the length that [_cmp_jump] computes is a multiple of 4 between
    20 and [20 + 32 * 255 + 4 * (2^24 - 1)]; hence the trace blocks that the
    walker visits lie at strictly increasing positions, at least 20 bytes
    apart, and the cursor ends at least [20 * nbr_records] bytes after the
    first block. *)
Theorem X2_block_length_bounds (fi : source) (pos len : Z) :
  _cmp_jump fi pos = Ok len ->
  20 <= len <= 20 + 32 * 255 + 4 * (2 ^ 24 - 1) /\
  len mod 4 = 0 /\
  forall starts final,
    block_chain fi pos starts final ->
    pos + 20 * Z.of_nat (List.length starts) <= final /\
    StronglySorted (fun p q => p + 20 <= q) starts.
Proof.
  intros H. apply _cmp_jump_Ok in H. destruct H as (e & s & He & Hs & ->).
  apply _read_binary_bound in He, Hs.
  change (256 ^ Z.of_nat 1) with 256 in He.
  change (256 ^ Z.of_nat 3) with (2 ^ 24) in Hs.
  split; [lia|]. split.
  - replace (20 + 32 * e + 4 * s) with ((5 + 8 * e + s) * 4) by lia.
    apply Z_mod_mult.
  - intros starts final Hchain.
    apply block_chain_increasing in Hchain. tauto.
Qed.

Lemma X2_block_length_bounds_witness :
  20 <= 124 <= 20 + 32 * 255 + 4 * (2 ^ 24 - 1) /\
  124 mod 4 = 0 /\
  forall starts final,
    block_chain three_blocks_file 192 starts final ->
    192 + 20 * Z.of_nat (List.length starts) <= final /\
    StronglySorted (fun p q => p + 20 <= q) starts.
Proof.
  apply (X2_block_length_bounds three_blocks_file 192 124).
  vm_compute. reflexivity.
Defined.

(** ** Samples and metadata of a trace *)

Lemma words_of_length (n : nat) (bs : list byte) :
  List.length (words_of n bs) = n.
Proof.
  revert bs. induction n as [|n IH]; intros bs; simpl;
    [reflexivity | f_equal; apply IH].
Qed.

Lemma _make_trace_Ok (fi : source) (pos : Z)
  (headonly standard_orientation details : bool) (tr : Trace) :
  _make_trace fi pos headonly standard_orientation details = Ok tr ->
  _make_stats fi pos standard_orientation details = Ok (stats tr) /\
  if headonly then data tr = {| nd_dtype := float64; nd_values := [] |}
  else
    exists e s samples,
      _read fi (pos + 9) (W 1) binary true = Ok e /\
      _read fi (pos + 27) (W 3) binary true = Ok s /\
      _read_IEEE_array fi (pos + 20 + e * 32) (4 * s) = Ok samples /\
      (data tr = {| nd_dtype := f4_be; nd_values := samples |} \/
       data tr = negate {| nd_dtype := f4_be; nd_values := samples |}).
Proof.
  unfold _make_trace. intros H.
  inv_bind H as st Hst. inv_bind H as d Hd. inv_ok H. cbn [data stats].
  split; [exact Hst|]. destruct headonly.
  - apply Ok_inj in Hd. symmetry. exact Hd.
  - inv_bind Hd as e He. inv_bind Hd as s Hs. inv_bind Hd as samples Hsm.
    exists e, s, samples.
    split; [exact He|]. split; [exact Hs|]. split; [exact Hsm|].
    destruct (last_char (channel st)) as [c|]; [|discriminate Hd].
    destruct (Ascii.eqb c "Z"); apply Ok_inj in Hd; auto.
Qed.

(** X3: a trace read with its samples has exactly [npts] samples, of
    dtype ['>f4']; a trace read with [headonly] has no sample, dtype
    [float64], and keeps the [npts] of the header. *)
Theorem X3_samples_match_npts (fi : source) (pos : Z)
  (headonly standard_orientation details : bool) (tr : Trace) :
  _make_trace fi pos headonly standard_orientation details = Ok tr ->
  _read fi (pos + 27) (W 3) binary true = Ok (npts (stats tr)) /\
  if headonly then data tr = {| nd_dtype := float64; nd_values := [] |}
  else
    nd_dtype (data tr) = f4_be /\
    Z.of_nat (List.length (nd_values (data tr))) = npts (stats tr).
Proof.
  intros H. apply _make_trace_Ok in H. destruct H as [Hst Hdata].
  apply _make_stats_Ok in Hst.
  destruct Hst as (b & comp & code & band & n & t & _ & _ & _ & _ & _ & _
                   & _ & Hn & Hnpts & _).
  rewrite Hnpts. split; [exact Hn|].
  destruct headonly; [exact Hdata|].
  destruct Hdata as (e & s & samples & He & Hs & Hsm & Hd).
  rewrite Hn in Hs. apply Ok_inj in Hs. subst s.
  pose proof (_read_binary_bound _ _ _ _ _ Hn) as Hbound.
  assert (Hlen : Z.of_nat (List.length samples) = n).
  { unfold _read_IEEE_array in Hsm. inv_bind Hsm as bs Hbs.
    apply Ok_inj in Hsm. subst samples. rewrite words_of_length.
    replace (4 * n / 4) with n by (rewrite Z.mul_comm, Z.div_mul; lia).
    lia. }
  destruct Hd as [-> | ->]; cbn [negate nd_dtype nd_values];
    rewrite ?length_map; auto.
Qed.

Lemma X3_samples_match_npts_witness :
  exists tr,
    _make_trace three_blocks_file 192 false false false = Ok tr /\
    _read three_blocks_file (192 + 27) (W 3) binary true
    = Ok (npts (stats tr)) /\
    nd_dtype (data tr) = f4_be /\
    Z.of_nat (List.length (nd_values (data tr))) = npts (stats tr).
Proof.
  eexists. split; [vm_compute; reflexivity|].
  apply (X3_samples_match_npts three_blocks_file 192 false false false).
  vm_compute. reflexivity.
Defined.

(** ** Decodes with other options *)

(** A loop that is simulated step by step is simulated as a whole. *)
Lemma for_each_simulation {S T : Type} (R : S -> T -> Prop) (l : list Z)
  (body1 : Z -> S -> result S) (body2 : Z -> T -> result T) :
  (forall i s s' t,
     R s t -> body1 i s = Ok s' -> exists t', body2 i t = Ok t' /\ R s' t') ->
  forall s s' t,
    R s t -> for_each l body1 s = Ok s' ->
    exists t', for_each l body2 t = Ok t' /\ R s' t'.
Proof.
  intros Hstep. induction l as [|i l IH]; intros s s' t HR H.
  - cbn [for_each] in *. apply Ok_inj in H. subst s'. eauto.
  - cbn [for_each] in *. inv_bind H as s1 Hs1.
    destruct (Hstep i s s1 t HR Hs1) as (t1 & Ht1 & HR1).
    rewrite Ht1. cbn [bind]. eapply IH; eassumption.
Qed.

Lemma _make_trace_headonly (fi : source) (pos : Z)
  (standard_orientation details : bool) (tr : Trace) :
  _make_trace fi pos false standard_orientation details = Ok tr ->
  _make_trace fi pos true standard_orientation details
  = Ok (strip_data tr).
Proof.
  intros H. apply _make_trace_Ok in H. destruct H as [Hst _].
  unfold _make_trace. rewrite Hst. reflexivity.
Qed.

(** X4: when a decode with the samples succeeds (without merging), the
    decode of the same source with [headonly] succeeds too and returns the
    same traces without their samples: the same metadata, in the same
    order. *)
Theorem X4_headonly_same_metadata (fi : source)
  (window_start window_end : UTCDateTime) (contacts_north details : bool)
  (stream : Stream) :
  _internal_read_rg16 fi false window_start window_end false contacts_north
    details = Ok stream ->
  _internal_read_rg16 fi true window_start window_end false contacts_north
    details = Ok {| traces := map strip_data (traces stream) |}.
Proof.
  intros H. apply _internal_read_rg16_Ok in H.
  destruct H as (a & b & c & n & final & ts & Hh & Hn & Hloop & Hout).
  apply Ok_inj in Hout. unfold _internal_read_rg16.
  rewrite Hh. cbn [bind]. rewrite Hn. cbn [bind].
  destruct (for_each_simulation
              (fun s t => fst t = fst s /\ snd t = map strip_data (snd s))
              (range 0 n)
              (read_trace_block fi false window_start window_end
                 contacts_north details)
              (read_trace_block fi true window_start window_end
                 contacts_north details))
    with (s := (32 * (2 + a + b + c), @nil Trace))
         (s' := (final, ts))
         (t := (32 * (2 + a + b + c), @nil Trace))
    as ([final' ts'] & Hloop' & Hfinal & Hts); [| split; reflexivity | exact Hloop |].
  - intros i [pos acc] [pos1 acc1] [pos' acc'] [Hp Ha] Hstep.
    cbn [fst snd] in Hp, Ha. subst pos' acc'.
    unfold read_trace_block in Hstep |- *.
    inv_bind Hstep as len Hlen. inv_bind Hstep as t0 Ht0.
    rewrite Hlen. cbn [bind]. rewrite Ht0. cbn [bind].
    destruct (Qle_bool window_start (div_float t0 1000000)
              && Qlt_bool (div_float t0 1000000) window_end)%bool.
    + inv_bind Hstep as acc2 Hacc2. inv_bind Hacc2 as tr Htr.
      apply Ok_inj in Hacc2, Hstep. inv_pair Hstep.
      rewrite (_make_trace_headonly _ _ _ _ _ Htr). cbn [bind].
      eexists. split; [reflexivity|]. cbn [fst snd].
      split; [reflexivity|]. rewrite map_app. reflexivity.
    + inv_bind Hstep as acc2 Hacc2.
      apply Ok_inj in Hacc2, Hstep. inv_pair Hstep. cbn [bind].
      eexists. split; [reflexivity|]. split; reflexivity.
  - cbn [fst snd] in Hfinal, Hts. rewrite Hloop'. cbn [bind].
    rewrite Hts, Hout. reflexivity.
Qed.

Lemma X4_headonly_same_metadata_witness :
  exists stream,
    _internal_read_rg16 three_blocks_file false 0%Q 2000%Q false false false
    = Ok stream /\
    _internal_read_rg16 three_blocks_file true 0%Q 2000%Q false false false
    = Ok {| traces := map strip_data (traces stream) |}.
Proof.
  eexists. split; [vm_compute; reflexivity|].
  apply X4_headonly_same_metadata. vm_compute. reflexivity.
Defined.

Lemma _make_stats_details (fi : source) (pos : Z)
  (standard_orientation : bool) (st : Stats) :
  _make_stats fi pos standard_orientation true = Ok st ->
  _make_stats fi pos standard_orientation false
  = Ok (drop_details_stats st).
Proof.
  intros H. unfold _make_stats in H.
  inv_bind H as b Hb. inv_bind H as sr Hsr.
  inv_bind H as comp Hcomp. inv_bind H as code Hcode.
  inv_bind H as band Hband. inv_bind H as n Hn. inv_bind H as t Ht.
  inv_bind H as net Hnet. inv_bind H as sta Hsta. inv_bind H as loc Hloc.
  inv_bind H as det Hdet. apply Ok_inj in H. subst st.
  unfold _make_stats. rewrite Hb. cbn [bind]. rewrite Hsr. cbn [bind].
  rewrite Hcomp. cbn [bind]. rewrite Hcode. cbn [bind].
  rewrite Hband. cbn [bind]. rewrite Hn. cbn [bind]. rewrite Ht.
  cbn [bind]. rewrite Hnet. cbn [bind]. rewrite Hsta. cbn [bind].
  rewrite Hloc. cbn [bind]. reflexivity.
Qed.

Lemma _make_trace_details (fi : source) (pos : Z)
  (headonly standard_orientation : bool) (tr : Trace) :
  _make_trace fi pos headonly standard_orientation true = Ok tr ->
  _make_trace fi pos headonly standard_orientation false
  = Ok (drop_details tr).
Proof.
  unfold _make_trace. intros H.
  inv_bind H as st Hst. inv_bind H as d Hd. apply Ok_inj in H. subst tr.
  rewrite (_make_stats_details _ _ _ _ Hst). cbn [bind].
  cbn [drop_details_stats channel]. rewrite Hd. reflexivity.
Qed.

(** X5: when a decode with [details] succeeds (without merging), the
    decode without [details] succeeds too and returns the same traces,
    samples and metadata, only without the entry [rg16]. *)
Theorem X5_details_only_add (fi : source) (headonly : bool)
  (window_start window_end : UTCDateTime) (contacts_north : bool)
  (stream : Stream) :
  _internal_read_rg16 fi headonly window_start window_end false
    contacts_north true = Ok stream ->
  _internal_read_rg16 fi headonly window_start window_end false
    contacts_north false
  = Ok {| traces := map drop_details (traces stream) |}.
Proof.
  intros H. apply _internal_read_rg16_Ok in H.
  destruct H as (a & b & c & n & final & ts & Hh & Hn & Hloop & Hout).
  apply Ok_inj in Hout. unfold _internal_read_rg16.
  rewrite Hh. cbn [bind]. rewrite Hn. cbn [bind].
  destruct (for_each_simulation
              (fun s t => fst t = fst s /\ snd t = map drop_details (snd s))
              (range 0 n)
              (read_trace_block fi headonly window_start window_end
                 contacts_north true)
              (read_trace_block fi headonly window_start window_end
                 contacts_north false))
    with (s := (32 * (2 + a + b + c), @nil Trace))
         (s' := (final, ts))
         (t := (32 * (2 + a + b + c), @nil Trace))
    as ([final' ts'] & Hloop' & Hfinal & Hts);
    [| split; reflexivity | exact Hloop |].
  - intros i [pos acc] [pos1 acc1] [pos' acc'] [Hp Ha] Hstep.
    cbn [fst snd] in Hp, Ha. subst pos' acc'.
    unfold read_trace_block in Hstep |- *.
    inv_bind Hstep as len Hlen. inv_bind Hstep as t0 Ht0.
    rewrite Hlen. cbn [bind]. rewrite Ht0. cbn [bind].
    destruct (Qle_bool window_start (div_float t0 1000000)
              && Qlt_bool (div_float t0 1000000) window_end)%bool.
    + inv_bind Hstep as acc2 Hacc2. inv_bind Hacc2 as tr Htr.
      apply Ok_inj in Hacc2, Hstep. inv_pair Hstep.
      rewrite (_make_trace_details _ _ _ _ _ Htr). cbn [bind].
      eexists. split; [reflexivity|]. cbn [fst snd].
      split; [reflexivity|]. rewrite map_app. reflexivity.
    + inv_bind Hstep as acc2 Hacc2.
      apply Ok_inj in Hacc2, Hstep. inv_pair Hstep. cbn [bind].
      eexists. split; [reflexivity|]. split; reflexivity.
  - cbn [fst snd] in Hfinal, Hts. rewrite Hloop'. cbn [bind].
    rewrite Hts, Hout. reflexivity.
Qed.

Lemma X5_details_only_add_witness :
  exists stream,
    _internal_read_rg16 three_blocks_file false 0%Q 2000%Q false false true
    = Ok stream /\
    _internal_read_rg16 three_blocks_file false 0%Q 2000%Q false false false
    = Ok {| traces := map drop_details (traces stream) |}.
Proof.
  eexists. split; [vm_compute; reflexivity|].
  apply X5_details_only_add. vm_compute. reflexivity.
Defined.

Lemma narrower_window (window_start window_end narrow_start narrow_end x : Q) :
  (window_start <= narrow_start)%Q -> (narrow_end <= window_end)%Q ->
  (Qle_bool narrow_start x && Qlt_bool x narrow_end)%bool = true ->
  (Qle_bool window_start x && Qlt_bool x window_end)%bool = true.
Proof.
  intros Hs He H. apply andb_true_iff in H. destruct H as [H1 H2].
  apply Qle_bool_iff in H1. apply Qlt_bool_iff in H2.
  apply andb_true_iff. split.
  - apply Qle_bool_iff. eapply Qle_trans; eassumption.
  - apply Qlt_bool_iff. eapply Qlt_le_trans; eassumption.
Qed.

(** X6: narrowing the time window never makes a decode fail, and the
    traces of the narrower window are those traces of the wider decode
    whose start time lies in the narrower window, in the same order. *)
Theorem X6_narrower_window_filters (fi : source) (headonly : bool)
  (window_start window_end narrow_start narrow_end : UTCDateTime)
  (contacts_north details : bool) (stream : Stream) :
  (window_start <= narrow_start)%Q -> (narrow_end <= window_end)%Q ->
  _internal_read_rg16 fi headonly window_start window_end false
    contacts_north details = Ok stream ->
  _internal_read_rg16 fi headonly narrow_start narrow_end false
    contacts_north details
  = Ok {| traces :=
            filter (starts_within narrow_start narrow_end)
              (traces stream) |}.
Proof.
  intros Hws Hwe H. apply _internal_read_rg16_Ok in H.
  destruct H as (a & b & c & n & final & ts & Hh & Hn & Hloop & Hout).
  apply Ok_inj in Hout. unfold _internal_read_rg16.
  rewrite Hh. cbn [bind]. rewrite Hn. cbn [bind].
  destruct (for_each_simulation
              (fun s t =>
                 fst t = fst s /\
                 snd t = filter (starts_within narrow_start narrow_end)
                           (snd s))
              (range 0 n)
              (read_trace_block fi headonly window_start window_end
                 contacts_north details)
              (read_trace_block fi headonly narrow_start narrow_end
                 contacts_north details))
    with (s := (32 * (2 + a + b + c), @nil Trace))
         (s' := (final, ts))
         (t := (32 * (2 + a + b + c), @nil Trace))
    as ([final' ts'] & Hloop' & Hfinal & Hts);
    [| split; reflexivity | exact Hloop |].
  - intros i [pos acc] [pos1 acc1] [pos' acc'] [Hp Ha] Hstep.
    cbn [fst snd] in Hp, Ha. subst pos' acc'.
    unfold read_trace_block in Hstep |- *.
    inv_bind Hstep as len Hlen. inv_bind Hstep as t0 Ht0.
    rewrite Hlen. cbn [bind]. rewrite Ht0. cbn [bind].
    destruct (Qle_bool window_start (div_float t0 1000000)
              && Qlt_bool (div_float t0 1000000) window_end)%bool eqn:Hwide.
    + inv_bind Hstep as acc2 Hacc2. inv_bind Hacc2 as tr Htr.
      apply Ok_inj in Hacc2, Hstep. inv_pair Hstep.
      assert (Hstart : starttime (stats tr) = div_float t0 1000000).
      { pose proof (_make_trace_stats _ _ _ _ _ _ Htr) as Hst.
        apply _make_stats_Ok in Hst.
        destruct Hst as (b0 & comp & code & band & n0 & t & _ & _ & _ & _
                         & _ & _ & _ & _ & _ & Ht & Hs & _).
        replace (pos + (20 + 64)) with (pos + 20 + 2 * 32) in Ht by lia.
        rewrite Ht0 in Ht. apply Ok_inj in Ht. subst t. exact Hs. }
      assert (Htest : starts_within narrow_start narrow_end tr
                      = (Qle_bool narrow_start (div_float t0 1000000)
                         && Qlt_bool (div_float t0 1000000) narrow_end)%bool).
      { unfold starts_within. rewrite Hstart. reflexivity. }
      cbn [fst snd]. rewrite filter_app. cbn [filter]. rewrite Htest.
      destruct (Qle_bool narrow_start (div_float t0 1000000)
                && Qlt_bool (div_float t0 1000000) narrow_end)%bool.
      * rewrite Htr. cbn [bind]. eexists. split; [reflexivity|].
        split; reflexivity.
      * cbn [bind]. eexists. split; [reflexivity|]. cbn [fst snd].
        split; [reflexivity|]. rewrite app_nil_r. reflexivity.
    + inv_bind Hstep as acc2 Hacc2.
      apply Ok_inj in Hacc2, Hstep. inv_pair Hstep.
      destruct (Qle_bool narrow_start (div_float t0 1000000)
                && Qlt_bool (div_float t0 1000000) narrow_end)%bool
        eqn:Hnarrow.
      * rewrite (narrower_window _ _ _ _ _ Hws Hwe Hnarrow) in Hwide.
        discriminate Hwide.
      * cbn [bind]. eexists. split; [reflexivity|]. split; reflexivity.
  - cbn [fst snd] in Hfinal, Hts. rewrite Hloop'. cbn [bind].
    rewrite Hts, Hout. reflexivity.
Qed.

(** The whole file against the window of scenario S4. *)
Lemma X6_narrower_window_filters_witness :
  exists stream,
    _internal_read_rg16 three_blocks_file false 0%Q 2000%Q false false false
    = Ok stream /\
    _internal_read_rg16 three_blocks_file false 1005%Q 1020%Q false false
      false
    = Ok {| traces :=
              filter (starts_within 1005%Q 1020%Q) (traces stream) |}.
Proof.
  eexists. split; [vm_compute; reflexivity|].
  apply (X6_narrower_window_filters three_blocks_file false 0%Q 2000%Q).
  - vm_compute. discriminate.
  - vm_compute. discriminate.
  - vm_compute. reflexivity.
Defined.

(** ** The sampling rate and the channel code *)

Lemma rate_accepted (b : Z) :
  0 < b ->
  (In (16000 / b) [250; 500; 1000; 2000] <->
   b = 8 \/ b = 16 \/ b = 32 \/ b = 64).
Proof.
  intros Hb. split.
  - intros Hin. pose proof (Z.div_mod 16000 b) as Hdm.
    pose proof (Z.mod_pos_bound 16000 b Hb) as Hmod.
    cbn [In] in Hin. destruct Hin as [H|[H|[H|[H|[]]]]];
      rewrite <- H in Hdm; lia.
  - intros [-> | [-> | [-> | ->]]]; vm_compute; auto 6.
Qed.

(** X7: the byte [b] at file offset 22 decides what [_make_stats] does on
    every block. When it returns, [b] is 8, 16, 32 or 64 (0.5, 1, 2 or 4 ms
    in sixteenths of a millisecond) and the sampling rate is the integer
    quotient [16000 / b]. With [b = 0] it raises [ZeroDivisionError]. With
    any other [b] it raises as well: the [KeyError] of the band code table,
    with the key [str (16000 / b)], once the component byte is read and
    mapped; before that, the [ValueError] of a component byte that cannot
    be read or, with [contacts_north], the [KeyError] of the orientation
    table. *)
Theorem X7_base_scan_interval (fi : source) (b : Z) :
  _read fi 22 (W 1) binary true = Ok b ->
  (forall pos standard_orientation details st,
     _make_stats fi pos standard_orientation details = Ok st ->
     sampling_rate st = 16000 / b /\
     (b = 8 \/ b = 16 \/ b = 32 \/ b = 64)) /\
  (b = 0 ->
   forall pos standard_orientation details,
     _make_stats fi pos standard_orientation details
     = Raise ZeroDivisionError) /\
  (b <> 0 -> ~ (b = 8 \/ b = 16 \/ b = 32 \/ b = 64) ->
   forall pos standard_orientation details,
     (forall component code,
        _read fi (pos + 40) (W 1) binary true = Ok component ->
        component_code standard_orientation component = Ok code ->
        _make_stats fi pos standard_orientation details
        = Raise (KeyError "band_map" (str (16000 / b)))) /\
     (_make_stats fi pos standard_orientation details = Raise ValueError \/
      (standard_orientation = true /\
       exists component,
         _make_stats fi pos standard_orientation details
         = Raise (KeyError "standard_component_map" (str component))) \/
      _make_stats fi pos standard_orientation details
      = Raise (KeyError "band_map" (str (16000 / b))))).
Proof.
  intros Hb. pose proof (_read_binary_bound _ _ _ _ _ Hb) as Hbound.
  change (256 ^ Z.of_nat 1) with 256 in Hbound.
  split; [|split].
  - intros pos so details st Hst. apply _make_stats_Ok in Hst.
    destruct Hst as (b' & comp & code & band & n & t & Hb' & Hb0 & Hrate
                     & _ & _ & Hband & _).
    rewrite Hb in Hb'. apply Ok_inj in Hb'. subst b'.
    assert (Hpos : 0 < b) by lia.
    rewrite (int_of_rate b) in Hrate by lia. split; [exact Hrate|].
    apply (rate_accepted b Hpos). rewrite <- Hrate.
    apply band_map_get_Ok in Hband. simpl.
    destruct Hband as [[-> _]|[[-> _]|[[-> _]|[-> _]]]]; auto.
  - intros -> pos so details. unfold _make_stats. rewrite Hb. reflexivity.
  - intros Hb0 Hout pos so details.
    assert (Hpos : 0 < b) by lia.
    assert (Hband : band_map_get band_map
                      (int_of (float_div (float_of_int 1000) (div_int b 16)))
                    = Raise (KeyError "band_map" (str (16000 / b)))).
    { rewrite (int_of_rate b) by lia. apply band_map_get_Raise.
      intros Hin. apply Hout. apply (rate_accepted b Hpos). exact Hin. }
    assert (Hstep : forall component code,
              _read fi (pos + 40) (W 1) binary true = Ok component ->
              component_code so component = Ok code ->
              _make_stats fi pos so details
              = Raise (KeyError "band_map" (str (16000 / b)))).
    { intros component code Hc Hcode. unfold _make_stats.
      rewrite Hb. cbn [bind].
      destruct (Z.eqb_spec b 0) as [|_]; [contradiction|]. cbn [bind].
      rewrite Hc. cbn [bind]. unfold component_code in Hcode.
      rewrite Hcode. cbn [bind]. rewrite Hband. reflexivity. }
    split; [exact Hstep|].
    destruct (_read fi (pos + 40) (W 1) binary true) as [component|e] eqn:Hc.
    + destruct (component_code so component) as [code|e] eqn:Hcode.
      * right. right. eapply Hstep; [reflexivity | exact Hcode].
      * right. left. unfold component_code in Hcode.
        destruct so; [|discriminate Hcode]. split; [reflexivity|].
        exists component. unfold _make_stats. rewrite Hb. cbn [bind].
        destruct (Z.eqb_spec b 0) as [|_]; [contradiction|]. cbn [bind].
        rewrite Hc. cbn [bind]. unfold dict_get in Hcode |- *.
        destruct (dict_find standard_component_map (str component));
          [discriminate Hcode | reflexivity].
    + left. pose proof (_read_Raise _ _ _ _ _ _ Hc) as ->.
      unfold _make_stats. rewrite Hb. cbn [bind].
      destruct (Z.eqb_spec b 0) as [|_]; [contradiction|]. cbn [bind].
      rewrite Hc. reflexivity.
Qed.

(** On the file with three blocks (byte 22 is 64), on the same file with 7
    as byte 22, and with 0. *)
Lemma X7_base_scan_interval_witness :
  (forall pos standard_orientation details st,
     _make_stats three_blocks_file pos standard_orientation details = Ok st ->
     sampling_rate st = 250) /\
  _make_stats rate_2285_file 192 false false
  = Raise (KeyError "band_map" "2285") /\
  _make_stats (poke 22 [0] three_blocks_file) 192 false false
  = Raise ZeroDivisionError.
Proof.
  split; [|split].
  - intros pos so details st Hst.
    destruct (X7_base_scan_interval three_blocks_file 64) as [H _];
      [vm_compute; reflexivity|].
    destruct (H pos so details st Hst) as [-> _]. reflexivity.
  - destruct (X7_base_scan_interval rate_2285_file 7) as (_ & _ & H);
      [vm_compute; reflexivity|].
    destruct (H ltac:(discriminate) ltac:(lia) 192 false false) as [Hstep _].
    apply (Hstep 2 "2"); vm_compute; reflexivity.
  - destruct (X7_base_scan_interval (poke 22 [0] three_blocks_file) 0)
      as (_ & H & _); [vm_compute; reflexivity|].
    apply H. reflexivity.
Defined.

(** X8: with [contacts_north], a trace block whose component byte (block
    offset 40) is not 2, 3 or 4 cannot be decoded: once the base scan
    interval and the component are read, [_make_stats] raises the
    [KeyError] of the lookup of the component in the orientation table. *)
Theorem X8_unknown_component (fi : source) (pos b component : Z)
  (details : bool) :
  _read fi 22 (W 1) binary true = Ok b -> b <> 0 ->
  _read fi (pos + 40) (W 1) binary true = Ok component ->
  component <> 2 -> component <> 3 -> component <> 4 ->
  _make_stats fi pos true details
  = Raise (KeyError "standard_component_map" (str component)).
Proof.
  intros Hb Hb0 Hc H2 H3 H4. unfold _make_stats.
  rewrite Hb. cbn [bind].
  destruct (Z.eqb_spec b 0) as [|_]; [contradiction|]. cbn [bind].
  rewrite Hc. cbn [bind].
  unfold dict_get, standard_component_map. cbn [dict_find].
  destruct (String.eqb_spec (str component) "2") as [E|_].
  { exfalso. apply H2. apply str_inj. exact E. }
  destruct (String.eqb_spec (str component) "3") as [E|_].
  { exfalso. apply H3. apply str_inj. exact E. }
  destruct (String.eqb_spec (str component) "4") as [E|_].
  { exfalso. apply H4. apply str_inj. exact E. }
  reflexivity.
Qed.

(** A block of component 1 (the file of three blocks with the component
    bytes changed). *)
Lemma X8_unknown_component_witness :
  let fi := example_headers 262 1 1 ++ example_block 3 1 1000000000 [0; 0] in
  _make_stats fi 192 true false
  = Raise (KeyError "standard_component_map" (str 1)).
Proof.
  apply (X8_unknown_component _ 192 64 1 false);
    try (vm_compute; reflexivity); discriminate.
Defined.

(** ** The record arrays and the group numbers of the merger *)

Lemma cumsum_from_steps (acc : Z) (l : list Z) :
  Forall (fun x => x = 0 \/ x = 1) l ->
  steps_0_or_1 acc (cumsum_from acc l).
Proof.
  revert acc. induction l as [|x l IH]; intros acc Hl; [exact I|].
  inversion Hl as [|x' l' Hx Hl']; subst. cbn [cumsum_from steps_0_or_1].
  split; [lia | apply IH, Hl'].
Qed.

Lemma steps_sorted (prev : Z) (l : list Z) :
  steps_0_or_1 prev l ->
  Sorted Z.le l /\ HdRel Z.le prev l /\
  Forall (fun x => prev <= x <= prev + Z.of_nat (List.length l)) l.
Proof.
  revert prev. induction l as [|x l IH]; intros prev H.
  - repeat constructor.
  - cbn [steps_0_or_1] in H. destruct H as [Hx H].
    destruct (IH x H) as (Hsorted & Hhd & Hall).
    split; [constructor; assumption|]. split; [constructor; lia|].
    cbn [List.length]. constructor; [lia|].
    eapply Forall_impl; [|exact Hall]. intros y Hy. cbv beta in Hy. lia.
Qed.

(** X14: the group numbers that [_get_trace_groups] gives to the sorted
    rows are as many as the rows, start at 0 or 1, and go up by 0 or 1 from
    one row to the next: they never decrease, so that every group is a run
    of adjacent rows, and they never exceed the number of rows. *)
Theorem X14_group_numbers (ar : list row) (diff : Q) :
  List.length (_get_trace_groups ar diff) = List.length ar /\
  steps_0_or_1 0 (_get_trace_groups ar diff) /\
  Sorted Z.le (_get_trace_groups ar diff) /\
  Forall (fun g => 0 <= g <= Z.of_nat (List.length ar))
    (_get_trace_groups ar diff).
Proof.
  assert (Hsteps : steps_0_or_1 0 (_get_trace_groups ar diff)).
  { unfold _get_trace_groups, cumsum. apply cumsum_from_steps.
    apply Forall_forall. intros x Hx. apply in_map_iff in Hx.
    destruct Hx as (p & <- & _). destruct (fst p && snd p)%bool; auto. }
  split; [apply _get_trace_groups_length|]. split; [exact Hsteps|].
  destruct (steps_sorted 0 _ Hsteps) as (Hsorted & _ & Hall).
  split; [exact Hsorted|].
  rewrite _get_trace_groups_length in Hall. exact Hall.
Qed.

Lemma compare_then_opp (c c' : comparison) :
  compare_then (CompOpp c) (CompOpp c') = CompOpp (compare_then c c').
Proof. destruct c; reflexivity. Qed.

Lemma row_compare_antisym (a b : row) :
  row_compare b a = CompOpp (row_compare a b).
Proof.
  unfold row_compare. rewrite <- !compare_then_opp.
  rewrite (String.compare_antisym (row_id a) (row_id b)).
  rewrite CompOpp_involutive.
  rewrite <- (Qcompare_antisym (row_starttime b) (row_starttime a)).
  rewrite <- (Qcompare_antisym (row_endtime b) (row_endtime a)).
  rewrite !CompOpp_involutive. reflexivity.
Qed.

Lemma row_leb_total (a b : row) : row_leb a b = false -> row_leb b a = true.
Proof.
  unfold row_leb. rewrite (row_compare_antisym a b).
  destruct (row_compare a b); simpl; congruence.
Qed.

Section SortedFacts.
Context {A : Type} (leb : A -> A -> bool).
Hypothesis leb_total : forall a b, leb a b = false -> leb b a = true.

Lemma insert_sorted_sorted (x : A) (l : list A) :
  Sorted (fun a b => leb a b = true) l ->
  Sorted (fun a b => leb a b = true) (insert_sorted leb x l).
Proof.
  induction l as [|y l IH]; intros Hl; cbn [insert_sorted].
  - repeat constructor.
  - destruct (leb x y) eqn:E.
    + constructor; [exact Hl | constructor; exact E].
    + inversion Hl as [|y' l' Hl' Hhd]; subst.
      constructor; [apply IH, Hl'|].
      destruct l as [|z l]; cbn [insert_sorted].
      * constructor. apply leb_total, E.
      * destruct (leb x z); constructor.
        -- apply leb_total, E.
        -- inversion Hhd; assumption.
Qed.

Lemma insertion_sort_sorted (l : list A) :
  Sorted (fun a b => leb a b = true) (insertion_sort leb l).
Proof.
  induction l as [|x l IH]; cbn [insertion_sort fold_right].
  - constructor.
  - apply insert_sorted_sorted. exact IH.
Qed.

End SortedFacts.

Lemma take_map {A B : Type} (f : A -> B) (a : list A) (index : list nat) :
  take (map f a) index = map f (take a index).
Proof.
  unfold take. induction index as [|i index IH]; [reflexivity|].
  cbn [flat_map]. rewrite map_app, IH, nth_error_map.
  destruct (nth_error a i); reflexivity.
Qed.

Lemma take_nth {A : Type} (d : A) (a : list A) (index : list nat) :
  Forall (fun i => (i < List.length a)%nat) index ->
  take a index = map (fun i => nth i a d) index.
Proof.
  unfold take. induction 1 as [|i index Hi Hindex IH]; [reflexivity|].
  cbn [flat_map map]. rewrite IH.
  destruct (nth_error a i) as [x|] eqn:E.
  - rewrite (nth_error_nth _ _ d E). reflexivity.
  - apply nth_error_None in E. lia.
Qed.

Lemma Sorted_map {A B : Type} (f : A -> B) (R : B -> B -> Prop)
  (l : list A) :
  Sorted (fun a b => R (f a) (f b)) l -> Sorted R (map f l).
Proof.
  induction 1 as [|x l Hl IH Hhd]; cbn [map]; constructor.
  - exact IH.
  - destruct Hhd; cbn [map]; constructor. assumption.
Qed.

(** X13: [_trace_list_to_rec_array] returns the rows [(id, starttime,
    endtime)] and the pairs [(data, stats)] of the same rearrangement of the
    traces: the two arrays stay aligned row by row, no trace is lost or
    duplicated, and the rows are in ascending order of id, start time and
    end time. *)
Theorem X13_rec_arrays_aligned (traces : list Trace) :
  exists sorted,
    Permutation sorted traces /\
    fst (_trace_list_to_rec_array traces) = map row_of sorted /\
    snd (_trace_list_to_rec_array traces)
    = map (fun tr => (data tr, stats tr)) sorted /\
    Sorted (fun a b => row_leb a b = true)
      (fst (_trace_list_to_rec_array traces)).
Proof.
  unfold _trace_list_to_rec_array. cbn [fst snd].
  change (map (fun tr => {| row_id := id tr;
                            row_starttime := starttime (stats tr);
                            row_endtime := endtime (stats tr) |}) traces)
    with (map row_of traces).
  set (data1 := map row_of traces).
  exists (take traces (argsort data1)).
  assert (Hperm : Permutation (take traces (argsort data1)) traces).
  { apply take_argsort_perm. unfold data1. apply length_map. }
  split; [exact Hperm|].
  split; [unfold data1 at 1; apply take_map|].
  split; [apply take_map|].
  set (d := {| row_id := ""; row_starttime := 0%Q; row_endtime := 0%Q |}).
  rewrite (take_nth d).
  - apply Sorted_map. unfold argsort.
    apply (insertion_sort_sorted
             (fun i j => row_leb (nth i data1 d) (nth j data1 d))).
    intros i j. apply row_leb_total.
  - apply Forall_forall. intros i Hi.
    assert (Hseq : In i (seq 0 (List.length data1))).
    { eapply Permutation_in; [|exact Hi]. unfold argsort.
      apply insertion_sort_perm. }
    apply in_seq in Hseq. lia.
Qed.

(** ** When the merger succeeds *)

Lemma nodup_length_1 {A : Type} (dec : forall x y : A, {x = y} + {x <> y})
  (l : list A) :
  List.length (nodup dec l) = 1%nat ->
  l <> [] /\ forall x y, In x l -> In y l -> x = y.
Proof.
  intros H. destruct (nodup dec l) as [|a [|b r]] eqn:E; try discriminate H.
  split.
  - intros ->. discriminate E.
  - intros x y Hx Hy. apply (nodup_In dec) in Hx, Hy. rewrite E in Hx, Hy.
    destruct Hx as [<-|[]], Hy as [<-|[]]. reflexivity.
Qed.

Lemma _quick_merge_asserts (traces : list Trace) (small_number : Q) :
  (forall e, _quick_merge traces small_number <> Raise e \/
             e = AssertionError \/ e = ZeroDivisionError) /\
  (_quick_merge traces small_number <> Raise AssertionError ->
   List.length
     (nodup Z.eq_dec (map (fun tr => sampling_rate (stats tr)) traces))
   = 1%nat /\
   List.length
     (nodup dtype_eq_dec (map (fun tr => nd_dtype (data tr)) traces))
   = 1%nat).
Proof.
  unfold _quick_merge.
  destruct (Nat.eqb_spec
              (List.length
                 (nodup Z.eq_dec
                    (map (fun tr => sampling_rate (stats tr)) traces))) 1)
    as [E1|E1]; cbn [negb].
  2:{ split; [intros e | intros H; contradiction H; reflexivity].
      destruct e; auto; left; discriminate. }
  destruct (Nat.eqb_spec
              (List.length
                 (nodup dtype_eq_dec
                    (map (fun tr => nd_dtype (data tr)) traces))) 1)
    as [E2|E2]; cbn [negb].
  2:{ split; [intros e | intros H; contradiction H; reflexivity].
      destruct e; auto; left; discriminate. }
  split; [|auto].
  intros e. destruct (nodup_length_1 _ _ E1) as [Hne Hsr].
  destruct (nodup_length_1 _ _ E2) as [_ Hdt].
  destruct traces as [|tr0 rest]; [contradiction Hne; reflexivity|].
  cbn [bind].
  destruct (Z.eqb_spec (sampling_rate (stats tr0)) 0) as [E0|E0]; cbn [bind].
  { destruct e; auto; left; discriminate. }
  left.
  destruct (_quick_merge_samples (tr0 :: rest) small_number)
    as (out & arrays & Hout & _).
  - discriminate.
  - intros tr tr' Hin Hin'. apply Hsr; apply in_map_iff; eauto.
  - intros tr Hin.
    rewrite (Hsr (sampling_rate (stats tr)) (sampling_rate (stats tr0))).
    + exact E0.
    + apply in_map_iff; eauto.
    + left. reflexivity.
  - intros tr tr' Hin Hin'. apply Hdt; apply in_map_iff; eauto.
  - rewrite _quick_merge_unfold in Hout.
    + cbv zeta in Hout.
      destruct (_trace_list_to_rec_array (tr0 :: rest)) as [ar trace_ar].
      cbn [fst snd] in Hout. rewrite Hout. discriminate.
    + intros tr Hin. apply Hsr; apply in_map_iff; eauto.
      exists tr0. split; [reflexivity | left; reflexivity].
    + exact E0.
    + intros tr Hin. apply Hdt; apply in_map_iff; eauto.
      exists tr0. split; [reflexivity | left; reflexivity].
Qed.

(** X18: [_quick_merge] returns a list of traces exactly when the list it
    is given is not empty, its traces have one sampling rate, that rate is
    not zero, and their arrays have one dtype; in every other case it raises
    [AssertionError] or [ZeroDivisionError], and nothing else. *)
Theorem X18_merger_preconditions (traces : list Trace) (small_number : Q) :
  ((exists out, _quick_merge traces small_number = Ok out) <->
   (traces <> [] /\
    (forall tr tr', In tr traces -> In tr' traces ->
       sampling_rate (stats tr) = sampling_rate (stats tr')) /\
    (forall tr, In tr traces -> sampling_rate (stats tr) <> 0) /\
    (forall tr tr', In tr traces -> In tr' traces ->
       nd_dtype (data tr) = nd_dtype (data tr')))) /\
  (forall e, _quick_merge traces small_number = Raise e ->
     e = AssertionError \/ e = ZeroDivisionError).
Proof.
  split.
  - split.
    + intros [out Hout].
      destruct (_quick_merge_asserts traces small_number) as [_ Hlen].
      destruct Hlen as [E1 E2]; [rewrite Hout; discriminate|].
      destruct (nodup_length_1 _ _ E1) as [Hne Hsr].
      destruct (nodup_length_1 _ _ E2) as [_ Hdt].
      apply _quick_merge_Ok in Hout.
      destruct Hout as (tr0 & rest & diff & Htraces & Hsr0 & _).
      split; [intros ->; discriminate Htraces|].
      split; [intros tr tr' Hin Hin'; apply Hsr; apply in_map_iff; eauto|].
      split; [|intros tr tr' Hin Hin'; apply Hdt; apply in_map_iff; eauto].
      intros tr Hin.
      rewrite (Hsr (sampling_rate (stats tr)) (sampling_rate (stats tr0))).
      * exact Hsr0.
      * apply in_map_iff; eauto.
      * apply in_map_iff. exists tr0. split; [reflexivity|].
        rewrite Htraces. left. reflexivity.
    + intros (Hne & Hsr & Hsr0 & Hdt).
      destruct (_quick_merge_samples traces small_number Hne Hsr Hsr0 Hdt)
        as (out & _ & Hout & _).
      exists out. exact Hout.
  - intros e He.
    destruct (_quick_merge_asserts traces small_number) as [Hexn _].
    destruct (Hexn e) as [Hno|Hkind]; [contradiction | exact Hkind].
Qed.

(** ** How many traces are returned, and what the merged traces carry *)

Lemma window_filtered_length (fi : source) (headonly : bool)
  (starttime endtime : UTCDateTime) (contacts_north details : bool)
  (starts : list Z) (ts : list Trace) :
  window_filtered fi headonly starttime endtime contacts_north details
    starts ts ->
  (List.length ts <= List.length starts)%nat.
Proof. induction 1; cbn [List.length]; lia. Qed.

Lemma merge_groups_length (group : list Z)
  (trace_ar : list (ndarray * Stats)) (gs : list Z) :
  forall acc out,
    for_each gs (merge_group group trace_ar) acc = Ok out ->
    List.length out = (List.length acc + List.length gs)%nat.
Proof.
  induction gs as [|k gs IH]; intros acc out H; cbn [for_each] in H.
  - apply Ok_inj in H. subst out. cbn [List.length]. lia.
  - inv_bind H as acc' Hstep. apply IH in H. rewrite H.
    unfold merge_group in Hstep.
    inv_bind Hstep as new_data Hdata. inv_bind Hstep as st0 Hst0.
    apply Ok_inj in Hstep. subst acc'.
    rewrite length_app. cbn [List.length]. lia.
Qed.

Lemma unique_length (l : list Z) :
  (List.length (unique l) <= List.length l)%nat /\
  (l <> [] -> unique l <> []).
Proof.
  split.
  - apply NoDup_incl_length; [apply unique_NoDup|].
    intros k Hk. apply unique_In, Hk.
  - intros Hne Hnil. destruct l as [|k l]; [contradiction Hne; reflexivity|].
    assert (Hin : In k (unique (k :: l))) by (apply unique_In; left; reflexivity).
    rewrite Hnil in Hin. destruct Hin.
Qed.

Lemma _quick_merge_length (traces : list Trace) (small_number : Q)
  (out : list Trace) :
  _quick_merge traces small_number = Ok out ->
  (1 <= List.length out <= List.length traces)%nat.
Proof.
  intros H. apply _quick_merge_Ok in H.
  destruct H as (tr0 & rest & diff & Htraces & _ & _ & H). cbv zeta in H.
  apply merge_groups_length in H. cbn [List.length] in H.
  destruct (unique_length
              (_get_trace_groups (fst (_trace_list_to_rec_array traces)) diff))
    as [Hle Hne].
  rewrite _get_trace_groups_length in Hle.
  assert (Hlen : List.length (fst (_trace_list_to_rec_array traces))
                 = List.length traces).
  { unfold _trace_list_to_rec_array. cbn [fst].
    rewrite (Permutation_length (take_argsort_perm _ _ eq_refl)).
    apply length_map. }
  rewrite Hlen in Hle. rewrite H. split; [|exact Hle].
  destruct (unique _) as [|k gs] eqn:E; [|cbn [List.length]; lia].
  exfalso. apply Hne; [|reflexivity].
  intros Hnil.
  assert (Hz : List.length
                 (_get_trace_groups (fst (_trace_list_to_rec_array traces))
                    diff) = 0%nat) by (rewrite Hnil; reflexivity).
  rewrite _get_trace_groups_length, Hlen, Htraces in Hz.
  discriminate Hz.
Qed.

(** X16: a successful decode returns at most [nbr_records] traces, whatever
    the window and the flags; with [merge] it returns at least one trace and
    at most as many as without. *)
Theorem X16_trace_count (fi : source) (headonly : bool)
  (starttime endtime : UTCDateTime) (merge contacts_north details : bool)
  (stream : Stream) (nbr_records : Z) :
  _internal_read_rg16 fi headonly starttime endtime merge contacts_north
    details = Ok stream ->
  _cmp_nbr_records fi = Ok nbr_records ->
  (List.length (traces stream) <= Z.to_nat nbr_records)%nat /\
  (merge = true ->
   (1 <= List.length (traces stream))%nat /\
   exists unmerged,
     _internal_read_rg16 fi headonly starttime endtime false contacts_north
       details = Ok unmerged /\
     (List.length (traces stream) <= List.length (traces unmerged))%nat).
Proof.
  intros H Hn. apply _internal_read_rg16_Ok in H.
  destruct H as (a & b & c & n & final & ts & Hh & Hn' & Hloop & Hout).
  rewrite Hn in Hn'. apply Ok_inj in Hn'. subst n.
  assert (Hunmerged :
            _internal_read_rg16 fi headonly starttime endtime false
              contacts_north details = Ok {| traces := ts |}).
  { unfold _internal_read_rg16. rewrite Hh, Hn. cbn [bind].
    rewrite Hloop. reflexivity. }
  apply walk_spec in Hloop.
  destruct Hloop as (starts & kept & Hlen & _ & Hwf & Hts).
  cbn [app] in Hts. subst kept.
  rewrite range_length, Z.sub_0_r in Hlen.
  apply window_filtered_length in Hwf.
  destruct merge.
  - apply _quick_merge_length in Hout. split; [lia|].
    intros _. split; [lia|].
    exists {| traces := ts |}. split; [exact Hunmerged | cbn [traces]; lia].
  - apply Ok_inj in Hout. rewrite <- Hout. split; [lia | discriminate].
Qed.

Lemma X16_trace_count_witness :
  exists stream,
    _internal_read_rg16 three_blocks_file false 0%Q 2000%Q true false false
    = Ok stream /\
    (List.length (traces stream) <= Z.to_nat 3)%nat /\
    (true = true ->
     (1 <= List.length (traces stream))%nat /\
     exists unmerged,
       _internal_read_rg16 three_blocks_file false 0%Q 2000%Q false false
         false = Ok unmerged /\
       (List.length (traces stream) <= List.length (traces unmerged))%nat).
Proof.
  eexists. split; [vm_compute; reflexivity|].
  apply (X16_trace_count three_blocks_file false 0%Q 2000%Q true false false).
  - vm_compute. reflexivity.
  - vm_compute. reflexivity.
Defined.



(** ** What reading the trace headers can raise *)

Lemma bind_Raise_inv {A B : Type} (m : result A) (k : A -> result B)
  (e : exn) :
  bind m k = Raise e -> m = Raise e \/ exists a, m = Ok a /\ k a = Raise e.
Proof.
  destruct m as [a|e']; cbn [bind]; intros H;
    [right; eauto | left; f_equal; congruence].
Qed.

Lemma dict_get_Raise {V : Type} (name : string) (d : dict V) (k : string)
  (e : exn) :
  dict_get name d k = Raise e -> e = KeyError name k.
Proof.
  unfold dict_get. destruct (dict_find d k); intros H; congruence.
Qed.

Lemma _read_IEEE_Raise (fi : source) (position : Z) (e : exn) :
  _read_IEEE fi position = Raise e -> e = ValueError.
Proof.
  unfold _read_IEEE, read_bytes.
  destruct (Nat.eqb _ _); cbn [bind]; intros H; [discriminate H|].
  congruence.
Qed.

Lemma for_each_app {S : Type} (l1 l2 : list Z) (body : Z -> S -> result S)
  (s : S) :
  for_each (l1 ++ l2) body s
  = bind (for_each l1 body s) (for_each l2 body).
Proof.
  revert s. induction l1 as [|i l1 IH]; intros s; [reflexivity|].
  cbn [app for_each]. destruct (body i s) as [s'|e]; cbn [bind];
    [apply IH | reflexivity].
Qed.

Lemma for_each_Raise {S : Type} (l : list Z) (body : Z -> S -> result S)
  (s : S) (e : exn) :
  for_each l body s = Raise e ->
  exists i s', In i l /\ body i s' = Raise e.
Proof.
  revert s. induction l as [|i l IH]; intros s H; [discriminate H|].
  cbn [for_each] in H. apply bind_Raise_inv in H.
  destruct H as [H | (s' & _ & H)].
  - exists i, s. split; [left; reflexivity | exact H].
  - destruct (IH _ H) as (j & s'' & Hj & Hbody).
    exists j, s''. split; [right; exact Hj | exact Hbody].
Qed.

Lemma range_bounds (a b x : Z) : 0 <= a -> In x (range a b) -> a <= x < b.
Proof.
  intros Ha Hx. unfold range in Hx. apply in_map_iff in Hx.
  destruct Hx as (k & <- & Hk). apply in_seq in Hk. lia.
Qed.

Lemma range_split (a m b : Z) :
  0 <= a -> a <= m <= b -> range a b = range a m ++ range m b.
Proof.
  intros Ha Hm. unfold range.
  replace (Z.to_nat (b - a))
    with (Z.to_nat (m - a) + Z.to_nat (b - m))%nat by lia.
  rewrite seq_app, map_app.
  replace (Z.to_nat a + Z.to_nat (m - a))%nat with (Z.to_nat m) by lia.
  reflexivity.
Qed.

Lemma range_cons (a b : Z) :
  0 <= a < b -> range a b = a :: range (a + 1) b.
Proof.
  intros Hab. unfold range.
  replace (Z.to_nat (b - a)) with (S (Z.to_nat (b - (a + 1)))) by lia.
  cbn [seq map].
  replace (S (Z.to_nat a)) with (Z.to_nat (a + 1)) by lia.
  f_equal. lia.
Qed.

Lemma dict_func_get (i : Z) :
  1 <= i <= 10 ->
  exists f,
    dict_get "dict_func" dict_func (str i) = Ok f /\
    In f [_read_trace_header_1; _read_trace_header_2; _read_trace_header_3;
          _read_trace_header_4; _read_trace_header_5; _read_trace_header_6;
          _read_trace_header_7; _read_trace_header_8; _read_trace_header_9;
          _read_trace_header_10].
Proof.
  intros Hi.
  assert (H : i = 1 \/ i = 2 \/ i = 3 \/ i = 4 \/ i = 5 \/ i = 6 \/ i = 7 \/
              i = 8 \/ i = 9 \/ i = 10) by lia.
  repeat (destruct H as [->|H]);
    [..|subst i]; eexists; (split; [reflexivity | cbn [In]; auto 12]).
Qed.

Ltac raise_cases H :=
  lazymatch type of H with
  | bind _ _ = Raise _ =>
      apply bind_Raise_inv in H;
      let a := fresh "a" in
      destruct H as [H | (a & _ & H)];
      [first [ apply _read_Raise in H
             | apply _read_IEEE_Raise in H
             | apply dict_get_Raise in H ]
      | raise_cases H]
  | Ok _ = Raise _ => discriminate H
  end.

Lemma trace_header_Raise (f : source -> Z -> result (dict value))
  (fi : source) (pos : Z) (e : exn) :
  In f [_read_trace_header_1; _read_trace_header_2; _read_trace_header_3;
        _read_trace_header_4; _read_trace_header_5; _read_trace_header_6;
        _read_trace_header_7; _read_trace_header_8; _read_trace_header_9;
        _read_trace_header_10] ->
  f fi pos = Raise e ->
  e = ValueError \/
  exists name k,
    e = KeyError name k /\
    In name ["leg_source_info"; "leg_energy_source"; "leg_trace_clipped";
             "leg_record_type"; "leg_shot_flag"; "leg_source_receiver_info";
             "leg_preamp_path"; "leg_test_oscillator"; "leg_signal_type"].
Proof.
  intros Hf H. cbn [In] in Hf.
  repeat (destruct Hf as [<-|Hf]); [..|destruct Hf];
    match type of H with
    | ?h _ _ = _ => unfold h in H
    end;
    cbv zeta in H; raise_cases H;
    solve [ left; exact H
          | right; eexists; eexists; split; [exact H | cbn [In]; auto 12] ].
Qed.

(** X15: what [_read_trace_headers] can raise. It is the [ValueError] of a
    short read, the [KeyError] of one of the nine legends of the extension
    blocks 2, 4, 5, 8 and 9, or the [KeyError] on [dict_func], which has the
    key ["11"] and is raised only when more than ten extension blocks are
    asked for. *)
Theorem X15_trace_header_errors (fi : source) (trace_block_start : Z)
  (nbr_trace_header : Z) (e : exn) :
  _read_trace_headers fi trace_block_start nbr_trace_header = Raise e ->
  e = ValueError \/
  (exists name k,
     e = KeyError name k /\
     In name ["leg_source_info"; "leg_energy_source"; "leg_trace_clipped";
              "leg_record_type"; "leg_shot_flag"; "leg_source_receiver_info";
              "leg_preamp_path"; "leg_test_oscillator"; "leg_signal_type"]) \/
  (e = KeyError "dict_func" "11" /\ 10 < nbr_trace_header).
Proof.
  unfold _read_trace_headers. intros H.
  assert (Hfirst :
            forall hi s,
              hi <= 11 ->
              for_each (range 1 hi)
                (fun i trace_headers =>
                   f <- dict_get "dict_func" dict_func (str i) ;;
                   h <- f fi trace_block_start ;;
                   Ok (dict_update trace_headers h)) s = Raise e ->
              e = ValueError \/
              exists name k,
                e = KeyError name k /\
                In name ["leg_source_info"; "leg_energy_source";
                         "leg_trace_clipped"; "leg_record_type";
                         "leg_shot_flag"; "leg_source_receiver_info";
                         "leg_preamp_path"; "leg_test_oscillator";
                         "leg_signal_type"]).
  { intros hi s Hhi Hloop. apply for_each_Raise in Hloop.
    destruct Hloop as (i & s' & Hi & Hbody).
    apply range_bounds in Hi; [|lia].
    destruct (dict_func_get i) as (f & Hget & Hf); [lia|].
    rewrite Hget in Hbody. cbn [bind] in Hbody.
    apply bind_Raise_inv in Hbody.
    destruct Hbody as [Hbody | (h & _ & Hbody)]; [|discriminate Hbody].
    eapply trace_header_Raise; eassumption. }
  destruct (Z_le_gt_dec (nbr_trace_header + 1) 11) as [Hle|Hgt].
  - destruct (Hfirst _ _ Hle H) as [Hv|Hk]; auto.
  - rewrite (range_split 1 11 (nbr_trace_header + 1)) in H by lia.
    rewrite for_each_app in H. apply bind_Raise_inv in H.
    destruct H as [H | (s & _ & H)].
    + destruct (Hfirst 11 _ (Z.le_refl 11) H) as [Hv|Hk]; auto.
    + rewrite range_cons in H by lia. cbn [for_each] in H.
      change (dict_get "dict_func" dict_func (str 11))
        with (@Raise (source -> Z -> result (dict value))
                (KeyError "dict_func" "11")) in H.
      cbn [bind] in H. right. right. split; [congruence | lia].
Qed.

Lemma X15_trace_header_errors_witness :
  KeyError "dict_func" "11" = ValueError \/
  (exists name k,
     KeyError "dict_func" "11" = KeyError name k /\
     In name ["leg_source_info"; "leg_energy_source"; "leg_trace_clipped";
              "leg_record_type"; "leg_shot_flag"; "leg_source_receiver_info";
              "leg_preamp_path"; "leg_test_oscillator"; "leg_signal_type"]) \/
  (KeyError "dict_func" "11" = KeyError "dict_func" "11" /\ 10 < 11).
Proof.
  apply (X15_trace_header_errors eleven_extensions_file 192 11).
  vm_compute. reflexivity.
Defined.

(** ** The initial headers and the geometry of the file *)

Ltac inv_binds H :=
  repeat (let a := fresh "v" in
          let Ha := fresh "Hv" in
          apply bind_Ok in H; destruct H as (a & Ha & H)).

Ltac rewrite_reads :=
  repeat match goal with
         | H : _read ?f ?p ?w ?d ?l = Ok _
           |- context [_read ?f ?p ?w ?d ?l] => rewrite H; cbn [bind]
         end.

Lemma dict_set_fresh {V : Type} (d : dict V) (k : string) (v : V) :
  (forall kv, In kv d -> fst kv <> k) -> dict_set d k v = d ++ [(k, v)].
Proof.
  induction d as [|[k' v'] d IH]; intros Hfresh; [reflexivity|].
  cbn [dict_set app]. destruct (String.eqb_spec k k') as [E|_].
  - exfalso. apply (Hfresh (k', v')); [left; reflexivity | symmetry; exact E].
  - rewrite IH; [reflexivity|]. intros kv Hin. apply Hfresh. right. exact Hin.
Qed.

Lemma Forall2_In_right {A B : Type} (P : A -> B -> Prop) (l : list A)
  (l' : list B) (y : B) :
  Forall2 P l l' -> In y l' -> exists x, In x l /\ P x y.
Proof.
  induction 1 as [|x y' l l' Hxy _ IH]; intros Hin; [destruct Hin|].
  destruct Hin as [->|Hin].
  - exists x. split; [left; reflexivity | exact Hxy].
  - destruct (IH Hin) as (x' & Hx' & Hp). exists x'.
    split; [right; exact Hx' | exact Hp].
Qed.

Lemma range_snoc (a : Z) : 0 <= a -> range 0 (a + 1) = range 0 a ++ [a].
Proof.
  intros Ha. rewrite (range_split 0 a (a + 1)) by lia.
  rewrite (range_cons a (a + 1)) by lia. f_equal. f_equal.
  unfold range. rewrite Z.sub_diag. reflexivity.
Qed.

Lemma range_nil (a : Z) : range a a = [].
Proof. unfold range. rewrite Z.sub_diag. reflexivity. Qed.

Lemma channel_sets_loop (fi : source) (k : nat) :
  forall a b acc cs final,
    0 <= a <= b -> Z.to_nat (b - a) = k ->
    Forall2 (fun i kv =>
               fst kv = str (i + 1) /\
               _read_channel_set fi (64 + 32 * i) = Ok (snd kv))
      (range 0 a) acc ->
    for_each (range a b)
      (fun i '(channel_sets, start_byte) =>
         cs <- _read_channel_set fi start_byte ;;
         Ok (dict_set channel_sets (str (i + 1)) cs, start_byte + 32))
      (acc, 64 + 32 * a) = Ok (cs, final) ->
    Forall2 (fun i kv =>
               fst kv = str (i + 1) /\
               _read_channel_set fi (64 + 32 * i) = Ok (snd kv))
      (range 0 b) cs.
Proof.
  induction k as [|k IH]; intros a b acc cs final Hab Hk Hacc H.
  - assert (b = a) by lia. subst b. rewrite range_nil in H.
    cbn [for_each] in H. apply Ok_inj in H.
    apply pair_equal_spec in H. destruct H as [<- _]. exact Hacc.
  - rewrite range_cons in H by lia. cbn [for_each] in H.
    inv_bind H as st Hst. inv_bind Hst as c Hc. apply Ok_inj in Hst.
    subst st.
    replace (64 + 32 * a + 32) with (64 + 32 * (a + 1)) in H by lia.
    apply (IH (a + 1) b (dict_set acc (str (a + 1)) c) cs final);
      [lia | lia | | exact H].
    rewrite dict_set_fresh.
    + rewrite range_snoc by lia. apply Forall2_app; [exact Hacc|].
      constructor; [|constructor]. split; [reflexivity | exact Hc].
    + intros kv Hin Hkey.
      destruct (Forall2_In_right _ _ _ _ Hacc Hin) as (i & Hi & Hfst & _).
      apply range_bounds in Hi; [|lia].
      rewrite Hfst in Hkey. apply str_inj in Hkey. lia.
Qed.

Lemma _read_channel_sets_Ok (fi : source) (cs : dict channel_set) :
  _read_channel_sets fi = Ok cs ->
  exists n,
    _read fi 28 (W 1) bcd true = Ok n /\ 0 <= n /\
    Forall2 (fun i kv =>
               fst kv = str (i + 1) /\
               _read_channel_set fi (64 + 32 * i) = Ok (snd kv))
      (range 0 n) cs.
Proof.
  unfold _read_channel_sets. intros H. inv_bind H as n Hn.
  inv_bind H as st Hst. destruct st as [cs' final]. apply Ok_inj in H.
  subst cs'. pose proof (_read_nonneg _ _ _ _ _ _ Hn) as Hn0.
  exists n. split; [exact Hn|]. split; [exact Hn0|].
  apply (channel_sets_loop fi (Z.to_nat (n - 0)) 0 n [] cs final);
    [lia | reflexivity | rewrite range_nil; constructor | exact Hst].
Qed.

Lemma channel_sets_lookup (fi : source) (l : list Z) (cs : dict channel_set)
  (i : Z) :
  Forall2 (fun i kv =>
             fst kv = str (i + 1) /\
             _read_channel_set fi (64 + 32 * i) = Ok (snd kv)) l cs ->
  In i l ->
  exists c,
    dict_find cs (str (i + 1)) = Some c /\
    _read_channel_set fi (64 + 32 * i) = Ok c.
Proof.
  induction 1 as [|j [k c] l cs [Hkey Hread] Hrest IH]; intros Hin;
    [destruct Hin|].
  cbn [fst snd] in Hkey, Hread. subst k. cbn [dict_find].
  destruct (String.eqb_spec (str (i + 1)) (str (j + 1))) as [E|E].
  - apply str_inj in E. assert (i = j) by lia. subst j. eauto.
  - destruct Hin as [->|Hin]; [contradiction E; reflexivity|].
    apply IH, Hin.
Qed.

(** X9: the dictionary returned by [_read_channel_sets] has exactly the keys
    ["1"], ..., ["n"], in this order, where [n] is the BCD byte at offset 28;
    the entry [str (i + 1)] is the channel set descriptor read at byte
    [64 + 32 * i]. *)
Theorem X9_channel_set_keys (fi : source) (cs : dict channel_set) :
  _read_channel_sets fi = Ok cs ->
  exists n,
    _read fi 28 (W 1) bcd true = Ok n /\
    Z.of_nat (List.length cs) = n /\
    map fst cs = map (fun i => str (i + 1)) (range 0 n) /\
    forall i, 0 <= i < n ->
      exists c,
        dict_get "channel_sets" cs (str (i + 1)) = Ok c /\
        _read_channel_set fi (64 + 32 * i) = Ok c.
Proof.
  intros H. apply _read_channel_sets_Ok in H.
  destruct H as (n & Hn & Hn0 & Hall). exists n.
  split; [exact Hn|]. split; [|split].
  - rewrite <- (Forall2_length Hall), range_length. lia.
  - clear Hn Hn0. induction Hall as [|i kv l cs' [Hkey _] _ IH];
      [reflexivity|].
    cbn [map]. rewrite Hkey, IH. reflexivity.
  - intros i Hi.
    destruct (channel_sets_lookup fi _ cs i Hall) as (c & Hfind & Hread).
    { apply range_In; lia. }
    exists c. unfold dict_get. rewrite Hfind. auto.
Qed.

Lemma X9_channel_set_keys_witness :
  exists cs n,
    _read_channel_sets three_blocks_file = Ok cs /\
    _read three_blocks_file 28 (W 1) bcd true = Ok n /\
    Z.of_nat (List.length cs) = n /\
    map fst cs = map (fun i => str (i + 1)) (range 0 n) /\
    forall i, 0 <= i < n ->
      exists c,
        dict_get "channel_sets" cs (str (i + 1)) = Ok c /\
        _read_channel_set three_blocks_file (64 + 32 * i) = Ok c.
Proof.
  eexists.
  destruct (X9_channel_set_keys three_blocks_file
              (match _read_channel_sets three_blocks_file with
               | Ok cs => cs
               | Raise _ => []
               end)) as (n & H).
  - vm_compute. reflexivity.
  - exists n. split; [vm_compute; reflexivity | exact H].
Defined.

Lemma _read_general_header_1_Ok (fi : source) (gh1 : general_header_1) :
  _read_general_header_1 fi = Ok gh1 ->
  _read fi 2 (W 2) bcd true = Ok (gh1_sample_format_code gh1) /\
  _read fi 16 (W 1) bcd true = Ok (gh1_manufacturer_code gh1) /\
  _read fi 22 (W 1) binary true = Ok (gh1_base_scan_interval gh1) /\
  _read fi 28 (W 1) bcd true = Ok (gh1_nbr_channel_set gh1).
Proof.
  unfold _read_general_header_1. intros H. inv_binds H.
  apply Ok_inj in H. subst gh1.
  cbn [gh1_sample_format_code gh1_manufacturer_code gh1_base_scan_interval
       gh1_nbr_channel_set]. auto.
Qed.

Lemma _read_general_header_2_Ok (fi : source) (gh2 : general_header_2) :
  _read_general_header_2 fi = Ok gh2 ->
  _read fi 37 (W 2) binary true = Ok (gh2_extended_header_blocks gh2) /\
  _read fi 39 (W 3) binary true = Ok (gh2_external_header_blocks gh2) /\
  _read fi 42 (W 2) binary true = Ok (gh2_version_number gh2).
Proof.
  unfold _read_general_header_2. intros H. inv_binds H.
  apply Ok_inj in H. subst gh2.
  cbn [gh2_extended_header_blocks gh2_external_header_blocks
       gh2_version_number]. auto.
Qed.

Lemma _read_initial_headers_Ok (fi : source) (ih : initial_headers) :
  _read_initial_headers fi = Ok ih ->
  _read_general_header_1 fi = Ok (ih_general_header_1 ih) /\
  _read_general_header_2 fi = Ok (ih_general_header_2 ih) /\
  _read_channel_sets fi = Ok (ih_channel_sets_descriptor ih) /\
  _read_extended_headers fi = Ok (ih_extended_headers ih).
Proof.
  unfold _read_initial_headers, _internal_read_initial_headers. intros H.
  inv_binds H. apply Ok_inj in H. subst ih.
  cbn [ih_general_header_1 ih_general_header_2 ih_channel_sets_descriptor
       ih_extended_headers]. auto.
Qed.

(** X12: when the initial headers can be read, the numbers the reader
    navigates with and the answer of the probe are those of the header
    fields: [_cmp_nbr_headers] returns the fields [nbr_channel_set],
    [extended_header_blocks] and [external_header_blocks], and [_is_rg16]
    answers whether the version number is 262, the sample format code 8058
    and the manufacturer code 20. *)
Theorem X12_headers_consistent (fi : source) (ih : initial_headers) :
  _read_initial_headers fi = Ok ih ->
  let gh1 := ih_general_header_1 ih in
  let gh2 := ih_general_header_2 ih in
  _cmp_nbr_headers fi
  = Ok (gh1_nbr_channel_set gh1, gh2_extended_header_blocks gh2,
        gh2_external_header_blocks gh2) /\
  _is_rg16 fi
  = Ok ((gh2_version_number gh2 =? 262)
        && (gh1_sample_format_code gh1 =? 8058)
        && (gh1_manufacturer_code gh1 =? 20))%bool /\
  Z.of_nat (List.length (ih_channel_sets_descriptor ih))
  = gh1_nbr_channel_set gh1.
Proof.
  intros H. cbv zeta. apply _read_initial_headers_Ok in H.
  destruct H as (Hgh1 & Hgh2 & Hcs & _).
  apply _read_general_header_1_Ok in Hgh1.
  destruct Hgh1 as (Hfmt & Hman & _ & Hncs).
  apply _read_general_header_2_Ok in Hgh2.
  destruct Hgh2 as (Hext & Hxtn & Hver).
  split; [|split].
  - unfold _cmp_nbr_headers. rewrite Hncs, Hext, Hxtn. reflexivity.
  - unfold _is_rg16, _internal_is_rg16. rewrite Hfmt, Hman, Hver.
    reflexivity.
  - apply _read_channel_sets_Ok in Hcs. destruct Hcs as (n & Hn & Hn0 & Hall).
    rewrite Hncs in Hn. apply Ok_inj in Hn. rewrite Hn.
    rewrite <- (Forall2_length Hall), range_length. lia.
Qed.

Lemma X12_headers_consistent_witness :
  exists ih,
    _read_initial_headers three_blocks_file = Ok ih /\
    let gh1 := ih_general_header_1 ih in
    let gh2 := ih_general_header_2 ih in
    _cmp_nbr_headers three_blocks_file
    = Ok (gh1_nbr_channel_set gh1, gh2_extended_header_blocks gh2,
          gh2_external_header_blocks gh2) /\
    _is_rg16 three_blocks_file
    = Ok ((gh2_version_number gh2 =? 262)
          && (gh1_sample_format_code gh1 =? 8058)
          && (gh1_manufacturer_code gh1 =? 20))%bool /\
    Z.of_nat (List.length (ih_channel_sets_descriptor ih))
    = gh1_nbr_channel_set gh1.
Proof.
  eexists. split; [vm_compute; reflexivity|].
  apply (X12_headers_consistent three_blocks_file).
  vm_compute. reflexivity.
Defined.

Lemma nodup_length {A : Type} (dec : forall x y : A, {x = y} + {x <> y})
  (l : list A) :
  (List.length (nodup dec l) <= List.length l)%nat /\
  (l <> [] -> nodup dec l <> []).
Proof.
  split.
  - apply NoDup_incl_length; [apply NoDup_nodup|].
    intros x Hx. eapply nodup_In, Hx.
  - intros Hne Hnil. destruct l as [|x l]; [contradiction Hne; reflexivity|].
    assert (Hin : In x (nodup dec (x :: l)))
      by (apply nodup_In; left; reflexivity).
    rewrite Hnil in Hin. destruct Hin.
Qed.

Lemma _read_extended_headers_slices (fi : source) (eh : extended_headers) :
  _read_extended_headers fi = Ok eh ->
  exists start_byte,
    _read fi (start_byte + 16) (W 4) binary true
    = Ok (eh2_nbr_time_slices (eh_2 eh)).
Proof.
  unfold _read_extended_headers. intros H.
  inv_bind H as n Hn. cbv zeta in H.
  inv_bind H as h1 Hh1. inv_bind H as h2 Hh2. inv_bind H as h3 Hh3.
  inv_bind H as ne Hne. inv_bind H as blocks Hblocks.
  apply Ok_inj in H. subst eh. cbn [eh_2].
  unfold _read_extended_header_2 in Hh2. inv_binds Hh2.
  apply Ok_inj in Hh2. subst h2. cbn [eh2_nbr_time_slices].
  eexists. eassumption.
Qed.

(** X11: the number of records that the reader walks is the number of time
    slices (the 4-byte integer of the second extended header, below [2^32])
    times the number of distinct channel numbers among the channel sets; it
    is never negative and never more than the number of time slices times
    the number of channel sets, and it is zero exactly when there is no time
    slice or no channel set. *)
Theorem X11_record_count (fi : source) (nbr_records : Z) :
  _cmp_nbr_records fi = Ok nbr_records ->
  exists ih,
    _read_initial_headers fi = Ok ih /\
    let nbr_time_slices :=
      eh2_nbr_time_slices (eh_2 (ih_extended_headers ih)) in
    let nbr_channel_set := gh1_nbr_channel_set (ih_general_header_1 ih) in
    let channels_number :=
      nodup Z.eq_dec
        (map (fun kv => cs_RU_channel_number (snd kv))
           (ih_channel_sets_descriptor ih)) in
    nbr_records = nbr_time_slices * Z.of_nat (List.length channels_number) /\
    NoDup channels_number /\
    (forall c,
       In c channels_number <->
       exists kv,
         In kv (ih_channel_sets_descriptor ih) /\
         cs_RU_channel_number (snd kv) = c) /\
    0 <= nbr_time_slices < 2 ^ 32 /\
    0 <= nbr_records <= nbr_time_slices * nbr_channel_set /\
    (nbr_records = 0 <-> nbr_time_slices = 0 \/ nbr_channel_set = 0).
Proof.
  unfold _cmp_nbr_records. intros H. inv_bind H as ih Hih.
  cbv zeta in H. apply Ok_inj in H. exists ih. split; [exact Hih|].
  cbv zeta. pose proof Hih as Hparts.
  apply _read_initial_headers_Ok in Hparts.
  destruct Hparts as (Hgh1 & _ & Hcs & Heh).
  apply _read_extended_headers_slices in Heh. destruct Heh as [sb Hslices].
  apply _read_binary_bound in Hslices.
  change (256 ^ Z.of_nat 4) with (2 ^ 32) in Hslices.
  apply _read_general_header_1_Ok in Hgh1. destruct Hgh1 as (_ & _ & _ & Hncs).
  apply _read_channel_sets_Ok in Hcs. destruct Hcs as (n & Hn & Hn0 & Hall).
  rewrite Hncs in Hn. apply Ok_inj in Hn.
  pose proof (Forall2_length Hall) as Hlen. rewrite range_length in Hlen.
  set (numbers := map (fun kv => cs_RU_channel_number (snd kv))
                    (ih_channel_sets_descriptor ih)) in *.
  destruct (nodup_length Z.eq_dec numbers) as [Hle Hne].
  assert (Hnumbers : List.length numbers
                     = List.length (ih_channel_sets_descriptor ih))
    by apply length_map.
  assert (Hzero : List.length (nodup Z.eq_dec numbers) = 0%nat <->
                  gh1_nbr_channel_set (ih_general_header_1 ih) = 0).
  { split; intros E.
    - destruct numbers as [|x l] eqn:Enum.
      + cbn [List.length] in Hnumbers. lia.
      + exfalso. apply Hne; [discriminate|].
        destruct (nodup Z.eq_dec (x :: l)); [reflexivity | discriminate E].
    - assert (Hnil : numbers = []).
      { destruct numbers; [reflexivity|]. cbn [List.length] in Hnumbers. lia. }
      rewrite Hnil. reflexivity. }
  split; [symmetry; exact H|]. split; [apply NoDup_nodup|]. split.
  { intros c. rewrite nodup_In. unfold numbers. rewrite in_map_iff.
    split; intros (kv & H1 & H2); exists kv; auto. }
  split; [exact Hslices|]. split; [nia|]. split; intros E.
  - assert (Hprod : eh2_nbr_time_slices (eh_2 (ih_extended_headers ih)) = 0 \/
                    Z.of_nat (List.length (nodup Z.eq_dec numbers)) = 0)
      by nia.
    destruct Hprod as [Hs|Hk]; [left; exact Hs | right].
    apply Hzero. lia.
  - destruct E as [Hs|Hm].
    + rewrite <- H, Hs. reflexivity.
    + apply Hzero in Hm. rewrite <- H, Hm. lia.
Qed.

(** On headers with two channel sets on the same channel and three time
    slices: three records, not six. *)
Lemma X11_record_count_witness :
  exists ih,
    _read_initial_headers two_channel_sets_headers = Ok ih /\
    List.length (ih_channel_sets_descriptor ih) = 2%nat /\
    let nbr_time_slices :=
      eh2_nbr_time_slices (eh_2 (ih_extended_headers ih)) in
    let nbr_channel_set := gh1_nbr_channel_set (ih_general_header_1 ih) in
    let channels_number :=
      nodup Z.eq_dec
        (map (fun kv => cs_RU_channel_number (snd kv))
           (ih_channel_sets_descriptor ih)) in
    3 = nbr_time_slices * Z.of_nat (List.length channels_number) /\
    NoDup channels_number /\
    (forall c,
       In c channels_number <->
       exists kv,
         In kv (ih_channel_sets_descriptor ih) /\
         cs_RU_channel_number (snd kv) = c) /\
    0 <= nbr_time_slices < 2 ^ 32 /\
    0 <= 3 <= nbr_time_slices * nbr_channel_set /\
    (3 = 0 <-> nbr_time_slices = 0 \/ nbr_channel_set = 0).
Proof.
  destruct (X11_record_count two_channel_sets_headers 3) as (ih & Hih & H);
    [vm_compute; reflexivity|].
  exists ih. split; [exact Hih|]. split; [|exact H].
  vm_compute in Hih. apply Ok_inj in Hih. subst ih. reflexivity.
Defined.

(** ** The coefficient blocks of the extended headers *)

Lemma coeff_key_inj (a b : Z) :
  ("coeff_" ++ str a)%string = ("coeff_" ++ str b)%string -> a = b.
Proof.
  intros H. cbn [String.append] in H. apply str_inj. congruence.
Qed.

Lemma coefficients_loop (fi : source) (start_byte : Z) (k : nat) :
  forall a b acc h final,
    0 <= a <= b -> Z.to_nat (b - a) = k ->
    Forall2 (fun i kv =>
               fst kv = ("coeff_" ++ str (i + 1))%string /\
               _read_IEEE fi (start_byte + 4 * i) = Ok (snd kv))
      (range 0 a) acc ->
    for_each (range a b)
      (fun i '(extended_header, start_byte) =>
         coeff <- _read_IEEE fi start_byte ;;
         Ok (dict_set extended_header ("coeff_" ++ str (i + 1))%string coeff,
             start_byte + 4))
      (acc, start_byte + 4 * a) = Ok (h, final) ->
    Forall2 (fun i kv =>
               fst kv = ("coeff_" ++ str (i + 1))%string /\
               _read_IEEE fi (start_byte + 4 * i) = Ok (snd kv))
      (range 0 b) h.
Proof.
  induction k as [|k IH]; intros a b acc h final Hab Hk Hacc H.
  - assert (b = a) by lia. subst b. rewrite range_nil in H.
    cbn [for_each] in H. apply Ok_inj in H.
    apply pair_equal_spec in H. destruct H as [<- _]. exact Hacc.
  - rewrite range_cons in H by lia. cbn [for_each] in H.
    inv_bind H as st Hst. inv_bind Hst as c Hc. apply Ok_inj in Hst.
    subst st.
    replace (start_byte + 4 * a + 4) with (start_byte + 4 * (a + 1)) in H
      by lia.
    apply (IH (a + 1) b
             (dict_set acc ("coeff_" ++ str (a + 1))%string c) h final);
      [lia | lia | | exact H].
    rewrite dict_set_fresh.
    + rewrite range_snoc by lia. apply Forall2_app; [exact Hacc|].
      constructor; [|constructor]. split; [reflexivity | exact Hc].
    + intros kv Hin Hkey.
      destruct (Forall2_In_right _ _ _ _ Hacc Hin) as (i & Hi & Hfst & _).
      apply range_bounds in Hi; [|lia].
      rewrite Hfst in Hkey. apply coeff_key_inj in Hkey. lia.
Qed.

Lemma coefficients_lookup (fi : source) (start_byte : Z) (l : list Z)
  (h : dict float32) (i : Z) :
  Forall2 (fun i kv =>
             fst kv = ("coeff_" ++ str (i + 1))%string /\
             _read_IEEE fi (start_byte + 4 * i) = Ok (snd kv)) l h ->
  In i l ->
  exists c,
    dict_find h ("coeff_" ++ str (i + 1))%string = Some c /\
    _read_IEEE fi (start_byte + 4 * i) = Ok c.
Proof.
  induction 1 as [|j [k c] l h [Hkey Hread] Hrest IH]; intros Hin;
    [destruct Hin|].
  cbn [fst snd] in Hkey, Hread. subst k. cbn [dict_find].
  destruct (String.eqb_spec ("coeff_" ++ str (i + 1))
              ("coeff_" ++ str (j + 1))) as [E|E].
  - apply coeff_key_inj in E. assert (i = j) by lia. subst j. eauto.
  - destruct Hin as [->|Hin]; [contradiction E; reflexivity|].
    apply IH, Hin.
Qed.

(** X10: a coefficient block read by [_read_extended_header] with
    [nbr_coeff] coefficients is a dictionary with the keys ["coeff_1"], ...,
    ["coeff_<nbr_coeff>"], in this order; the entry ["coeff_<i+1>"] is the
    single precision value at byte [start_byte + 4 * i]. With [nbr_coeff] at
    most 0 nothing is read and the dictionary is empty. The block number
    plays no part. *)
Theorem X10_coefficient_block (fi : source) (start_byte block_number : Z)
  (nbr_coeff : Z) (h : dict float32) :
  _read_extended_header fi start_byte block_number nbr_coeff = Ok h ->
  Z.of_nat (List.length h) = Z.max 0 nbr_coeff /\
  map fst h
  = map (fun i => ("coeff_" ++ str (i + 1))%string) (range 0 nbr_coeff) /\
  (forall i, 0 <= i < nbr_coeff ->
     exists c,
       dict_get "extended_header" h ("coeff_" ++ str (i + 1))%string = Ok c /\
       _read_IEEE fi (start_byte + 4 * i) = Ok c) /\
  (forall other_block,
     _read_extended_header fi start_byte other_block nbr_coeff = Ok h).
Proof.
  intros H. pose proof H as Hcall. unfold _read_extended_header in H.
  inv_bind H as st Hst. destruct st as [h' final]. apply Ok_inj in H.
  subst h'.
  assert (Hall : Forall2 (fun i kv =>
                            fst kv = ("coeff_" ++ str (i + 1))%string /\
                            _read_IEEE fi (start_byte + 4 * i)
                            = Ok (snd kv))
                   (range 0 nbr_coeff) h).
  { destruct (Z_le_gt_dec nbr_coeff 0) as [Hle|Hgt].
    - assert (Hnil : range 0 nbr_coeff = []).
      { apply length_zero_iff_nil. rewrite range_length. lia. }
      rewrite Hnil in Hst |- *. cbn [for_each] in Hst. apply Ok_inj in Hst.
      apply pair_equal_spec in Hst. destruct Hst as [<- _]. constructor.
    - apply (coefficients_loop fi start_byte (Z.to_nat (nbr_coeff - 0))
               0 nbr_coeff [] h final);
        [lia | reflexivity | rewrite range_nil; constructor|].
      rewrite Z.mul_0_r, Z.add_0_r. exact Hst. }
  split; [|split; [|split]].
  - rewrite <- (Forall2_length Hall), range_length. lia.
  - clear Hst Hcall. induction Hall as [|i kv l h' [Hkey _] _ IH];
      [reflexivity|].
    cbn [map]. rewrite Hkey, IH. reflexivity.
  - intros i Hi.
    destruct (coefficients_lookup fi start_byte _ h i Hall)
      as (c & Hfind & Hread).
    { apply range_In; lia. }
    exists c. unfold dict_get. rewrite Hfind. auto.
  - intros other_block. exact Hcall.
Qed.

Lemma X10_coefficient_block_witness :
  exists h,
    _read_extended_header three_blocks_file 0 4 2 = Ok h /\
    Z.of_nat (List.length h) = Z.max 0 2 /\
    map fst h
    = map (fun i => ("coeff_" ++ str (i + 1))%string) (range 0 2) /\
    (forall i, 0 <= i < 2 ->
       exists c,
         dict_get "extended_header" h ("coeff_" ++ str (i + 1))%string
         = Ok c /\
         _read_IEEE three_blocks_file (0 + 4 * i) = Ok c) /\
    (forall other_block,
       _read_extended_header three_blocks_file 0 other_block 2 = Ok h).
Proof.
  eexists. split; [vm_compute; reflexivity|].
  apply (X10_coefficient_block three_blocks_file 0 4 2).
  vm_compute. reflexivity.
Defined.

(** ** The default start of the window *)

Lemma for_each_ext {S : Type} (l : list Z) (body1 body2 : Z -> S -> result S) :
  (forall i s, body1 i s = body2 i s) ->
  forall s, for_each l body1 s = for_each l body2 s.
Proof.
  intros Hext. induction l as [|i l IH]; intros s; [reflexivity|].
  cbn [for_each]. rewrite Hext. destruct (body2 i s) as [s'|e]; cbn [bind];
    [apply IH | reflexivity].
Qed.

Lemma read_trace_block_early_start (fi : source) (headonly : bool)
  (window_start window_end : UTCDateTime) (contacts_north details : bool)
  (i : Z) (state : Z * list Trace) :
  (window_start <= 0)%Q ->
  read_trace_block fi headonly window_start window_end contacts_north
    details i state
  = read_trace_block fi headonly 0%Q window_end contacts_north details i
      state.
Proof.
  intros Hstart. unfold read_trace_block. destruct state as [pos traces].
  destruct (_cmp_jump fi pos) as [len|e]; cbn [bind]; [|reflexivity].
  destruct (_read fi (pos + 20 + 2 * 32) (W 8) binary true) as [t|e] eqn:Ht;
    cbn [bind]; [|reflexivity].
  apply _read_nonneg in Ht.
  assert (Ht0 : (0 <= div_float t 1000000)%Q)
    by (apply div_float_nonneg; lia).
  assert (E1 : Qle_bool 0 (div_float t 1000000) = true)
    by (apply Qle_bool_iff; exact Ht0).
  assert (E2 : Qle_bool window_start (div_float t 1000000) = true).
  { apply Qle_bool_iff. eapply Qle_trans; eassumption. }
  rewrite E1, E2. reflexivity.
Qed.

(** X19: a start time at or before the epoch filters nothing, because the
    start time of a block is never negative: [_read_rg16] called with such a
    [starttime] behaves exactly as with [starttime=None], for every source
    and all other arguments, results and exceptions alike. *)
Theorem X19_start_before_epoch (now : UTCDateTime) (fi : source)
  (headonly : bool) (window_start : UTCDateTime)
  (window_end : option UTCDateTime) (merge contacts_north details : bool) :
  (window_start <= 0)%Q ->
  _read_rg16 now fi headonly (Some window_start) window_end merge
    contacts_north details
  = _read_rg16 now fi headonly None window_end merge contacts_north details.
Proof.
  intros Hstart. unfold _read_rg16, _internal_read_rg16.
  destruct (_cmp_nbr_headers fi) as [[[a b] c]|e]; cbn [bind];
    [|reflexivity].
  destruct (_cmp_nbr_records fi) as [n|e]; cbn [bind]; [|reflexivity].
  rewrite (for_each_ext (range 0 n)
             (read_trace_block fi headonly window_start
                match window_end with None => now | Some t => t end
                contacts_north details)
             (read_trace_block fi headonly 0%Q
                match window_end with None => now | Some t => t end
                contacts_north details)).
  - reflexivity.
  - intros i s. apply read_trace_block_early_start. exact Hstart.
Qed.

Lemma X19_start_before_epoch_witness :
  _read_rg16 2000%Q three_blocks_file false (Some (-5)%Q) None true false
    false
  = _read_rg16 2000%Q three_blocks_file false None None true false false.
Proof.
  apply (X19_start_before_epoch 2000%Q three_blocks_file false (-5)%Q).
  vm_compute. discriminate.
Defined.
